(** * push-base-service: relay pipeline, store and Expo adapter

    A shallow embedding of the Go sources of the push relay
    (packages [pebble_service], [expo_service], [push_service] and
    [pushcenter]) together with the properties checked against them.

    Conventions of the embedding.
    - Go [string] is [string] (a sequence of bytes, so [String.length] is
      Go's [len]); Go [int]/[int64] is [Z] with the 64-bit wrap-around
      written out by [wrap64] wherever the source computes with it.
    - Go maps are [gmap]; a nil map and an empty map behave alike for the
      reads and deletes the code performs on them.
    - An [error] return is the [Err] case of [result].  A run-time panic
      (slice bounds) is the distinguished error [PanicSliceBounds].
    - Every pebble keyspace holds the typed record that [json.Marshal]
      wrote; the disk itself is reliable.  What can fail is what the code
      checks: empty arguments, an uninitialised global service, a missing
      device.
    - [time.Now()] is an explicit argument [now].
    - Goroutines started by one call are run to completion, one after the
      other, before the call returns.  Contexts, deadlines and wall-clock
      durations are left out. *)

From Stdlib Require Import ZArith QArith.QArith_base Lia Ascii.
From stdpp Require Import base option list strings gmap fin_maps sorting.

Local Open Scope string_scope.
Local Open Scope Z_scope.

(** ** Results and the state/error monad *)

Inductive error : Type :=
  | ErrEmptyArgument        (* a required string argument is empty *)
  | ErrNotInitialized       (* the global pebble service is nil *)
  | ErrDeviceNotFound       (* pebble.ErrNotFound on the devices keyspace *)
  | ErrMessageNil           (* chat message or its content is nil *)
  | ErrNoMessages           (* client: no messages to send *)
  | ErrTooManyMessages      (* client: more than MaxMessagesPerRequest *)
  | ErrTransport            (* http transport failure / non-200 status *)
  | ErrAPIErrors            (* response carries top-level API errors *)
  | ErrPushFailed           (* ticket status is not ok *)
  | ErrNoResponseData       (* response carries no ticket *)
  | ErrMaxRetries           (* max retries exceeded *)
  | ErrNoTokens             (* manager: no push tokens provided *)
  | ErrNoValidTokens        (* manager: no valid push tokens provided *)
  | ErrInvalidToken         (* dispatcher: invalid token for platform *)
  | PanicSliceBounds.       (* run-time panic: slice bounds out of range *)

Inductive result (A : Type) : Type :=
  | Ok (a : A)
  | Err (e : error).
Arguments Ok {A} a.
Arguments Err {A} e.

Definition is_ok {A} (r : result A) : bool :=
  match r with Ok _ => true | Err _ => false end.

(** A computation over a state [S] that may fail; the state reached so far
    survives a failure, as writes already made to the store do. *)
Definition StateErr (S A : Type) : Type := S -> result A * S.

Definition ret {S A} (a : A) : StateErr S A := fun s => (Ok a, s).
Definition fail {S A} (e : error) : StateErr S A := fun s => (Err e, s).
Definition bind {S A B} (c : StateErr S A) (k : A -> StateErr S B) : StateErr S B :=
  fun s => match c s with
           | (Ok a, s') => k a s'
           | (Err e, s') => (Err e, s')
           end.
(** Run [c] and hand its outcome, error included, to the continuation. *)
Definition try {S A B} (c : StateErr S A) (k : result A -> StateErr S B) : StateErr S B :=
  fun s => let '(r, s') := c s in k r s'.
Definition get {S} : StateErr S S := fun s => (Ok s, s).
Definition modify {S} (f : S -> S) : StateErr S unit := fun s => (Ok tt, f s).

Notation "'do' x <- c ; k" := (bind c (fun x => k))
  (at level 10, x name, c at level 100, k at level 200).
Notation "'do_' c ; k" := (bind c (fun _ => k))
  (at level 10, c at level 100, k at level 200).

(** Go's 64-bit two's-complement [int]. *)
Definition wrap64 (z : Z) : Z := (z + 2 ^ 63) mod 2 ^ 64 - 2 ^ 63.
Definition MaxInt64 : Z := 2 ^ 63 - 1.

Definition len (s : string) : Z := Z.of_nat (String.length s).

(** ** models *)

Module models.

Record UserPushTokens := {
  MetaID : string;
  Tokens : gmap string string;     (* platform -> token *)
  UpdatedAt : Z }.

Record DeviceInfo := {
  DeviceID : string;
  Platform : string;
  DeviceMetaID : string;           (* DeviceInfo.MetaID *)
  DeviceUpdatedAt : Z }.

Record BlockedChat := {
  UserID : string;
  ChatID : string;
  ChatType : string;
  BlockedAt : Z;
  Reason : string }.

Record UserBlockedChats := {
  BlockedUserID : string;          (* UserBlockedChats.UserID *)
  BlockedChats : list BlockedChat;
  BlockedUpdatedAt : Z }.

Record NotifiedPin := {
  PinID : string;
  NotifiedAt : Z }.

End models.

(** ** pebble_service: the store *)

Module PebbleService.
Import models.

(** One field per collection ([CollectionUserTokens], [CollectionDevices],
    [CollectionBlockedChats], [CollectionNotifiedPins]); keys are the
    logical ids ([buildKey]). *)
Record t := {
  user_tokens : gmap string UserPushTokens;
  devices : gmap string DeviceInfo;
  blocked_chats : gmap string UserBlockedChats;
  notified_pins : gmap string NotifiedPin }.

Definition empty : t :=
  {| user_tokens := ∅; devices := ∅; blocked_chats := ∅; notified_pins := ∅ |}.

Definition set_user_tokens (m : gmap string UserPushTokens) (ps : t) : t :=
  {| user_tokens := m; devices := devices ps;
     blocked_chats := blocked_chats ps; notified_pins := notified_pins ps |}.
Definition set_devices (m : gmap string DeviceInfo) (ps : t) : t :=
  {| user_tokens := user_tokens ps; devices := m;
     blocked_chats := blocked_chats ps; notified_pins := notified_pins ps |}.
Definition set_blocked_chats (m : gmap string UserBlockedChats) (ps : t) : t :=
  {| user_tokens := user_tokens ps; devices := devices ps;
     blocked_chats := m; notified_pins := notified_pins ps |}.
Definition set_notified_pins (m : gmap string NotifiedPin) (ps : t) : t :=
  {| user_tokens := user_tokens ps; devices := devices ps;
     blocked_chats := blocked_chats ps; notified_pins := m |}.

(** [SaveUserTokens]: stamp and write under the record's own [MetaID]. *)
Definition SaveUserTokens (now : Z) (userTokens : UserPushTokens) : StateErr t unit :=
  fun ps =>
    if String.eqb (MetaID userTokens) "" then (Err ErrEmptyArgument, ps)
    else
      let stamped := {| MetaID := MetaID userTokens;
                        Tokens := Tokens userTokens;
                        UpdatedAt := now |} in
      (Ok tt, set_user_tokens (<[MetaID userTokens := stamped]> (user_tokens ps)) ps).

(** [GetUserTokens]: an absent key yields an empty record, never an error. *)
Definition GetUserTokens (now : Z) (metaId : string) (ps : t) : result UserPushTokens :=
  if String.eqb metaId "" then Err ErrEmptyArgument
  else match user_tokens ps !! metaId with
       | None => Ok {| MetaID := metaId; Tokens := ∅; UpdatedAt := now |}
       | Some userTokens => Ok userTokens
       end.

Definition SaveDeviceInfo (now : Z) (deviceInfo : DeviceInfo) : StateErr t unit :=
  fun ps =>
    if String.eqb (DeviceID deviceInfo) "" then (Err ErrEmptyArgument, ps)
    else if String.eqb (Platform deviceInfo) "" then (Err ErrEmptyArgument, ps)
    else if String.eqb (DeviceMetaID deviceInfo) "" then (Err ErrEmptyArgument, ps)
    else
      let stamped := {| DeviceID := DeviceID deviceInfo;
                        Platform := Platform deviceInfo;
                        DeviceMetaID := DeviceMetaID deviceInfo;
                        DeviceUpdatedAt := now |} in
      (Ok tt, set_devices (<[DeviceID deviceInfo := stamped]> (devices ps)) ps).

Definition GetDeviceInfo (deviceId : string) (ps : t) : result DeviceInfo :=
  if String.eqb deviceId "" then Err ErrEmptyArgument
  else match devices ps !! deviceId with
       | None => Err ErrDeviceNotFound
       | Some deviceInfo => Ok deviceInfo
       end.

(** The scrub of the prior owner inside [SetUserToken]: remove the
    [platform] entry of the old user when it holds this very token.  A
    failure to read or to save is logged and otherwise ignored. *)
Definition scrubOldOwner (now : Z) (oldMetaId platform token : string) (ps : t) : t :=
  match GetUserTokens now oldMetaId ps with
  | Ok oldUserTokens =>
      match Tokens oldUserTokens !! platform with
      | Some oldToken =>
          if String.eqb oldToken token then
            snd (SaveUserTokens now
                   {| MetaID := MetaID oldUserTokens;
                      Tokens := delete platform (Tokens oldUserTokens);
                      UpdatedAt := UpdatedAt oldUserTokens |} ps)
          else ps
      | None => ps
      end
  | Err _ => ps
  end.

(** [SetUserToken]: the token is the device id. *)
Definition SetUserToken (now : Z) (metaId platform token : string) : StateErr t unit :=
  fun ps =>
    if String.eqb metaId "" || String.eqb platform "" || String.eqb token ""
    then (Err ErrEmptyArgument, ps)
    else
      (* 1. device binding *)
      let '(saved, ps1) :=
        match GetDeviceInfo token ps with
        | Ok existingDevice =>
            let ps0 :=
              if negb (String.eqb (DeviceMetaID existingDevice) metaId)
              then scrubOldOwner now (DeviceMetaID existingDevice) platform token ps
              else ps in
            SaveDeviceInfo now
              {| DeviceID := DeviceID existingDevice;
                 Platform := platform;
                 DeviceMetaID := metaId;
                 DeviceUpdatedAt := DeviceUpdatedAt existingDevice |} ps0
        | Err _ =>
            SaveDeviceInfo now
              {| DeviceID := token; Platform := platform;
                 DeviceMetaID := metaId; DeviceUpdatedAt := now |} ps
        end in
      match saved with
      | Err e => (Err e, ps1)
      | Ok _ =>
          (* 2.-4. upsert the platform entry of the new owner *)
          match GetUserTokens now metaId ps1 with
          | Err e => (Err e, ps1)
          | Ok userTokens =>
              SaveUserTokens now
                {| MetaID := MetaID userTokens;
                   Tokens := <[platform := token]> (Tokens userTokens);
                   UpdatedAt := UpdatedAt userTokens |} ps1
          end
      end.

(** [GetAllUserTokens]: batched point gets into a map keyed by the
    requested id; a failed get contributes an empty record. *)
Definition GetAllUserTokens (now : Z) (metaIds : list string) (ps : t)
  : gmap string UserPushTokens :=
  foldl (fun acc metaId =>
           let userTokens :=
             match GetUserTokens now metaId ps with
             | Ok ut => ut
             | Err _ => {| MetaID := metaId; Tokens := ∅; UpdatedAt := now |}
             end in
           <[metaId := userTokens]> acc) ∅ metaIds.

(** *** Paging over the user_tokens keyspace *)

Record PaginatedUserTokens := {
  Users : list UserPushTokens;
  Total : Z;
  Page : Z;
  PageSize : Z;
  TotalPages : Z;
  HasNext : bool }.

(** A pebble iterator walks the keys in bytewise order. *)
Definition key_le (a b : string * UserPushTokens) : Prop :=
  String.leb (fst a) (fst b) = true.
Global Instance key_le_dec a b : Decision (key_le a b).
Proof. unfold key_le. apply _. Defined.

Definition scanUserTokens (ps : t) : list UserPushTokens :=
  snd <$> merge_sort key_le (map_to_list (user_tokens ps)).

(** [allUsers[startIndex:endIndex]] with Go's bounds check. *)
Definition slice {A} (l : list A) (lo hi : Z) : result (list A) :=
  if (0 <=? lo) && (lo <=? hi) && (hi <=? Z.of_nat (length l))
  then Ok (take (Z.to_nat (hi - lo)) (drop (Z.to_nat lo) l))
  else Err PanicSliceBounds.

Definition GetUserTokensList (page pageSize : Z) (ps : t) : result PaginatedUserTokens :=
  let page := if page <? 1 then 1 else page in
  let pageSize := if pageSize <? 1 then 10 else pageSize in
  let pageSize := if pageSize >? 100 then 100 else pageSize in
  let allUsers := scanUserTokens ps in
  let total := Z.of_nat (length allUsers) in
  let totalPages := wrap64 (total + pageSize - 1) ÷ pageSize in
  let startIndex := wrap64 ((page - 1) * pageSize) in
  let endIndex := wrap64 (startIndex + pageSize) in
  if startIndex >=? total then
    Ok {| Users := []; Total := total; Page := page; PageSize := pageSize;
          TotalPages := totalPages; HasNext := false |}
  else
    let endIndex := if endIndex >? total then total else endIndex in
    match slice allUsers startIndex endIndex with
    | Err e => Err e
    | Ok pageUsers =>
        Ok {| Users := pageUsers; Total := total; Page := page; PageSize := pageSize;
              TotalPages := totalPages; HasNext := page <? totalPages |}
    end.

(** *** Blocked chats *)

(** [getUserBlockedChatsFromDB]: an absent key is an empty list. *)
Definition getUserBlockedChatsFromDB (now : Z) (userId : string) (ps : t) : UserBlockedChats :=
  match blocked_chats ps !! userId with
  | None => {| BlockedUserID := userId; BlockedChats := []; BlockedUpdatedAt := now |}
  | Some userBlockedChats => userBlockedChats
  end.

(** The scan [for _, blockedChat := range ...; if blockedChat.ChatID == chatId]. *)
Definition hasChat (chatId : string) (l : list BlockedChat) : bool :=
  existsb (fun blockedChat => String.eqb (ChatID blockedChat) chatId) l.

Definition AddBlockedChat (now : Z) (userId chatId chatType reason : string)
  : StateErr t unit :=
  fun ps =>
    if String.eqb userId "" || String.eqb chatId "" then (Err ErrEmptyArgument, ps)
    else
      let userBlockedChats := getUserBlockedChatsFromDB now userId ps in
      if hasChat chatId (BlockedChats userBlockedChats) then (Ok tt, ps)
      else
        let newBlockedChat :=
          {| UserID := userId; ChatID := chatId; ChatType := chatType;
             BlockedAt := now; Reason := reason |} in
        let updated :=
          {| BlockedUserID := BlockedUserID userBlockedChats;
             BlockedChats := (BlockedChats userBlockedChats ++ [newBlockedChat])%list;
             BlockedUpdatedAt := now |} in
        (Ok tt, set_blocked_chats (<[userId := updated]> (blocked_chats ps)) ps).

Definition IsBlockedChat (now : Z) (userId chatId : string) (ps : t) : result bool :=
  if String.eqb userId "" || String.eqb chatId "" then Err ErrEmptyArgument
  else Ok (hasChat chatId (BlockedChats (getUserBlockedChatsFromDB now userId ps))).

Definition RemoveBlockedChat (now : Z) (userId chatId : string) : StateErr t unit :=
  fun ps =>
    if String.eqb userId "" || String.eqb chatId "" then (Err ErrEmptyArgument, ps)
    else
      let userBlockedChats := getUserBlockedChatsFromDB now userId ps in
      let newBlockedChats :=
        List.filter (fun blockedChat => negb (String.eqb (ChatID blockedChat) chatId))
                    (BlockedChats userBlockedChats) in
      if negb (hasChat chatId (BlockedChats userBlockedChats)) then (Ok tt, ps)
      else match newBlockedChats with
           | [] => (Ok tt, set_blocked_chats (delete userId (blocked_chats ps)) ps)
           | _ =>
               let updated :=
                 {| BlockedUserID := BlockedUserID userBlockedChats;
                    BlockedChats := newBlockedChats;
                    BlockedUpdatedAt := now |} in
               (Ok tt, set_blocked_chats (<[userId := updated]> (blocked_chats ps)) ps)
           end.

(** [GetUserBlockedChats] *)
Definition GetUserBlockedChats (now : Z) (userId : string) (ps : t)
  : result UserBlockedChats :=
  if String.eqb userId "" then Err ErrEmptyArgument
  else Ok (getUserBlockedChatsFromDB now userId ps).

(** *** Removing tokens and devices *)

(** [RemoveUserToken]: an absent entry is a success and writes nothing. *)
Definition RemoveUserToken (now : Z) (metaId platform : string) : StateErr t unit :=
  fun ps =>
    if String.eqb metaId "" || String.eqb platform "" then (Err ErrEmptyArgument, ps)
    else
      match GetUserTokens now metaId ps with
      | Err e => (Err e, ps)
      | Ok userTokens =>
          match Tokens userTokens !! platform with
          | None => (Ok tt, ps)
          | Some _ =>
              SaveUserTokens now
                {| MetaID := MetaID userTokens;
                   Tokens := delete platform (Tokens userTokens);
                   UpdatedAt := UpdatedAt userTokens |} ps
          end
      end.

(** [DeleteUserTokens]: drops the key; the devices keyspace is not touched. *)
Definition DeleteUserTokens (metaId : string) : StateErr t unit :=
  fun ps =>
    if String.eqb metaId "" then (Err ErrEmptyArgument, ps)
    else (Ok tt, set_user_tokens (delete metaId (user_tokens ps)) ps).

Definition DeleteDeviceInfo (deviceId : string) : StateErr t unit :=
  fun ps =>
    if String.eqb deviceId "" then (Err ErrEmptyArgument, ps)
    else (Ok tt, set_devices (delete deviceId (devices ps)) ps).

(** [SetDeviceInfo]: rebinding a device to another user removes whatever
    token the old user holds on [platform]; the new user's tokens are not
    written. *)
Definition SetDeviceInfo (now : Z) (deviceId platform metaId : string) : StateErr t unit :=
  fun ps =>
    if String.eqb deviceId "" || String.eqb platform "" || String.eqb metaId ""
    then (Err ErrEmptyArgument, ps)
    else
      match GetDeviceInfo deviceId ps with
      | Ok existingDevice =>
          let ps0 :=
            if negb (String.eqb (DeviceMetaID existingDevice) metaId) then
              match GetUserTokens now (DeviceMetaID existingDevice) ps with
              | Ok oldUserTokens =>
                  match Tokens oldUserTokens !! platform with
                  | Some _ =>
                      snd (SaveUserTokens now
                             {| MetaID := MetaID oldUserTokens;
                                Tokens := delete platform (Tokens oldUserTokens);
                                UpdatedAt := UpdatedAt oldUserTokens |} ps)
                  | None => ps
                  end
              | Err _ => ps
              end
            else ps in
          SaveDeviceInfo now
            {| DeviceID := DeviceID existingDevice;
               Platform := platform;
               DeviceMetaID := metaId;
               DeviceUpdatedAt := DeviceUpdatedAt existingDevice |} ps0
      | Err _ =>
          SaveDeviceInfo now
            {| DeviceID := deviceId; Platform := platform;
               DeviceMetaID := metaId; DeviceUpdatedAt := now |} ps
      end.

(** *** Notified pins *)

Definition AddNotifiedPin (now : Z) (pinId : string) : StateErr t unit :=
  fun ps =>
    if String.eqb pinId "" then (Err ErrEmptyArgument, ps)
    else
      let notifiedPin := {| PinID := pinId; NotifiedAt := now |} in
      (Ok tt, set_notified_pins (<[pinId := notifiedPin]> (notified_pins ps)) ps).

Definition IsNotifiedPin (pinId : string) (ps : t) : result bool :=
  if String.eqb pinId "" then Err ErrEmptyArgument
  else match notified_pins ps !! pinId with
       | None => Ok false
       | Some _ => Ok true
       end.

Definition RemoveNotifiedPin (pinId : string) : StateErr t unit :=
  fun ps =>
    if String.eqb pinId "" then (Err ErrEmptyArgument, ps)
    else (Ok tt, set_notified_pins (delete pinId (notified_pins ps)) ps).

End PebbleService.

(** Package-level entry points of [pebble_service]: they go through the
    process-wide [globalService], which is nil until
    [InitializeGlobalService] has run. *)
Module pebble_service.

Definition globalService : Type := option PebbleService.t.

Definition withService {A} (g : globalService) (k : PebbleService.t -> result A) : result A :=
  match g with
  | None => Err ErrNotInitialized
  | Some service => k service
  end.

Definition updService {A} (c : StateErr PebbleService.t A) : StateErr globalService A :=
  fun g => match g with
           | None => (Err ErrNotInitialized, None)
           | Some service => let '(r, service') := c service in (r, Some service')
           end.

Definition SetUserToken (now : Z) (metaID platform token : string)
  : StateErr globalService unit :=
  updService (PebbleService.SetUserToken now metaID platform token).

Definition GetUserTokenByMetaID (now : Z) (metaID : string) (g : globalService)
  : result models.UserPushTokens :=
  if String.eqb metaID "" then Err ErrEmptyArgument
  else withService g (PebbleService.GetUserTokens now metaID).

Definition GetUserTokensList (page pageSize : Z) (g : globalService)
  : result PebbleService.PaginatedUserTokens :=
  withService g (PebbleService.GetUserTokensList page pageSize).

Definition GetDeviceInfo (deviceID : string) (g : globalService) : result models.DeviceInfo :=
  if String.eqb deviceID "" then Err ErrEmptyArgument
  else withService g (PebbleService.GetDeviceInfo deviceID).

Definition AddBlockedChat (now : Z) (metaID chatID chatType reason : string)
  : StateErr globalService unit :=
  fun g =>
    if String.eqb metaID "" then (Err ErrEmptyArgument, g)
    else if String.eqb chatID "" then (Err ErrEmptyArgument, g)
    else if String.eqb chatType "" then (Err ErrEmptyArgument, g)
    else updService (PebbleService.AddBlockedChat now metaID chatID chatType reason) g.

Definition IsUserBlockedChat (now : Z) (metaID chatID : string) (g : globalService)
  : result bool :=
  if String.eqb metaID "" then Err ErrEmptyArgument
  else if String.eqb chatID "" then Err ErrEmptyArgument
  else withService g (PebbleService.IsBlockedChat now metaID chatID).

Definition AddNotifiedPin (now : Z) (pinID : string) : StateErr globalService unit :=
  fun g =>
    if String.eqb pinID "" then (Err ErrEmptyArgument, g)
    else updService (PebbleService.AddNotifiedPin now pinID) g.

Definition IsNotifiedPin (pinID : string) (g : globalService) : result bool :=
  if String.eqb pinID "" then Err ErrEmptyArgument
  else withService g (PebbleService.IsNotifiedPin pinID).

End pebble_service.

(** ** Dynamic values ([interface{}]) *)

(** What an [interface{}] can hold on the paths of the relay: the result of
    [json.Unmarshal] into [interface{}] (nil, bool, float64, string, slice,
    map) and the integer kinds the chat-type switch also accepts.  A
    [float64] is carried as the rational it denotes. *)
#[local] Set Warnings "-register-all".
Inductive Value : Type :=
  | VNil
  | VBool (b : bool)
  | VString (s : string)
  | VFloat64 (q : Q)
  | VInt (z : Z)
  | VInt64 (z : Z)
  | VInt32 (z : Z)
  | VInt16 (z : Z)
  | VInt8 (z : Z)
  | VSlice (l : list Value)
  | VMap (m : list (string * Value)).

(** [v, exists := m[key]] on a [map[string]interface{}]. *)
Fixpoint mapIndex (m : list (string * Value)) (key : string) : option Value :=
  match m with
  | [] => None
  | (k, v) :: rest => if String.eqb k key then Some v else mapIndex rest key
  end.

(** [v, ok := x.(string)] *)
Definition asString (v : Value) : option string :=
  match v with VString s => Some s | _ => None end.

(** [int64(v)] for a [float64]: truncation toward zero; a value outside the
    int64 range converts to the minimum int64, as amd64 does. *)
Definition int64_of_float64 (q : Q) : Z :=
  let z := Qnum q ÷ Zpos (Qden q) in
  if (- 2 ^ 63 <=? z) && (z <=? MaxInt64) then z else - 2 ^ 63.

(** ** expo_service *)

Module expo_service.

Definition MaxMessagesPerRequest : Z := 100.

Record PushMessage := {
  To : list string;
  Title : string;
  Body : string;
  Data : gmap string Value;
  Sound : string;
  TTL : Z;
  Priority : string;
  Badge : option Z;
  RichContentImage : option string }.

Record PushTicket := {
  Status : string;
  ID : string;
  Message : string }.

Record PushResponse := {
  ResponseData : list PushTicket;
  Errors : list string }.

(** *** The network *)

(** What the process did to the outside world: the payload of every HTTP
    request posted to the push endpoint, oldest first, and every
    [time.Sleep] it took, in nanoseconds. *)
Record Net := {
  sent : list (list PushMessage);
  slept : list Z }.

Definition Net0 : Net := {| sent := []; slept := [] |}.

(** The far end: the outcome of the [k]-th request (counted from 0) given
    its payload.  [Err] is a transport failure or a non-200 status. *)
Definition Transport : Type := nat -> list PushMessage -> result PushResponse.

Record Client := { transport : Transport }.

Definition post (c : Client) (messages : list PushMessage) : StateErr Net PushResponse :=
  fun n => (transport c (length (sent n)) messages,
            {| sent := sent n ++ [messages]; slept := slept n |}).

Definition Sleep (d : Z) : StateErr Net unit :=
  modify (fun n => {| sent := sent n; slept := slept n ++ [d] |}).

(** [Client.SendPushNotifications]: the two size checks fail before any
    request is made. *)
Definition SendPushNotifications (c : Client) (messages : list PushMessage)
  : StateErr Net PushResponse :=
  if Z.of_nat (length messages) =? 0 then fail ErrNoMessages
  else if Z.of_nat (length messages) >? MaxMessagesPerRequest then fail ErrTooManyMessages
  else post c messages.

Definition SendPushNotification (c : Client) (message : PushMessage)
  : StateErr Net PushResponse :=
  SendPushNotifications c [message].

(** *** Service: retries *)

Record Service := {
  client : Client;
  maxRetries : Z;
  baseDelay : Z }.      (* time.Duration, nanoseconds *)

Record SendNotificationResult := {
  Success : bool;
  ReceiptID : string;
  Error : option error;
  Token : string;
  Retry : Z }.

Definition setError (e : error) (retry : Z) (r : SendNotificationResult) :=
  {| Success := Success r; ReceiptID := ReceiptID r; Error := Some e;
     Token := Token r; Retry := retry |}.
Definition setRetry (retry : Z) (r : SendNotificationResult) :=
  {| Success := Success r; ReceiptID := ReceiptID r; Error := Error r;
     Token := Token r; Retry := retry |}.
Definition setSuccess (id : string) (retry : Z) (r : SendNotificationResult) :=
  {| Success := true; ReceiptID := id; Error := Error r;
     Token := Token r; Retry := retry |}.

Definition shouldRetry (s : Service) (err : error) (retryCount : Z) : bool :=
  if retryCount >=? maxRetries s then false else true.

(** The sleep of [waitBeforeRetry] for [retryCount > 0]:
    [baseDelay * 2^(retryCount-1)] plus a tenth of it.  The source computes
    both products in float64 and truncates; for the durations in use they
    are the exact values written here. *)
Definition backoffDelay (s : Service) (retryCount : Z) : Z :=
  let delay := baseDelay s * 2 ^ (retryCount - 1) in
  let jitter := delay ÷ 10 in
  delay + jitter.

Definition waitBeforeRetry (s : Service) (retryCount : Z) : StateErr Net unit :=
  if retryCount =? 0 then ret tt
  else Sleep (backoffDelay s retryCount).

(** [for retry := 0; retry <= s.maxRetries; retry++]: [fuel] is the number
    of iterations the loop condition still admits, [maxRetries + 1 - retry]. *)
Definition iterations (s : Service) : nat := Z.to_nat (maxRetries s + 1).

Fixpoint singleLoop (s : Service) (message : PushMessage) (fuel : nat) (retry : Z)
    (result : SendNotificationResult) : StateErr Net SendNotificationResult :=
  match fuel with
  | O => ret (setError ErrMaxRetries (Retry result) result)
  | S fuel' =>
      let result := setRetry retry result in
      try (SendPushNotification (client s) message) (fun outcome =>
        match outcome with
        | Err err =>
            if shouldRetry s err retry then
              do_ waitBeforeRetry s retry;
              singleLoop s message fuel' (retry + 1) result
            else ret (setError err retry result)
        | Ok response =>
            match Errors response with
            | _ :: _ => ret (setError ErrAPIErrors retry result)
            | [] =>
                match ResponseData response with
                | ticket :: _ =>
                    if String.eqb (Status ticket) "ok"
                    then ret (setSuccess (ID ticket) retry result)
                    else ret (setError ErrPushFailed retry result)
                | [] => ret (setError ErrNoResponseData retry result)
                end
            end
        end)
  end.

Definition mkMessage (token title body : string) (data : gmap string Value) : PushMessage :=
  {| To := [token]; Title := title; Body := body; Data := data; Sound := "";
     TTL := 0; Priority := ""; Badge := None; RichContentImage := None |}.

Definition newResult (token : string) : SendNotificationResult :=
  {| Success := false; ReceiptID := ""; Error := None; Token := token; Retry := 0 |}.

Definition SendSingleNotification (s : Service) (token title body : string)
    (data : gmap string Value) : StateErr Net SendNotificationResult :=
  singleLoop s (mkMessage token title body data) (iterations s) 0 (newResult token).

(** [for i := range results { if !results[i].Success { ... } }] *)
Definition failAll (err : error) (retry : Z) (results : list SendNotificationResult) :=
  (fun r => if Success r then r else setError err retry r) <$> results.

(** [for i, ticket := range response.Data { if i >= len(results) { break } ... }] *)
Fixpoint applyTickets (retry : Z) (tickets : list PushTicket)
    (results : list SendNotificationResult) : list SendNotificationResult :=
  match tickets, results with
  | ticket :: tickets', r :: results' =>
      (if String.eqb (Status ticket) "ok"
       then setSuccess (ID ticket) retry r
       else setError ErrPushFailed retry r) :: applyTickets retry tickets' results'
  | _, _ => results
  end.

Fixpoint batchLoop (s : Service) (messages : list PushMessage) (fuel : nat) (retry : Z)
    (results : list SendNotificationResult) : StateErr Net (list SendNotificationResult) :=
  match fuel with
  | O =>
      ret ((fun r => if negb (Success r) && negb (bool_decide (is_Some (Error r)))
                     then setError ErrMaxRetries (maxRetries s) r else r) <$> results)
  | S fuel' =>
      try (SendPushNotifications (client s) messages) (fun outcome =>
        match outcome with
        | Err err =>
            if shouldRetry s err retry then
              do_ waitBeforeRetry s retry;
              batchLoop s messages fuel' (retry + 1) results
            else ret (failAll err retry results)
        | Ok response =>
            match Errors response with
            | _ :: _ => ret (failAll ErrAPIErrors retry results)
            | [] => ret (applyTickets retry (ResponseData response) results)
            end
        end)
  end.

Definition sendBatch (s : Service) (tokens : list string) (title body : string)
    (data : gmap string Value) : StateErr Net (list SendNotificationResult) :=
  batchLoop s ((fun token => mkMessage token title body data) <$> tokens)
            (iterations s) 0 (newResult <$> tokens).

(** [SendBulkNotifications]: [for i := 0; i < len(tokens); i += 100]. *)
Fixpoint bulkLoop (s : Service) (fuel : nat) (tokens : list string) (title body : string)
    (data : gmap string Value) : StateErr Net (list SendNotificationResult) :=
  match fuel, tokens with
  | S fuel', _ :: _ =>
      do batchResults <- sendBatch s (take (Z.to_nat MaxMessagesPerRequest) tokens) title body data;
      do rest <- bulkLoop s fuel' (drop (Z.to_nat MaxMessagesPerRequest) tokens) title body data;
      ret (batchResults ++ rest)%list
  | _, _ => ret []
  end.

Definition SendBulkNotifications (s : Service) (tokens : list string) (title body : string)
    (data : gmap string Value) : StateErr Net (list SendNotificationResult) :=
  bulkLoop s (length tokens) tokens title body data.

(** *** Token syntax *)

(** [token[:n]]; the callers guard the length. *)
Definition prefixOf (n : nat) (token : string) : string := String.substring 0 n token.

Definition ValidateToken (token : string) : bool :=
  if len token <? 10 then false
  else (len token >? 20)
       && (String.eqb (prefixOf 18 token) "ExponentPushToken["
           || String.eqb (prefixOf 14 token) "ExpoPushToken[").

(** *** Manager *)

Record Config := {
  DefaultSound : string;
  DefaultTTL : Z;
  DefaultPriority : string }.

Record Manager := {
  service : Service;
  config : Config }.

Definition applyDefaults (m : Manager) (message : PushMessage) : PushMessage :=
  {| To := To message; Title := Title message; Body := Body message;
     Data := Data message;
     Sound := if String.eqb (Sound message) "" then DefaultSound (config m) else Sound message;
     TTL := if TTL message =? 0 then DefaultTTL (config m) else TTL message;
     Priority := if String.eqb (Priority message) "" then DefaultPriority (config m)
                 else Priority message;
     Badge := Badge message; RichContentImage := RichContentImage message |}.

(** [SendCustomMessage]: whatever the number of valid tokens, the message
    goes to the first of them through [SendSingleNotification].  The call
    site also hands over the message's sound, which the send loop of the
    service does not take. *)
Definition SendCustomMessage (m : Manager) (message : PushMessage)
  : StateErr Net SendNotificationResult :=
  match To message with
  | [] => fail ErrNoTokens
  | _ =>
      match List.filter ValidateToken (To message) with
      | [] => fail ErrNoValidTokens
      | first :: _ =>
          let message := applyDefaults m message in
          SendSingleNotification (service m) first (Title message) (Body message)
                                 (Data message)
      end
  end.

End expo_service.

(** ** expo_service: the configuration record *)

Module expo_service_config.

Definition Second : Z := 1000000000.   (* time.Second, in nanoseconds *)

Record Config := {
  AccessToken : string;
  Timeout : Z;          (* time.Duration *)
  MaxRetries : Z;
  BaseDelay : Z;        (* time.Duration *)
  DefaultSound : string;
  DefaultTTL : Z;
  DefaultPriority : string;
  BatchSize : Z;
  MaxConcurrency : Z }.

Definition DefaultConfig : Config :=
  {| AccessToken := ""; Timeout := 30 * Second; MaxRetries := 3; BaseDelay := 1 * Second;
     DefaultSound := "default"; DefaultTTL := 3600; DefaultPriority := "normal";
     BatchSize := 100; MaxConcurrency := 6 |}.

(** [(c *Config) ApplyDefaults()]: the updated record is returned. *)
Definition ApplyDefaults (c : Config) : Config :=
  let defaults := DefaultConfig in
  {| AccessToken := AccessToken c;
     Timeout := if Timeout c =? 0 then Timeout defaults else Timeout c;
     MaxRetries := if MaxRetries c =? 0 then MaxRetries defaults else MaxRetries c;
     BaseDelay := if BaseDelay c =? 0 then BaseDelay defaults else BaseDelay c;
     DefaultSound := if String.eqb (DefaultSound c) "" then DefaultSound defaults
                     else DefaultSound c;
     DefaultTTL := if DefaultTTL c =? 0 then DefaultTTL defaults else DefaultTTL c;
     DefaultPriority := if String.eqb (DefaultPriority c) "" then DefaultPriority defaults
                        else DefaultPriority c;
     BatchSize := if BatchSize c =? 0 then BatchSize defaults else BatchSize c;
     MaxConcurrency := if MaxConcurrency c =? 0 then MaxConcurrency defaults
                       else MaxConcurrency c |}.

(** [(c *Config) Validate()]: it always returns a nil error; the updated
    record is returned. *)
Definition Validate (c : Config) : Config :=
  let batchSize := if BatchSize c <=? 0 then BatchSize DefaultConfig else BatchSize c in
  {| AccessToken := AccessToken c;
     Timeout := if Timeout c <? 0 then Timeout DefaultConfig else Timeout c;
     MaxRetries := if MaxRetries c <? 0 then 0 else MaxRetries c;
     BaseDelay := if BaseDelay c <? 0 then BaseDelay DefaultConfig else BaseDelay c;
     DefaultSound := DefaultSound c;
     DefaultTTL := DefaultTTL c;
     DefaultPriority :=
       if negb (String.eqb (DefaultPriority c) "normal")
          && negb (String.eqb (DefaultPriority c) "high")
       then "normal" else DefaultPriority c;
     BatchSize := if batchSize >? expo_service.MaxMessagesPerRequest
                  then expo_service.MaxMessagesPerRequest else batchSize;
     MaxConcurrency := if MaxConcurrency c <=? 0 then MaxConcurrency DefaultConfig
                       else MaxConcurrency c |}.

End expo_service_config.

(** ** expo_service: delivery receipts *)

Module expo_receipts.

Inductive error : Type :=
  | ErrNoReceiptIDs       (* client: no receipt IDs provided *)
  | ErrTransport          (* http transport failure / non-200 status / bad body *)
  | ErrAPIErrors          (* response carries top-level API errors *)
  | ErrDeliveryFailed.    (* receipt status is not ok *)

Inductive result (A : Type) : Type :=
  | Ok (a : A)
  | Err (e : error).
Arguments Ok {A} a.
Arguments Err {A} e.

Record PushReceipt := {
  Status : string;
  Message : string;
  Details : option string }.   (* Details.Error; [None] for a nil Details *)

Record ReceiptResponse := {
  Data : gmap string PushReceipt;
  Errors : list string }.

Record ReceiptResult := {
  ResultStatus : string;        (* the Go field Status *)
  Delivered : bool;
  Error : option error;
  DeviceUnregistered : bool }.

(** The receipt endpoint as the process sees it: the id lists posted so
    far, oldest first, and the outcome of the [k]-th request. *)
Definition Net : Type := list (list string).
Definition Transport : Type := nat -> list string -> result ReceiptResponse.

Definition GetPushReceipts (transport : Transport) (receiptIDs : list string) (n : Net)
  : result ReceiptResponse * Net :=
  if Z.of_nat (length receiptIDs) =? 0 then (Err ErrNoReceiptIDs, n)
  else (transport (length n) receiptIDs, (n ++ [receiptIDs])%list).

Definition receiptResult (receipt : PushReceipt) : ReceiptResult :=
  if String.eqb (Status receipt) "ok" then
    {| ResultStatus := Status receipt; Delivered := true; Error := None;
       DeviceUnregistered := false |}
  else
    {| ResultStatus := Status receipt; Delivered := false; Error := Some ErrDeliveryFailed;
       DeviceUnregistered :=
         match Details receipt with
         | Some e => String.eqb e "DeviceNotRegistered"
         | None => false
         end |}.

Definition checkReceiptsBatch (transport : Transport) (receiptIDs : list string) (n : Net)
  : result (gmap string ReceiptResult) * Net :=
  match GetPushReceipts transport receiptIDs n with
  | (Err e, n') => (Err e, n')
  | (Ok response, n') =>
      match Errors response with
      | _ :: _ => (Err ErrAPIErrors, n')
      | [] => (Ok (receiptResult <$> Data response), n')
      end
  end.

(** [for i := 0; i < len(receiptIDs); i += batchSize], batchSize = 1000;
    [allResults[id] = result] lets a later batch overwrite an earlier one. *)
Fixpoint receiptsLoop (transport : Transport) (fuel : nat) (receiptIDs : list string)
    (allResults : gmap string ReceiptResult) (n : Net)
  : result (gmap string ReceiptResult) * Net :=
  match fuel, receiptIDs with
  | S fuel', _ :: _ =>
      match checkReceiptsBatch transport (take 1000 receiptIDs) n with
      | (Err e, n') => (Err e, n')
      | (Ok batchResults, n') =>
          receiptsLoop transport fuel' (drop 1000 receiptIDs)
                       (batchResults ∪ allResults) n'
      end
  | _, _ => (Ok allResults, n)
  end.

Definition CheckReceipts (transport : Transport) (receiptIDs : list string) (n : Net)
  : result (gmap string ReceiptResult) * Net :=
  if Z.of_nat (length receiptIDs) =? 0 then (Ok ∅, n)
  else receiptsLoop transport (length receiptIDs) receiptIDs ∅ n.

End expo_receipts.

(** ** push_service: the dispatcher *)

Module push_service.

Definition ProviderTypeExpo : string := "expo".

Record PushNotification := {
  Title : string;
  Body : string;
  Data : gmap string Value;
  Sound : string;
  Badge : option Z;
  ImageURL : string;
  Priority : string }.

(** [Duration] and [Timestamp] are wall-clock readings and are left out. *)
Record PushResult := {
  MetaID : string;
  Platform : string;
  Token : string;
  Success : bool;
  ReceiptID : string;
  Error : option error }.

Record BatchPushResult := {
  TotalUsers : Z;
  TotalPlatforms : Z;
  SuccessCount : Z;
  FailureCount : Z;
  Results : list PushResult }.

(** The [PushProvider] interface. *)
Record PushProvider := {
  GetName : string;
  SendNotification : string -> PushNotification -> StateErr expo_service.Net PushResult;
  ValidateToken : string -> bool }.

(** *** ExpoProvider *)

Definition buildExpoMessage (token : string) (notification : PushNotification)
  : expo_service.PushMessage :=
  {| expo_service.To := [token];
     expo_service.Title := Title notification;
     expo_service.Body := Body notification;
     expo_service.Data := Data notification;
     expo_service.Sound := Sound notification;
     expo_service.TTL := 0;
     expo_service.Priority := Priority notification;
     expo_service.Badge := Badge notification;
     expo_service.RichContentImage :=
       if String.eqb (ImageURL notification) "" then None
       else Some (ImageURL notification) |}.

Definition ExpoProvider_SendNotification (manager : expo_service.Manager)
    (token : string) (notification : PushNotification)
  : StateErr expo_service.Net PushResult :=
  let message := buildExpoMessage token notification in
  try (expo_service.SendCustomMessage manager message) (fun outcome =>
    match outcome with
    | Err err =>
        ret {| MetaID := ""; Platform := ""; Token := token; Success := false;
               ReceiptID := ""; Error := Some err |}
    | Ok expoResult =>
        ret {| MetaID := ""; Platform := ""; Token := token;
               Success := expo_service.Success expoResult;
               ReceiptID := expo_service.ReceiptID expoResult;
               Error := if negb (expo_service.Success expoResult)
                        then expo_service.Error expoResult else None |}
    end).

Definition ExpoProvider (manager : expo_service.Manager) : PushProvider :=
  {| GetName := ProviderTypeExpo;
     SendNotification := ExpoProvider_SendNotification manager;
     ValidateToken := expo_service.ValidateToken |}.

(** *** MemoryTokenStore *)

(** [push_service.UserPushTokens]; [UpdatedAt] is a clock reading.  The Go
    store keeps pointers and hands out the stored record itself; here a
    read returns the record as it is at that moment. *)
Record UserPushTokens := {
  UserMetaID : string;                (* the Go field MetaID *)
  Tokens : gmap string string;
  UpdatedAt : Z }.

Module MemoryTokenStore.

Definition t : Type := gmap string UserPushTokens.

Definition NewMemoryTokenStore : t := ∅.

Definition GetUserTokens (metaId : string) (m : t) : UserPushTokens :=
  match m !! metaId with
  | Some tokens => tokens
  | None => {| UserMetaID := metaId; Tokens := ∅; UpdatedAt := 0 |}
  end.

Definition SetUserToken (now : Z) (metaId platform token : string) (m : t) : t :=
  let current := match m !! metaId with
                 | Some tokens => tokens
                 | None => {| UserMetaID := metaId; Tokens := ∅; UpdatedAt := 0 |}
                 end in
  <[metaId := {| UserMetaID := UserMetaID current;
                 Tokens := <[platform := token]> (Tokens current);
                 UpdatedAt := now |}]> m.

Definition RemoveUserToken (now : Z) (metaId platform : string) (m : t) : t :=
  match m !! metaId with
  | Some tokens =>
      <[metaId := {| UserMetaID := UserMetaID tokens;
                     Tokens := delete platform (Tokens tokens);
                     UpdatedAt := now |}]> m
  | None => m
  end.

Definition GetAllUserTokens (metaIds : list string) (m : t) : gmap string UserPushTokens :=
  foldl (fun result metaId => <[metaId := GetUserTokens metaId m]> result) ∅ metaIds.

End MemoryTokenStore.

(** *** DefaultPushService *)

(** The process as the dispatcher sees it: the pebble store behind the
    token store, the network, and the record of the dispatcher calls made
    so far (recipients, notification, what the call returned). *)
Record Dispatch := {
  recipients : list string;
  notification : PushNotification;
  outcome : result BatchPushResult }.

Record World := {
  pebble : pebble_service.globalService;
  net : expo_service.Net;
  dispatched : list Dispatch }.

Definition liftNet {A} (c : StateErr expo_service.Net A) : StateErr World A :=
  fun w => let '(r, n) := c (net w) in
           (r, {| pebble := pebble w; net := n; dispatched := dispatched w |}).

Definition liftPebble {A} (c : StateErr pebble_service.globalService A) : StateErr World A :=
  fun w => let '(r, g) := c (pebble w) in
           (r, {| pebble := g; net := net w; dispatched := dispatched w |}).

Record DefaultPushService := {
  providers : gmap string PushProvider }.

Definition RegisterProvider (provider : PushProvider) (s : DefaultPushService)
  : result DefaultPushService :=
  if String.eqb (GetName provider) "" then Err ErrEmptyArgument
  else Ok {| providers := <[GetName provider := provider]> (providers s) |}.

(** [PebbleTokenStore.GetAllUserTokens]: the token store that [Initialize]
    installs in the relay's dispatcher with [NewGlobalPebbleTokenStore].
    The store keeps the pointer of the global service, so it reads the
    state [pebble w], and with a service behind it the call never fails.
    [NewGlobalPebbleTokenStore] yields no store without a global service;
    the [None] case stands for that and answers [ErrNotInitialized]: it is
    not a state in which a started relay calls its dispatcher. *)
Definition tokenStore_GetAllUserTokens (now : Z) (metaIds : list string)
  : StateErr World (gmap string models.UserPushTokens) :=
  fun w => (pebble_service.withService (pebble w)
              (fun service => Ok (PebbleService.GetAllUserTokens now metaIds service)), w).

Definition sendSingleNotification (metaId platform token : string)
    (provider : PushProvider) (notification : PushNotification)
  : StateErr expo_service.Net PushResult :=
  if negb (ValidateToken provider token) then
    ret {| MetaID := metaId; Platform := platform; Token := token;
           Success := false; ReceiptID := ""; Error := Some ErrInvalidToken |}
  else
    try (SendNotification provider token notification) (fun outcome =>
      match outcome with
      | Err err =>
          ret {| MetaID := metaId; Platform := platform; Token := token;
                 Success := false; ReceiptID := ""; Error := Some err |}
      | Ok providerResult =>
          ret {| MetaID := metaId; Platform := platform; Token := token;
                 Success := Success providerResult;
                 ReceiptID := ReceiptID providerResult;
                 Error := Error providerResult |}
      end).

(** One dispatch attempt per (user, platform, token) whose platform has a
    registered provider. *)
Record Attempt := {
  attemptMetaId : string;
  attemptPlatform : string;
  attemptToken : string;
  attemptProvider : PushProvider }.

Definition attemptsOfUser (s : DefaultPushService) (metaId : string)
    (userTokens : models.UserPushTokens) : list Attempt :=
  omap (fun '(platform, token) =>
          match providers s !! platform with
          | Some provider =>
              Some {| attemptMetaId := metaId; attemptPlatform := platform;
                      attemptToken := token; attemptProvider := provider |}
          | None => None
          end)
       (map_to_list (models.Tokens userTokens)).

Definition attempts (s : DefaultPushService)
    (allUserTokens : gmap string models.UserPushTokens) : list Attempt :=
  '(metaId, userTokens) ← map_to_list allUserTokens;
  attemptsOfUser s metaId userTokens.

(** The goroutines of one call, run one after the other. *)
Fixpoint sendAll (notification : PushNotification) (l : list Attempt)
  : StateErr expo_service.Net (list PushResult) :=
  match l with
  | [] => ret []
  | a :: rest =>
      do r <- sendSingleNotification (attemptMetaId a) (attemptPlatform a)
                (attemptToken a) (attemptProvider a) notification;
      do rs <- sendAll notification rest;
      ret (r :: rs)
  end.

Definition count (f : PushResult -> bool) (l : list PushResult) : Z :=
  Z.of_nat (length (List.filter f l)).

Definition SendToUsers (s : DefaultPushService) (now : Z) (metaIds : list string)
    (notification : PushNotification) : StateErr World BatchPushResult :=
  match metaIds with
  | [] => ret {| TotalUsers := 0; TotalPlatforms := 0; SuccessCount := 0;
                 FailureCount := 0; Results := [] |}
  | _ =>
      do allUserTokens <- tokenStore_GetAllUserTokens now metaIds;
      do results <- liftNet (sendAll notification (attempts s allUserTokens));
      let platforms : gset string := list_to_set (Platform <$> results) in
      ret {| TotalUsers := Z.of_nat (length metaIds);
             TotalPlatforms := Z.of_nat (size platforms);
             SuccessCount := count Success results;
             FailureCount := count (fun r => negb (Success r)) results;
             Results := results |}
  end.

(** [PebbleTokenStore.GetUserTokens], over the same pointer; the [None]
    case as for [tokenStore_GetAllUserTokens]. *)
Definition tokenStore_GetUserTokens (now : Z) (metaId : string)
  : StateErr World models.UserPushTokens :=
  fun w => (pebble_service.withService (pebble w)
              (PebbleService.GetUserTokens now metaId), w).

Definition SendToUser (s : DefaultPushService) (now : Z) (metaId : string)
    (notification : PushNotification) : StateErr World BatchPushResult :=
  do userTokens <- tokenStore_GetUserTokens now metaId;
  if Z.of_nat (size (models.Tokens userTokens)) =? 0 then
    ret {| TotalUsers := 1; TotalPlatforms := 0; SuccessCount := 0;
           FailureCount := 0; Results := [] |}
  else
    do results <- liftNet (sendAll notification (attemptsOfUser s metaId userTokens));
    ret {| TotalUsers := 1;
           TotalPlatforms := Z.of_nat (length results);
           SuccessCount := count Success results;
           FailureCount := count (fun r => negb (Success r)) results;
           Results := results |}.

(** *** Manager *)

(** [Manager.SendToUsersWithData]: the dispatcher entry point used by the
    relay.  Each call is appended to [dispatched]. *)
Definition SendToUsersWithData (s : DefaultPushService) (now : Z) (metaIds : list string)
    (title body : string) (data : gmap string Value) : StateErr World BatchPushResult :=
  let notification := {| Title := title; Body := body; Data := data; Sound := "default";
                         Badge := None; ImageURL := ""; Priority := "" |} in
  fun w =>
    let '(r, w') := SendToUsers s now metaIds notification w in
    (r, {| pebble := pebble w'; net := net w';
           dispatched := (dispatched w' ++
                          [{| recipients := metaIds; notification := notification;
                              outcome := r |}])%list |}).

End push_service.

(** ** socket_client_service: the envelope handed to the relay *)

Module socket_client_service.

Record ExtraServiceMessage := {
  Message : Value;
  RepostMetaIds : list string;
  MentionMetaIds : list string }.

Record ChatNotificationMessage := {
  Type_ : string;                          (* the Go field Type *)
  Data : option ExtraServiceMessage }.     (* a pointer, possibly nil *)

End socket_client_service.

(** ** socket_client_service: from a socket payload to an envelope *)

Module socket_client.
Import socket_client_service.

(** [for _, id := range array { if idStr, ok := id.(string); ok { append } }] *)
Definition stringsOf (array : list Value) : list string := omap asString array.

Definition stringArrayField (dataMap : list (string * Value)) (key : string) : list string :=
  match mapIndex dataMap key with
  | Some (VSlice array) => stringsOf array
  | _ => []
  end.

(** [parseExtraServiceMessage]; its error is always nil.  [unmarshal] is
    [json.Unmarshal] into an [ExtraServiceMessage], [None] when it fails.
    The two global-id lists of the struct, which nothing reads, are left
    out. *)
Definition parseExtraServiceMessage (unmarshal : string -> option ExtraServiceMessage)
    (data : Value) : result ExtraServiceMessage :=
  match data with
  | VNil => Ok {| Message := VNil; RepostMetaIds := []; MentionMetaIds := [] |}
  | VMap dataMap =>
      Ok {| Message := match mapIndex dataMap "message" with
                       | Some message => message
                       | None => data
                       end;
            RepostMetaIds := stringArrayField dataMap "repostMetaIds";
            MentionMetaIds := stringArrayField dataMap "mentionMetaIds" |}
  | VString dataStr =>
      match unmarshal dataStr with
      | Some extraMsg => Ok extraMsg
      | None => Ok {| Message := VString dataStr; RepostMetaIds := [];
                      MentionMetaIds := [] |}
      end
  | _ => Ok {| Message := data; RepostMetaIds := []; MentionMetaIds := [] |}
  end.

(** The client's callback slot and its JSON decoder; [W] is the state the
    callback works on. *)
Record Client (W : Type) := {
  OnChatNotificationMessage : option (ChatNotificationMessage -> W -> W);
  unmarshal : string -> option ExtraServiceMessage }.
Arguments OnChatNotificationMessage {W} c.
Arguments unmarshal {W} c.

Definition handleChatData {W} (c : Client W) (chatType : string) (D : Value) (w : W) : W :=
  match parseExtraServiceMessage (unmarshal c) D with
  | Err _ => w
  | Ok data =>
      match OnChatNotificationMessage c with
      | None => w
      | Some handler => handler {| Type_ := chatType; Data := Some data |} w
      end
  end.

Definition handlePrivateChatMessage {W} (c : Client W) (D : Value) (w : W) : W :=
  handleChatData c "private_chat" D w.

Definition handleGroupChatMessage {W} (c : Client W) (D : Value) (w : W) : W :=
  handleChatData c "group_chat" D w.

End socket_client.

(** ** pushcenter: the relay *)

Module pushcenter.
Import socket_client_service.

Record ParsedMessageInfo := {
  PinId : string;
  GroupId : string;
  MetaId : string;
  ChatType : string;
  UserName : string;
  ChatInfoType : Z }.

Record PushCenter := {
  pushManager : push_service.DefaultPushService;
  EnabledTypes : list string }.

Definition isMessageTypeEnabled (pc : PushCenter) (msgType : string) : bool :=
  existsb (fun enabledType => String.eqb enabledType msgType) (EnabledTypes pc).

(** [if v, exists := m[key]; exists { if s, ok := v.(string); ok { x = s } }] *)
Definition stringField (m : list (string * Value)) (key : string) (x : string) : string :=
  match mapIndex m key with
  | Some (VString s) => s
  | _ => x
  end.

Definition parseUserName (messageMap : list (string * Value)) : string :=
  match mapIndex messageMap "userInfo" with
  | Some (VMap userInfoMap) => stringField userInfoMap "name" ""
  | _ => ""
  end.

(** The type switch on [messageMap["chatType"]]. *)
Definition parseChatInfoType (messageMap : list (string * Value)) : Z :=
  match mapIndex messageMap "chatType" with
  | Some (VInt64 v) => v
  | Some (VInt v) => v
  | Some (VFloat64 v) => int64_of_float64 v
  | Some (VInt32 v) => v
  | Some (VInt16 v) => v
  | Some (VInt8 v) => v
  | _ => 0
  end.

Definition parseMessageInfo (chatMsg : ChatNotificationMessage) : result ParsedMessageInfo :=
  match Data chatMsg with
  | None => Err ErrMessageNil
  | Some data =>
      match Message data with
      | VNil => Err ErrMessageNil
      | VMap messageMap =>
          let pinId := stringField messageMap "pinId" "" in
          let userName := parseUserName messageMap in
          if String.eqb (Type_ chatMsg) "private_chat" then
            let metaId := stringField messageMap "metaId" "" in
            let metaId := if String.eqb metaId ""
                          then stringField messageMap "from" metaId else metaId in
            let metaId := if String.eqb metaId ""
                          then stringField messageMap "to" metaId else metaId in
            Ok {| PinId := pinId; GroupId := ""; MetaId := metaId;
                  ChatType := Type_ chatMsg; UserName := userName; ChatInfoType := 0 |}
          else if String.eqb (Type_ chatMsg) "group_chat" then
            let groupId := stringField messageMap "groupId" "" in
            let groupId := if String.eqb groupId ""
                           then stringField messageMap "channelId" groupId else groupId in
            Ok {| PinId := pinId; GroupId := groupId; MetaId := "";
                  ChatType := Type_ chatMsg; UserName := userName;
                  ChatInfoType := parseChatInfoType messageMap |}
          else
            Ok {| PinId := pinId; GroupId := ""; MetaId := "";
                  ChatType := Type_ chatMsg; UserName := userName; ChatInfoType := 0 |}
      | _ =>
          Ok {| PinId := ""; GroupId := ""; MetaId := ""; ChatType := Type_ chatMsg;
                UserName := ""; ChatInfoType := 0 |}
      end
  end.

(** The chat id against which one recipient is mute-checked. *)
Definition chatIDOf (parsedInfo : ParsedMessageInfo) : string :=
  if String.eqb (ChatType parsedInfo) "private_chat" then MetaId parsedInfo
  else if String.eqb (ChatType parsedInfo) "group_chat" then GroupId parsedInfo
  else "".

(** One turn of the loop of [filterBlockedUsers]: is [metaId] appended? *)
Definition keepRecipient (now : Z) (g : pebble_service.globalService)
    (parsedInfo : ParsedMessageInfo) (metaId : string) : bool :=
  let chatID := chatIDOf parsedInfo in
  if String.eqb (ChatType parsedInfo) "private_chat" && String.eqb metaId chatID
  then false
  else if String.eqb chatID "" then true
  else match pebble_service.IsUserBlockedChat now metaId chatID g with
       | Err _ => true
       | Ok isBlocked => negb isBlocked
       end.

Definition filterBlockedUsers (now : Z) (g : pebble_service.globalService)
    (metaIds : list string) (parsedInfo : ParsedMessageInfo) : list string :=
  List.filter (keepRecipient now g parsedInfo) metaIds.

Definition generateNotificationTitle (msgType : string) (isMention : bool) : string :=
  if isMention then
    if String.eqb msgType "private_chat" then "New Mention"
    else if String.eqb msgType "group_chat" then "You were mentioned"
    else "New Mention"
  else
    if String.eqb msgType "private_chat" then "New Message"
    else if String.eqb msgType "group_chat" then "New Message in Group"
    else "New Message".

Definition truncateUserName (userName : string) : string :=
  if String.eqb userName "" then userName
  else if len userName <=? 20 then userName
  else String.substring 0 17 userName +:+ "...".

Definition isCandyBag (chatInfoType : Z) : bool :=
  (chatInfoType =? 1) || (chatInfoType =? 23).

Definition GenerateNotificationBody (msgType userName : string) (chatInfoType : Z)
    (isMention : bool) (groupId : string) : string :=
  if isMention then
    let truncatedName := truncateUserName userName in
    let truncatedName := if String.eqb truncatedName "" then "Someone" else truncatedName in
    if isCandyBag chatInfoType
    then truncatedName +:+ " mentioned you with a Candy Bag"
    else truncatedName +:+ " mentioned you"
  else if String.eqb msgType "group_chat" then
    if negb (String.eqb userName "") then
      if isCandyBag chatInfoType
      then truncateUserName userName +:+ " sent a Candy Bag"
      else truncateUserName userName +:+ " sent a message"
    else "New message in group"
  else
    (* "private_chat" and the default case coincide *)
    if negb (String.eqb userName "") then
      if isCandyBag chatInfoType
      then truncateUserName userName +:+ " sent you a Candy Bag"
      else truncateUserName userName +:+ " sent you a message"
    else "You have a new message".

(** The custom payload of a notification. *)
Definition customData (now : Z) (chatMsg : ChatNotificationMessage)
    (message : Value) (parsedInfo : ParsedMessageInfo) (isMention : bool)
  : gmap string Value :=
  let data : gmap string Value :=
    <["pinId" := VString (PinId parsedInfo)]>
    (<["timestamp" := VInt64 now]>
    (<["message" := message]>
    (<["type" := VString (Type_ chatMsg)]> ∅))) in
  let data := if isMention then <["isMention" := VBool true]> data else data in
  if String.eqb (ChatType parsedInfo) "private_chat"
     && negb (String.eqb (MetaId parsedInfo) "")
  then <["metaId" := VString (MetaId parsedInfo)]> data
  else if String.eqb (ChatType parsedInfo) "group_chat"
          && negb (String.eqb (GroupId parsedInfo) "")
  then <["groupId" := VString (GroupId parsedInfo)]> data
  else data.

(** [normalUsers]: the filtered recipients that are not mentioned. *)
Definition normalUsersOf (filteredMetaIds mentionMetaIds : list string) : list string :=
  List.filter (fun metaId => negb (existsb (String.eqb metaId) mentionMetaIds))
              filteredMetaIds.

(** The dedup gate at the head of [processChatMessage]: [true] lets the
    envelope through. *)
Definition passesDedup (parsedInfo : ParsedMessageInfo)
    (g : pebble_service.globalService) : bool :=
  if negb (String.eqb (PinId parsedInfo) "") then
    match pebble_service.IsNotifiedPin (PinId parsedInfo) g with
    | Err _ => false
    | Ok isNotified => negb isNotified
    end
  else true.

(** A dispatcher call whose error, if any, is only logged. *)
Definition dispatch (pc : PushCenter) (now : Z) (users : list string)
    (title body : string) (data : gmap string Value)
    (w : push_service.World) : push_service.World :=
  snd (push_service.SendToUsersWithData (pushManager pc) now users title body data w).

Definition processChatMessage (pc : PushCenter) (now : Z)
    (chatMsg : ChatNotificationMessage) (w : push_service.World) : push_service.World :=
  match parseMessageInfo chatMsg, Data chatMsg with
  | Ok parsedInfo, Some data =>
      if negb (passesDedup parsedInfo (push_service.pebble w)) then w
      else
        let metaIds := RepostMetaIds data in
        match metaIds with
        | [] => w
        | _ =>
            let filteredMetaIds :=
              filterBlockedUsers now (push_service.pebble w) metaIds parsedInfo in
            let mentionedUsers := MentionMetaIds data in
            let normalUsers := normalUsersOf filteredMetaIds mentionedUsers in
            let w :=
              match mentionedUsers with
              | [] => w
              | _ =>
                  dispatch pc now mentionedUsers
                    (generateNotificationTitle (Type_ chatMsg) true)
                    (GenerateNotificationBody (Type_ chatMsg) (UserName parsedInfo)
                       (ChatInfoType parsedInfo) true (GroupId parsedInfo))
                    (customData now chatMsg (Message data) parsedInfo true) w
              end in
            let w :=
              match normalUsers with
              | [] => w
              | _ =>
                  dispatch pc now normalUsers
                    (generateNotificationTitle (Type_ chatMsg) false)
                    (GenerateNotificationBody (Type_ chatMsg) (UserName parsedInfo)
                       (ChatInfoType parsedInfo) false "")
                    (customData now chatMsg (Message data) parsedInfo false) w
              end in
            if negb (String.eqb (PinId parsedInfo) "") then
              (* go pebble_service.AddNotifiedPin(parsedInfo.PinId) *)
              snd (push_service.liftPebble
                     (pebble_service.AddNotifiedPin now (PinId parsedInfo)) w)
            else w
        end
  | _, _ => w
  end.

(** The handler installed by [SetChatMessageHandler]. *)
Definition handleChatMessage (pc : PushCenter) (now : Z)
    (chatMsg : ChatNotificationMessage) (w : push_service.World) : push_service.World :=
  match Data chatMsg with
  | None => w
  | Some _ =>
      if negb (isMessageTypeEnabled pc (Type_ chatMsg)) then w
      else processChatMessage pc now chatMsg w
  end.

(** *** Envelopes in flight *)

(** The handler starts [go pc.processChatMessage(chatMsg)] for every
    envelope it lets through, and [processChatMessage] ends with
    [go pebble_service.AddNotifiedPin(parsedInfo.PinId)]: envelopes are
    processed side by side, and a pin is put on record by a goroutine of
    its own, started after the dispatcher calls.  A [Task] is what one
    goroutine has left to do, cut where [processChatMessage] reads the
    store, calls the dispatcher or hands the pin over to be recorded; a
    dispatcher call is one step.  [processChatMessage] above is one
    envelope run through these steps with nothing in between. *)
Inductive Task : Type :=
  | AtGate (chatMsg : ChatNotificationMessage)
  | AtFilter (chatMsg : ChatNotificationMessage) (parsedInfo : ParsedMessageInfo)
             (data : ExtraServiceMessage)
  | AtMentionCall (chatMsg : ChatNotificationMessage) (parsedInfo : ParsedMessageInfo)
                  (data : ExtraServiceMessage) (filteredMetaIds : list string)
  | AtPlainCall (chatMsg : ChatNotificationMessage) (parsedInfo : ParsedMessageInfo)
                (data : ExtraServiceMessage) (filteredMetaIds : list string)
  | AtRecord (pinId : string).

(** One step of one goroutine: the process after it and the goroutines
    that take its place. *)
Definition stepTask (pc : PushCenter) (now : Z) (t : Task) (w : push_service.World)
  : push_service.World * list Task :=
  match t with
  | AtGate chatMsg =>
      match parseMessageInfo chatMsg, Data chatMsg with
      | Ok parsedInfo, Some data =>
          if negb (passesDedup parsedInfo (push_service.pebble w)) then (w, [])
          else
            match RepostMetaIds data with
            | [] => (w, [])
            | _ => (w, [AtFilter chatMsg parsedInfo data])
            end
      | _, _ => (w, [])
      end
  | AtFilter chatMsg parsedInfo data =>
      let filteredMetaIds :=
        filterBlockedUsers now (push_service.pebble w) (RepostMetaIds data) parsedInfo in
      (w, [AtMentionCall chatMsg parsedInfo data filteredMetaIds])
  | AtMentionCall chatMsg parsedInfo data filteredMetaIds =>
      let mentionedUsers := MentionMetaIds data in
      (match mentionedUsers with
       | [] => w
       | _ =>
           dispatch pc now mentionedUsers
             (generateNotificationTitle (Type_ chatMsg) true)
             (GenerateNotificationBody (Type_ chatMsg) (UserName parsedInfo)
                (ChatInfoType parsedInfo) true (GroupId parsedInfo))
             (customData now chatMsg (Message data) parsedInfo true) w
       end,
       [AtPlainCall chatMsg parsedInfo data filteredMetaIds])
  | AtPlainCall chatMsg parsedInfo data filteredMetaIds =>
      let normalUsers := normalUsersOf filteredMetaIds (MentionMetaIds data) in
      (match normalUsers with
       | [] => w
       | _ =>
           dispatch pc now normalUsers
             (generateNotificationTitle (Type_ chatMsg) false)
             (GenerateNotificationBody (Type_ chatMsg) (UserName parsedInfo)
                (ChatInfoType parsedInfo) false "")
             (customData now chatMsg (Message data) parsedInfo false) w
       end,
       if negb (String.eqb (PinId parsedInfo) "") then [AtRecord (PinId parsedInfo)]
       else [])
  | AtRecord pinId =>
      (snd (push_service.liftPebble (pebble_service.AddNotifiedPin now pinId) w), [])
  end.

(** The process and the goroutines of the relay that have not finished. *)
Record Relay : Type := {
  world : push_service.World;
  goroutines : list Task }.

(** What happens to the relay: the socket client hands an envelope to the
    handler, or the scheduler lets goroutine [i] take its next step. *)
Inductive Event : Type :=
  | Arrive (chatMsg : ChatNotificationMessage)
  | Step (i : nat).

Definition stepAt (pc : PushCenter) (now : Z) (i : nat) (r : Relay) : Relay :=
  match goroutines r !! i with
  | None => r
  | Some t =>
      let '(w, next) := stepTask pc now t (world r) in
      {| world := w;
         goroutines := (take i (goroutines r) ++ next ++ drop (S i) (goroutines r))%list |}
  end.

(** [Arrive] is the callback of [SetChatMessageHandler]. *)
Definition handleEvent (pc : PushCenter) (now : Z) (r : Relay) (e : Event) : Relay :=
  match e with
  | Arrive chatMsg =>
      match Data chatMsg with
      | None => r
      | Some _ =>
          if negb (isMessageTypeEnabled pc (Type_ chatMsg)) then r
          else {| world := world r;
                  goroutines := (goroutines r ++ [AtGate chatMsg])%list |}
      end
  | Step i => stepAt pc now i r
  end.

(** An interleaving: the events in the order in which they happen. *)
Definition run (pc : PushCenter) (now : Z) (events : list Event) (r : Relay) : Relay :=
  foldl (handleEvent pc now) r events.

End pushcenter.

(** * Vocabulary of the properties *)

Section RetriesVocabulary.
Import expo_service.

Definition requests (n : Net) : nat := length (sent n).

(** Every request fails in transport. *)
Definition alwaysFails (c : Client) : Prop :=
  forall k messages, is_ok (transport c k messages) = false.

Definition failed (r : SendNotificationResult) : Prop :=
  Success r = false /\ is_Some (Error r).

End RetriesVocabulary.

Definition deadClient : expo_service.Client :=
  {| expo_service.transport := fun _ _ => Err ErrTransport |}.

Section BackoffVocabulary.
Import expo_service.

(** The sleeps taken for [m] consecutive failures, the first of them at
    loop index [retry]: none after a failure at index 0, [backoffDelay s j]
    after a failure at index [j > 0]. *)
Fixpoint sleepsFrom (s : Service) (retry : Z) (m : nat) : list Z :=
  match m with
  | O => []
  | S m' =>
      ((if retry =? 0 then [] else [backoffDelay s retry])
       ++ sleepsFrom s (retry + 1) m')%list
  end.

(** The response is a success for its first message. *)
Definition accepted (response : PushResponse) : Prop :=
  Errors response = []
  /\ exists ticket rest,
       ResponseData response = ticket :: rest /\ Status ticket = "ok".

End BackoffVocabulary.

Definition okTicket : expo_service.PushTicket :=
  {| expo_service.Status := "ok"; expo_service.ID := "receipt-1";
     expo_service.Message := "" |}.

Definition okResponse (messages : list expo_service.PushMessage)
  : expo_service.PushResponse :=
  {| expo_service.ResponseData := (fun _ => okTicket) <$> messages;
     expo_service.Errors := [] |}.

(** Fails the first two requests, accepts every later one. *)
Definition failsTwiceClient : expo_service.Client :=
  {| expo_service.transport := fun k messages =>
       if (k <? 2)%nat then Err ErrTransport else Ok (okResponse messages) |}.

Definition failsTwiceService : expo_service.Service :=
  {| expo_service.client := failsTwiceClient; expo_service.maxRetries := 3;
     expo_service.baseDelay := 1000000000 |}.

Section TokenTransferVocabulary.
Import models PebbleService.

(** Every record sits under its own id, as all writes of the service put it. *)
Definition wf (ps : t) : Prop :=
  map_Forall (fun k v => MetaID v = k) (user_tokens ps)
  /\ map_Forall (fun k d => DeviceID d = k) (devices ps).

End TokenTransferVocabulary.

Section PagingVocabulary.
Import models PebbleService.

(** The page a request denotes when nothing overflows. *)
Definition pageOf {A} (l : list A) (page pageSize : Z) : list A :=
  take (Z.to_nat pageSize) (drop (Z.to_nat ((page - 1) * pageSize)) l).

Definition usersOfPage (page pageSize : Z) (ps : t) : list UserPushTokens :=
  match GetUserTokensList page pageSize ps with
  | Ok p => Users p
  | Err _ => []
  end.

Definition totalPagesOf (pageSize : Z) (ps : t) : Z :=
  (Z.of_nat (length (scanUserTokens ps)) + pageSize - 1) ÷ pageSize.

Definition oneUserStore : t :=
  snd (SetUserToken 1 "u1" "expo" "ExponentPushToken[AAA]" empty).

End PagingVocabulary.

Section DispatcherVocabulary.
Import push_service.

(** Every result of a dispatcher call is for one of the recipients passed in. *)
Definition resultsWithin (metaIds : list string) (r : result BatchPushResult) : Prop :=
  forall b x, r = Ok b -> x ∈ Results b -> MetaID x ∈ metaIds.




End DispatcherVocabulary.

Section RelayVocabulary.
Import socket_client_service push_service pushcenter.

(** The dispatcher calls made while one envelope is processed. *)
Definition dispatchedBy (pc : PushCenter) (now : Z) (chatMsg : ChatNotificationMessage)
    (w : World) : list Dispatch :=
  drop (length (dispatched w)) (dispatched (processChatMessage pc now chatMsg w)).

(** The two calls an envelope can cause. *)
Definition isMentionCall (now : Z) (chatMsg : ChatNotificationMessage)
    (parsedInfo : ParsedMessageInfo) (data : ExtraServiceMessage) (d : Dispatch) : Prop :=
  recipients d = MentionMetaIds data
  /\ Title (notification d) = generateNotificationTitle (Type_ chatMsg) true
  /\ Body (notification d)
     = GenerateNotificationBody (Type_ chatMsg) (UserName parsedInfo)
         (ChatInfoType parsedInfo) true (GroupId parsedInfo)
  /\ push_service.Data (notification d)
     = customData now chatMsg (Message data) parsedInfo true.

Definition isPlainCall (now : Z) (g : pebble_service.globalService)
    (chatMsg : ChatNotificationMessage) (parsedInfo : ParsedMessageInfo)
    (data : ExtraServiceMessage) (d : Dispatch) : Prop :=
  recipients d
  = normalUsersOf (filterBlockedUsers now g (RepostMetaIds data) parsedInfo)
                  (MentionMetaIds data)
  /\ Title (notification d) = generateNotificationTitle (Type_ chatMsg) false
  /\ Body (notification d)
     = GenerateNotificationBody (Type_ chatMsg) (UserName parsedInfo)
         (ChatInfoType parsedInfo) false ""
  /\ push_service.Data (notification d)
     = customData now chatMsg (Message data) parsedInfo false.

(** A call as the relay issued it. *)
Definition callOf (users : list string) (title body : string)
    (data : gmap string Value) (d : Dispatch) : Prop :=
  recipients d = users
  /\ Title (notification d) = title
  /\ Body (notification d) = body
  /\ push_service.Data (notification d) = data
  /\ resultsWithin users (outcome d).

Definition pinOf (chatMsg : ChatNotificationMessage) : string :=
  match parseMessageInfo chatMsg with
  | Ok parsedInfo => PinId parsedInfo
  | Err _ => ""
  end.

(** [if len(users) > 0 { SendToUsersWithData(users, ...) }]: the recipient
    sets handed to the dispatcher by one guarded call. *)
Definition callIfAny (users : list string) : list (list string) :=
  match users with
  | [] => []
  | _ :: _ => [users]
  end.

(** The recipient sets that [processChatMessage] hands to the dispatcher
    for an envelope, in the order of the calls: none when the envelope
    stops at the dedup gate or lists no recipient; otherwise the mention
    ids as they came, if any, then the unmuted recipients that are not
    mentioned, if any. *)
Definition recipientSets (now : Z) (g : pebble_service.globalService)
    (parsedInfo : ParsedMessageInfo) (data : ExtraServiceMessage) : list (list string) :=
  if passesDedup parsedInfo g then
    match RepostMetaIds data with
    | [] => []
    | _ :: _ =>
        (callIfAny (MentionMetaIds data)
         ++ callIfAny (normalUsersOf
                         (filterBlockedUsers now g (RepostMetaIds data) parsedInfo)
                         (MentionMetaIds data)))%list
    end
  else [].

(** The pin a dispatcher call was made for, as its payload names it. *)
Definition pinOfCall (d : Dispatch) : string :=
  match push_service.Data (notification d) !! "pinId" with
  | Some (VString pinId) => pinId
  | _ => ""
  end.

(** The dispatcher calls made for a pin so far. *)
Definition callsFor (pin : string) (w : World) : list Dispatch :=
  List.filter (fun d => String.eqb (pinOfCall d) pin) (dispatched w).

(** The pin is on record. *)
Definition onRecord (pin : string) (w : World) : Prop :=
  pebble_service.IsNotifiedPin pin (pebble w) = Ok true.

Definition pinOfTask (t : Task) : string :=
  match t with
  | AtGate chatMsg => pinOf chatMsg
  | AtFilter _ parsedInfo _
  | AtMentionCall _ parsedInfo _ _
  | AtPlainCall _ parsedInfo _ _ => PinId parsedInfo
  | AtRecord pinId => pinId
  end.

(** The goroutine is between the dedup check of its envelope and the
    handing over of the pin to be recorded. *)
Definition pastGate (t : Task) : bool :=
  match t with
  | AtFilter _ _ _ | AtMentionCall _ _ _ _ | AtPlainCall _ _ _ _ => true
  | AtGate _ | AtRecord _ => false
  end.

(** No envelope of the pin is past the dedup check in this goroutine. *)
Definition settled (pin : string) (t : Task) : Prop :=
  pastGate t = true -> pinOfTask t <> pin.

(** The dispatcher calls a goroutine can still make for a pin. *)
Definition callsLeft (pin : string) (t : Task) : nat :=
  if String.eqb (pinOfTask t) pin then
    match t with
    | AtGate _ | AtFilter _ _ _ | AtMentionCall _ _ _ _ => 2
    | AtPlainCall _ _ _ _ => 1
    | AtRecord _ => 0
    end
  else 0.

(** The envelopes of a pin that arrive during an interleaving. *)
Definition arrivals (pin : string) (events : list Event) : nat :=
  length (List.filter (fun e => match e with
                                | Arrive chatMsg => String.eqb (pinOf chatMsg) pin
                                | Step _ => false
                                end) events).

(** A relay with no envelope in flight. *)
Definition quiet (w : World) : Relay := {| world := w; goroutines := [] |}.

(** One envelope arrives and is processed with nothing in between: the
    gate, the filter, the two calls and the record. *)
Definition toCompletion (chatMsg : ChatNotificationMessage) : list Event :=
  Arrive chatMsg :: replicate 5 (Step 0).

Fixpoint lastByte (s : string) : option Ascii.ascii :=
  match s with
  | EmptyString => None
  | String a rest =>
      match rest with
      | EmptyString => Some a
      | String _ _ => lastByte rest
      end
  end.

End RelayVocabulary.

(** A transport that accepts every request with one ok ticket per message. *)
Definition acceptingClient : expo_service.Client :=
  {| expo_service.transport := fun _ messages => Ok (okResponse messages) |}.

Definition exampleManager : expo_service.Manager :=
  {| expo_service.service :=
       {| expo_service.client := acceptingClient; expo_service.maxRetries := 3;
          expo_service.baseDelay := 1000000000 |};
     expo_service.config :=
       {| expo_service.DefaultSound := "default"; expo_service.DefaultTTL := 3600;
          expo_service.DefaultPriority := "normal" |} |}.

Definition exampleDispatcher : push_service.DefaultPushService :=
  match push_service.RegisterProvider (push_service.ExpoProvider exampleManager)
          {| push_service.providers := ∅ |} with
  | Ok s => s
  | Err _ => {| push_service.providers := ∅ |}
  end.

Definition exampleCenter : pushcenter.PushCenter :=
  {| pushcenter.pushManager := exampleDispatcher;
     pushcenter.EnabledTypes := ["private_chat"; "group_chat"] |}.

(** Users u1..u4 with one Expo token each; u3 has muted the group g1. *)
Definition exampleStore : PebbleService.t :=
  snd (PebbleService.AddBlockedChat 1 "u3" "g1" "group" ""
  (snd (PebbleService.SetUserToken 1 "u4" "expo" "ExponentPushToken[4xxxxxxxxxxxx]"
  (snd (PebbleService.SetUserToken 1 "u3" "expo" "ExponentPushToken[3xxxxxxxxxxxx]"
  (snd (PebbleService.SetUserToken 1 "u2" "expo" "ExponentPushToken[2xxxxxxxxxxxx]"
  (snd (PebbleService.SetUserToken 1 "u1" "expo" "ExponentPushToken[1xxxxxxxxxxxx]"
          PebbleService.empty))))))))).

Definition exampleWorld : push_service.World :=
  {| push_service.pebble := Some exampleStore;
     push_service.net := expo_service.Net0;
     push_service.dispatched := [] |}.

(** Scenario S4 of the specification: a Candy Bag in group g1 that mentions u3. *)
Definition envelopeS4 : socket_client_service.ChatNotificationMessage :=
  {| socket_client_service.Type_ := "group_chat";
     socket_client_service.Data := Some
       {| socket_client_service.Message :=
            VMap [("pinId", VString "P2"); ("groupId", VString "g1");
                  ("userInfo", VMap [("name", VString "Bob")]);
                  ("chatType", VFloat64 (1 # 1))];
          socket_client_service.RepostMetaIds := ["u3"; "u4"];
          socket_client_service.MentionMetaIds := ["u3"] |} |}.

(** The same group message without a mention. *)
(** The envelope of S4 delivered twice, the second checked at the dedup
    gate before the pin of the first is on record; then each is run to its
    end. *)
Definition raceS4 : list pushcenter.Event :=
  ([pushcenter.Arrive envelopeS4; pushcenter.Arrive envelopeS4;
    pushcenter.Step 0; pushcenter.Step 1]
   ++ replicate 8 (pushcenter.Step 0))%list.

(** The relay once the envelope of S4 has been processed on its own. *)
Definition afterS4 : pushcenter.Relay :=
  pushcenter.run exampleCenter 7 (toCompletion envelopeS4) (quiet exampleWorld).

Definition envelopeMuted : socket_client_service.ChatNotificationMessage :=
  {| socket_client_service.Type_ := "group_chat";
     socket_client_service.Data := Some
       {| socket_client_service.Message :=
            VMap [("pinId", VString "P3"); ("groupId", VString "g1");
                  ("userInfo", VMap [("name", VString "Bob")]);
                  ("chatType", VFloat64 (0 # 1))];
          socket_client_service.RepostMetaIds := ["u3"; "u4"];
          socket_client_service.MentionMetaIds := [] |} |}.

(** A private chat of u1, a Candy Bag by its [chatType], in which u1 is
    both a recipient and a mention. *)
Definition envelopeSelfMention : socket_client_service.ChatNotificationMessage :=
  {| socket_client_service.Type_ := "private_chat";
     socket_client_service.Data := Some
       {| socket_client_service.Message :=
            VMap [("pinId", VString "P1"); ("metaId", VString "u1");
                  ("userInfo", VMap [("name", VString "Alice")]);
                  ("chatType", VFloat64 (1 # 1))];
          socket_client_service.RepostMetaIds := ["u1"; "u2"];
          socket_client_service.MentionMetaIds := ["u1"] |} |}.

(** A message in group g1, pin [P4], whose only recipient, u3, has muted
    the group. *)
Definition dataAllMuted : socket_client_service.ExtraServiceMessage :=
  {| socket_client_service.Message :=
       VMap [("pinId", VString "P4"); ("groupId", VString "g1");
             ("userInfo", VMap [("name", VString "Bob")])];
     socket_client_service.RepostMetaIds := ["u3"];
     socket_client_service.MentionMetaIds := [] |}.

Definition envelopeAllMuted : socket_client_service.ChatNotificationMessage :=
  {| socket_client_service.Type_ := "group_chat";
     socket_client_service.Data := Some dataAllMuted |}.

Definition parsedAllMuted : pushcenter.ParsedMessageInfo :=
  {| pushcenter.PinId := "P4"; pushcenter.GroupId := "g1"; pushcenter.MetaId := "";
     pushcenter.ChatType := "group_chat"; pushcenter.UserName := "Bob";
     pushcenter.ChatInfoType := 0 |}.

Definition exampleNotification : push_service.PushNotification :=
  {| push_service.Title := "New Message in Group"; push_service.Body := "Bob sent a message";
     push_service.Data := ∅; push_service.Sound := "default"; push_service.Badge := None;
     push_service.ImageURL := ""; push_service.Priority := "" |}.

Section StoreVocabulary.
Import models PebbleService.

(** The platform entries a user holds; none for an absent key. *)
Definition tokensOf (metaId : string) (ps : t) : gmap string string :=
  match user_tokens ps !! metaId with
  | Some userTokens => Tokens userTokens
  | None => ∅
  end.

(** The user a device (push token) is bound to, if any. *)
Definition ownerOf (token : string) (ps : t) : option string :=
  DeviceMetaID <$> devices ps !! token.

(** The chats a user has muted, in the order they were added. *)
Definition blockedIdsOf (userId : string) (ps : t) : list string :=
  match blocked_chats ps !! userId with
  | Some userBlockedChats => ChatID <$> BlockedChats userBlockedChats
  | None => []
  end.

(** No user holds a chat twice, and no key holds an empty list. *)
Definition blockedChatsTidy (ps : t) : Prop :=
  map_Forall (fun _ userBlockedChats =>
                NoDup (ChatID <$> BlockedChats userBlockedChats)
                /\ BlockedChats userBlockedChats <> [])
             (blocked_chats ps).

(** The page and the page size a request is served with: [page < 1] reads
    as 1, [pageSize < 1] as 10, [pageSize > 100] as 100. *)
Definition pageServed (page : Z) : Z := if page <? 1 then 1 else page.
Definition pageSizeServed (pageSize : Z) : Z :=
  let pageSize := if pageSize <? 1 then 10 else pageSize in
  if pageSize >? 100 then 100 else pageSize.

End StoreVocabulary.

Section SendingVocabulary.
Import expo_service.

(** A list cut into consecutive pieces of [size] items, the last one
    possibly shorter. *)
Fixpoint chunks {A} (size fuel : nat) (l : list A) : list (list A) :=
  match fuel, l with
  | S fuel', _ :: _ => take size l :: chunks size fuel' (drop size l)
  | _, _ => []
  end.

Definition batchesOf {A} (l : list A) : list (list A) := chunks 100 (length l) l.

(** What a send loop reports for the outcome of its last request:
    a transport error is reported as it came, and only by the last
    iteration the loop admits; a response makes the send a success exactly
    when it is accepted. *)
Definition reports (outcome : result PushResponse) (lastIteration : Prop)
    (r : SendNotificationResult) : Prop :=
  match outcome with
  | Err e => lastIteration /\ Success r = false /\ Error r = Some e
  | Ok response =>
      (Success r = true <-> accepted response)
      /\ (Success r = true ->
          Error r = None /\ (ID <$> head (ResponseData response)) = Some (ReceiptID r))
      /\ (Success r = false -> is_Some (Error r))
  end.

End SendingVocabulary.

Section ReceiptsVocabulary.
Import expo_receipts.

(** The [k]-th receipt request, for [batch], gets a response without
    top-level API errors. *)
Definition answered (transport : Transport) (k : nat) (batch : list string) : Prop :=
  exists response, transport k batch = Ok response /\ Errors response = [].

(** The id lists [CheckReceipts] asks for when nothing fails. *)
Definition receiptBatches (receiptIDs : list string) : list (list string) :=
  chunks 1000 (length receiptIDs) receiptIDs.

End ReceiptsVocabulary.

(** A receipt endpoint that reports every id it is asked about as delivered. *)
Definition deliveredTransport : expo_receipts.Transport :=
  fun _ receiptIDs =>
    expo_receipts.Ok
      {| expo_receipts.Data :=
           list_to_map ((fun id => (id, {| expo_receipts.Status := "ok";
                                           expo_receipts.Message := "";
                                           expo_receipts.Details := None |}))
                        <$> receiptIDs);
         expo_receipts.Errors := [] |}.

(** A socket client whose chat callback is the relay's handler. *)
Definition relayClient (pc : pushcenter.PushCenter) (now : Z)
    (unmarshal : string -> option socket_client_service.ExtraServiceMessage)
  : socket_client.Client push_service.World :=
  {| socket_client.OnChatNotificationMessage := Some (pushcenter.handleChatMessage pc now);
     socket_client.unmarshal := unmarshal |}.

(** * Properties *)

(** ** Expo token syntax *)

Section TokenSyntax.
Import expo_service.

Lemma prefixOf_eqb (p token : string) :
  String.eqb (prefixOf (String.length p) token) p = String.prefix p token.
Proof.
  apply Bool.eq_iff_eq_true. unfold prefixOf.
  rewrite String.eqb_eq. symmetry. apply String.prefix_correct.
Qed.

(** C5, what the code accepts: [ValidateToken] holds exactly for the
    strings longer than 20 bytes that begin with [ExponentPushToken[] or
    [ExpoPushToken[]; the test is on the string alone. *)
Theorem ValidateToken_spec (token : string) :
  ValidateToken token
  = (len token >? 20)
    && (String.prefix "ExponentPushToken[" token || String.prefix "ExpoPushToken[" token).
Proof.
  unfold ValidateToken.
  rewrite <- (prefixOf_eqb "ExponentPushToken[" token).
  rewrite <- (prefixOf_eqb "ExpoPushToken[" token).
  cbn [String.length].
  destruct (len token <? 10) eqn:Hshort; [|reflexivity].
  apply Z.ltb_lt in Hshort.
  assert ((len token >? 20) = false) as -> by lia.
  reflexivity.
Qed.

(** C5, the claim fails at length 20: a well-prefixed token of exactly 20
    bytes is rejected. *)
Lemma ValidateToken_rejects_20_bytes :
  String.prefix "ExponentPushToken[" "ExponentPushToken[a]" = true
  /\ len "ExponentPushToken[a]" = 20
  /\ ValidateToken "ExponentPushToken[a]" = false.
Proof. repeat split; reflexivity. Qed.

End TokenSyntax.

(** ** Retries of the Expo service *)

Section Retries.
Import expo_service.

Lemma failAll_failed err retry results :
  Forall (fun r => Success r = false) results ->
  Forall failed (failAll err retry results).
Proof.
  unfold failAll. induction 1 as [|r rs Hr _ IH]; cbn; constructor; auto.
  rewrite Hr. split; cbn; eauto.
Qed.

Lemma SendPushNotifications_posts c messages n :
  (0 < length messages <= 100)%nat ->
  SendPushNotifications c messages n = post c messages n.
Proof.
  intros Hlen. unfold SendPushNotifications, MaxMessagesPerRequest.
  assert ((Z.of_nat (length messages) =? 0) = false) as -> by lia.
  assert ((Z.of_nat (length messages) >? 100) = false) as -> by lia.
  reflexivity.
Qed.

(** The batch loop against a dead transport: it runs out its iterations,
    one request each, and fails every message. *)
Lemma batchLoop_alwaysFails s messages results :
  alwaysFails (client s) ->
  (0 < length messages <= 100)%nat ->
  Forall (fun r => Success r = false /\ Error r = None) results ->
  forall fuel retry n,
    retry + Z.of_nat fuel = maxRetries s + 1 ->
    exists results' n',
      batchLoop s messages fuel retry results n = (Ok results', n')
      /\ requests n' = (requests n + fuel)%nat
      /\ length results' = length results
      /\ Forall failed results'.
Proof.
  intros Hdead Hlen Hfresh fuel.
  induction fuel as [|fuel IH]; intros retry n Hfuel.
  - cbn. eexists _, n. split; [reflexivity|].
    split; [unfold requests; lia|]. split; [apply length_fmap|].
    induction Hfresh as [|r rs [Hs He] _ IHrs]; cbn; constructor; auto.
    rewrite Hs, He. cbn. split; cbn; eauto.
  - cbn [batchLoop]. unfold try.
    rewrite SendPushNotifications_posts by exact Hlen.
    unfold post. specialize (Hdead (length (sent n)) messages).
    destruct (transport (client s) (length (sent n)) messages) as [?|err];
      [discriminate|].
    unfold shouldRetry.
    destruct (retry >=? maxRetries s) eqn:Hlast.
    + (* the last admitted iteration *)
      assert (fuel = O) as -> by lia.
      eexists _, _. split; [reflexivity|].
      split; [unfold requests; cbn; rewrite length_app; cbn; lia|].
      split; [apply length_fmap|].
      apply failAll_failed. eapply Forall_impl; [exact Hfresh|]. tauto.
    + unfold bind, waitBeforeRetry.
      destruct (retry =? 0); cbn;
        match goal with
        | |- context [batchLoop s messages fuel (retry + 1) results ?m] =>
            destruct (IH (retry + 1) m ltac:(lia)) as (rs & n' & Heq & Hn' & Hl & Hf);
            rewrite Heq; exists rs, n'; split; [reflexivity|]; split; [|auto];
            rewrite Hn'; unfold requests; cbn; rewrite length_app; cbn; lia
        end.
Qed.

(** C7: against a transport that fails every request, a batch of 1 to 100
    tokens costs exactly [maxRetries + 1] requests, after which every
    message of the batch is failed. *)
Theorem sendBatch_retry_bound (s : Service) (tokens : list string)
    (title body : string) (data : gmap string Value) (n : Net) :
  alwaysFails (client s) ->
  -1 <= maxRetries s ->
  (0 < length tokens <= 100)%nat ->
  exists results n',
    sendBatch s tokens title body data n = (Ok results, n')
    /\ Z.of_nat (requests n') = Z.of_nat (requests n) + (maxRetries s + 1)
    /\ length results = length tokens
    /\ Forall failed results.
Proof.
  intros Hdead Hmax Hlen. unfold sendBatch.
  destruct (batchLoop_alwaysFails s
              ((fun token => mkMessage token title body data) <$> tokens)
              (newResult <$> tokens) Hdead) with (fuel := iterations s) (retry := 0) (n := n)
    as (rs & n' & Heq & Hreq & Hl & Hf).
  - rewrite length_fmap. exact Hlen.
  - apply Forall_fmap, Forall_true. intros token. cbn. auto.
  - unfold iterations. lia.
  - exists rs, n'. split; [exact Heq|]. split; [|split; [|exact Hf]].
    + rewrite Hreq. unfold iterations. lia.
    + rewrite Hl. apply length_fmap.
Qed.

End Retries.

Lemma sendBatch_retry_bound_witness :
  exists results n',
    expo_service.sendBatch
      {| expo_service.client := deadClient; expo_service.maxRetries := 3;
         expo_service.baseDelay := 1000000000 |}
      ["ExponentPushToken[aaaaaaaaaaaa]"; "ExponentPushToken[bbbbbbbbbbbb]"]
      "title" "body" ∅ expo_service.Net0 = (Ok results, n')
    /\ Z.of_nat (requests n') = Z.of_nat (requests expo_service.Net0) + (3 + 1)
    /\ length results = 2%nat
    /\ Forall failed results.
Proof.
  apply (sendBatch_retry_bound
           {| expo_service.client := deadClient; expo_service.maxRetries := 3;
              expo_service.baseDelay := 1000000000 |}).
  - intros k messages. reflexivity.
  - cbn. lia.
  - cbn. lia.
Defined.

(** ** Backoff schedule of the Expo service *)

Section Backoff.
Import expo_service.

Lemma sleepsFrom_S s retry m :
  sleepsFrom s retry (S m)
  = ((if retry =? 0 then [] else [backoffDelay s retry])
     ++ sleepsFrom s (retry + 1) m)%list.
Proof. reflexivity. Qed.

Lemma sleepsFrom_positive s m :
  forall (start : nat) (retry : Z),
    retry = Z.of_nat start - 1 -> 0 < retry ->
    sleepsFrom s retry m
    = (fun n => backoffDelay s (Z.of_nat n - 1)) <$> seq start m.
Proof.
  induction m as [|m IH]; intros start retry Hst Hpos; [reflexivity|].
  cbn [sleepsFrom seq fmap list_fmap].
  assert ((retry =? 0) = false) as -> by lia. cbn [app].
  rewrite (IH (S start) (retry + 1)) by lia.
  subst retry. reflexivity.
Qed.

Lemma SendPushNotification_posts c message n :
  SendPushNotification c message n = post c [message] n.
Proof. reflexivity. Qed.

Lemma singleLoop_schedule s message response :
  accepted response ->
  forall (m fuel : nat) (retry : Z) (result : SendNotificationResult) (n : Net),
    (forall i, (i < m)%nat ->
               is_ok (transport (client s) (requests n + i)%nat [message]) = false) ->
    transport (client s) (requests n + m)%nat [message] = Ok response ->
    retry + Z.of_nat fuel = maxRetries s + 1 ->
    retry + Z.of_nat m <= maxRetries s ->
    exists r n',
      singleLoop s message fuel retry result n = (Ok r, n')
      /\ requests n' = (requests n + m + 1)%nat
      /\ slept n' = (slept n ++ sleepsFrom s retry m)%list
      /\ Success r = true
      /\ Retry r = retry + Z.of_nat m.
Proof.
  intros (Hnoerr & ticket & rest & Hdata & Hstatus) m.
  induction m as [|m IH]; intros fuel retry result n Hfail Hok Hfuel Hroom;
    (destruct fuel as [|fuel]; [lia|]); cbn [singleLoop]; unfold try;
    rewrite SendPushNotification_posts; unfold post.
  - rewrite Nat.add_0_r in Hok. unfold requests in Hok. rewrite Hok.
    rewrite Hnoerr, Hdata, Hstatus. cbn.
    eexists _, _. split; [reflexivity|]. cbn.
    split; [unfold requests; cbn; rewrite length_app; cbn; lia|].
    split; [cbn; now rewrite app_nil_r|].
    split; [reflexivity|lia].
  - pose proof (Hfail O ltac:(lia)) as Hfirst.
    rewrite Nat.add_0_r in Hfirst. unfold requests in Hfirst.
    destruct (transport (client s) (length (sent n)) [message]) as [?|err];
      [discriminate|].
    unfold shouldRetry.
    assert ((retry >=? maxRetries s) = false) as -> by lia.
    unfold bind, waitBeforeRetry. rewrite sleepsFrom_S.
    destruct (retry =? 0); cbn;
      match goal with
      | |- context [singleLoop s message fuel (retry + 1) ?res ?w] =>
          destruct (IH fuel (retry + 1) res w) as (r & n' & Heq & Hn' & Hs & Hsucc & Hr);
          [ intros i Hi; specialize (Hfail (S i) ltac:(lia));
            unfold requests in *; cbn; rewrite length_app; cbn;
            replace (length (sent n) + 1 + i)%nat with (length (sent n) + S i)%nat by lia;
            exact Hfail
          | unfold requests in *; cbn; rewrite length_app; cbn;
            replace (length (sent n) + 1 + m)%nat with (length (sent n) + S m)%nat by lia;
            exact Hok
          | lia | lia | ];
          rewrite Heq; exists r, n'; split; [reflexivity|];
          split; [rewrite Hn'; unfold requests; cbn; rewrite length_app; cbn; lia|];
          split; [rewrite Hs; cbn; now rewrite <- ?app_assoc|];
          split; [exact Hsucc|lia]
      end.
Qed.

(** C8, the schedule the code follows: when the first [k] requests fail in
    transport and the next one is accepted ([k <= maxRetries]), a
    single-message send makes exactly [k + 1] requests and succeeds; it
    takes no sleep before the first retry, and before the [n]-th retry,
    [n >= 2], it sleeps [backoffDelay s (n-1)], that is
    [baseDelay * 2^(n-2)] plus a tenth of it. *)
Theorem SendSingleNotification_backoff (s : Service) (token title body : string)
    (data : gmap string Value) (response : PushResponse) (k : nat) :
  (forall i, (i < k)%nat ->
     is_ok (transport (client s) i [mkMessage token title body data]) = false) ->
  transport (client s) k [mkMessage token title body data] = Ok response ->
  accepted response ->
  Z.of_nat k <= maxRetries s ->
  exists r n',
    SendSingleNotification s token title body data Net0 = (Ok r, n')
    /\ Success r = true
    /\ requests n' = (k + 1)%nat
    /\ slept n' = (fun n => backoffDelay s (Z.of_nat n - 1)) <$> seq 2 (k - 1).
Proof.
  intros Hfail Hok Hacc Hroom. unfold SendSingleNotification.
  destruct (singleLoop_schedule s (mkMessage token title body data) response Hacc
              k (iterations s) 0 (newResult token) Net0)
    as (r & n' & Heq & Hn' & Hs & Hsucc & _); auto.
  - unfold iterations. lia.
  - exists r, n'. split; [exact Heq|]. split; [exact Hsucc|]. split; [exact Hn'|].
    rewrite Hs. cbn [slept Net0 app].
    destruct k as [|k]; [reflexivity|].
    rewrite sleepsFrom_S. cbn [Z.eqb app]. replace (S k - 1)%nat with k by lia.
    apply sleepsFrom_positive; lia.
Qed.

End Backoff.

Lemma SendSingleNotification_backoff_witness :
  exists r n',
    expo_service.SendSingleNotification failsTwiceService
      "ExponentPushToken[aaaaaaaaaaaa]" "title" "body" ∅ expo_service.Net0 = (Ok r, n')
    /\ expo_service.Success r = true
    /\ requests n' = (2 + 1)%nat
    /\ expo_service.slept n'
       = (fun n => expo_service.backoffDelay failsTwiceService (Z.of_nat n - 1))
           <$> seq 2 (2 - 1).
Proof.
  apply (SendSingleNotification_backoff failsTwiceService
           "ExponentPushToken[aaaaaaaaaaaa]" "title" "body" ∅
           (okResponse [expo_service.mkMessage "ExponentPushToken[aaaaaaaaaaaa]"
                          "title" "body" ∅]) 2).
  - intros i Hi. destruct i as [|[|i]]; [reflexivity|reflexivity|lia].
  - reflexivity.
  - split; [reflexivity|]. exists okTicket, []. split; reflexivity.
  - cbn. lia.
Defined.

(** C8, the claimed schedule fails: with [base_delay] of one second and a
    transport that fails twice and then accepts, the send makes three
    requests but sleeps 1.1 s in all (nothing before the first retry,
    1.1 s before the second), short of the claimed [base + 2*base]. *)
Lemma backoff_total_wait_is_not_three_base_delays :
  let '(r, n) := expo_service.SendSingleNotification failsTwiceService
                   "ExponentPushToken[aaaaaaaaaaaa]" "title" "body" ∅ expo_service.Net0 in
  is_ok r = true
  /\ requests n = 3%nat
  /\ expo_service.slept n = [1100000000]
  /\ ~ (1000000000 + 2 * 1000000000 <= foldr Z.add 0 (expo_service.slept n)).
Proof. vm_compute. repeat split; try reflexivity. intros H. apply H. reflexivity. Qed.

(** ** Token transfer in the store *)

Section TokenTransfer.
Import models PebbleService.

Lemma wf_empty : wf empty.
Proof. split; apply map_Forall_empty. Qed.

Lemma eqb_false (a b : string) : a <> b -> String.eqb a b = false.
Proof. apply String.eqb_neq. Qed.

Lemma SaveUserTokens_wf now ut ps : wf ps -> wf (snd (SaveUserTokens now ut ps)).
Proof.
  intros [Hu Hd]. unfold SaveUserTokens.
  destruct (String.eqb (MetaID ut) ""); [split; assumption|].
  split; cbn; [|assumption]. apply map_Forall_insert_2; [reflexivity|assumption].
Qed.

Lemma SaveUserTokens_devices now ut ps :
  devices (snd (SaveUserTokens now ut ps)) = devices ps.
Proof. unfold SaveUserTokens. destruct (String.eqb (MetaID ut) ""); reflexivity. Qed.

Lemma scrubOldOwner_wf now old platform token ps :
  wf ps -> wf (scrubOldOwner now old platform token ps).
Proof.
  intros Hwf. unfold scrubOldOwner.
  destruct (GetUserTokens now old ps) as [ut|]; [|assumption].
  destruct (Tokens ut !! platform) as [oldToken|]; [|assumption].
  destruct (String.eqb oldToken token); [|assumption].
  apply SaveUserTokens_wf, Hwf.
Qed.

Lemma scrubOldOwner_devices now old platform token ps :
  devices (scrubOldOwner now old platform token ps) = devices ps.
Proof.
  unfold scrubOldOwner.
  destruct (GetUserTokens now old ps) as [ut|]; [|reflexivity].
  destruct (Tokens ut !! platform) as [oldToken|]; [|reflexivity].
  destruct (String.eqb oldToken token); [|reflexivity].
  apply SaveUserTokens_devices.
Qed.

Lemma GetUserTokens_wf now metaId ps :
  wf ps -> metaId <> "" ->
  exists ut, GetUserTokens now metaId ps = Ok ut /\ MetaID ut = metaId
             /\ (user_tokens ps !! metaId = None -> Tokens ut = ∅)
             /\ (forall v, user_tokens ps !! metaId = Some v -> ut = v).
Proof.
  intros [Hu _] Hne. unfold GetUserTokens. rewrite (eqb_false _ _ Hne).
  destruct (user_tokens ps !! metaId) as [v|] eqn:Hv.
  - exists v. split; [reflexivity|]. split; [exact (Hu _ _ Hv)|].
    split; [discriminate|]. intros v' Hv'. congruence.
  - eexists. split; [reflexivity|]. split; [reflexivity|].
    split; [reflexivity|]. discriminate.
Qed.

(** The upsert that ends [SetUserToken]. *)
Lemma upsert_spec now metaId platform token ps :
  wf ps -> metaId <> "" ->
  exists ut ps',
    GetUserTokens now metaId ps = Ok ut
    /\ SaveUserTokens now {| MetaID := MetaID ut;
                             Tokens := <[platform := token]> (Tokens ut);
                             UpdatedAt := UpdatedAt ut |} ps = (Ok tt, ps')
    /\ devices ps' = devices ps
    /\ user_tokens ps'
       = <[metaId := {| MetaID := metaId; Tokens := <[platform := token]> (Tokens ut);
                        UpdatedAt := now |}]> (user_tokens ps).
Proof.
  intros Hwf Hne.
  destruct (GetUserTokens_wf now metaId ps Hwf Hne) as (ut & Hget & Hid & _).
  exists ut. unfold SaveUserTokens. cbn [MetaID Tokens]. rewrite Hid, (eqb_false _ _ Hne).
  eexists. split; [exact Hget|]. split; [reflexivity|]. split; reflexivity.
Qed.

(** What one [SetUserToken] leaves behind, whoever held the token before. *)
Lemma SetUserToken_spec now metaId platform token ps :
  wf ps -> metaId <> "" -> platform <> "" -> token <> "" ->
  exists ps0 ut,
    wf ps0
    /\ devices ps0 = devices ps
    /\ ps0 = match devices ps !! token with
             | Some d => if negb (String.eqb (DeviceMetaID d) metaId)
                         then scrubOldOwner now (DeviceMetaID d) platform token ps
                         else ps
             | None => ps
             end
    /\ GetUserTokens now metaId ps0 = Ok ut
    /\ SetUserToken now metaId platform token ps
       = (Ok tt,
          {| user_tokens :=
               <[metaId := {| MetaID := metaId;
                              Tokens := <[platform := token]> (Tokens ut);
                              UpdatedAt := now |}]> (user_tokens ps0);
             devices :=
               <[token := {| DeviceID := token; Platform := platform;
                             DeviceMetaID := metaId; DeviceUpdatedAt := now |}]>
                 (devices ps);
             blocked_chats := blocked_chats ps0;
             notified_pins := notified_pins ps0 |}).
Proof.
  intros Hwf Hm Hp Ht.
  set (ps0 := match devices ps !! token with
              | Some d => if negb (String.eqb (DeviceMetaID d) metaId)
                          then scrubOldOwner now (DeviceMetaID d) platform token ps
                          else ps
              | None => ps
              end).
  assert (Hwf0 : wf ps0).
  { unfold ps0. destruct (devices ps !! token) as [d|]; [|assumption].
    destruct (negb _); [apply scrubOldOwner_wf|]; assumption. }
  assert (Hdev0 : devices ps0 = devices ps).
  { unfold ps0. destruct (devices ps !! token) as [d|]; [|reflexivity].
    destruct (negb _); [apply scrubOldOwner_devices|reflexivity]. }
  (* the device write *)
  assert (Hsaved :
    (match GetDeviceInfo token ps with
     | Ok existingDevice =>
         SaveDeviceInfo now
           {| DeviceID := DeviceID existingDevice; Platform := platform;
              DeviceMetaID := metaId;
              DeviceUpdatedAt := DeviceUpdatedAt existingDevice |}
           (if negb (String.eqb (DeviceMetaID existingDevice) metaId)
            then scrubOldOwner now (DeviceMetaID existingDevice) platform token ps
            else ps)
     | Err _ =>
         SaveDeviceInfo now
           {| DeviceID := token; Platform := platform; DeviceMetaID := metaId;
              DeviceUpdatedAt := now |} ps
     end)
    = (Ok tt, set_devices
                (<[token := {| DeviceID := token; Platform := platform;
                               DeviceMetaID := metaId; DeviceUpdatedAt := now |}]>
                   (devices ps)) ps0)).
  { unfold GetDeviceInfo, ps0. rewrite (eqb_false _ _ Ht).
    destruct (devices ps !! token) as [d|] eqn:Hd.
    - destruct Hwf as [_ Hdv]. pose proof (Hdv _ _ Hd) as Hid. cbn in Hid.
      unfold SaveDeviceInfo. cbn [DeviceID Platform DeviceMetaID].
      rewrite Hid, (eqb_false _ _ Ht), (eqb_false _ _ Hp), (eqb_false _ _ Hm).
      destruct (negb _); [rewrite scrubOldOwner_devices|]; reflexivity.
    - unfold SaveDeviceInfo. cbn [DeviceID Platform DeviceMetaID].
      rewrite (eqb_false _ _ Ht), (eqb_false _ _ Hp), (eqb_false _ _ Hm). reflexivity. }
  set (ps1 := set_devices
                (<[token := {| DeviceID := token; Platform := platform;
                               DeviceMetaID := metaId; DeviceUpdatedAt := now |}]>
                   (devices ps)) ps0) in *.
  assert (Hwf1 : wf ps1).
  { destruct Hwf0 as [Hu0 Hd0]. split; [exact Hu0|]. cbn.
    apply map_Forall_insert_2; [reflexivity|]. destruct Hwf as [_ Hdv]. exact Hdv. }
  destruct (upsert_spec now metaId platform token ps1 Hwf1 Hm)
    as (ut & ps' & Hget & Hsave & Hdev' & Hut').
  exists ps0, ut. split; [exact Hwf0|]. split; [exact Hdev0|]. split; [reflexivity|].
  split; [exact Hget|].
  unfold SetUserToken.
  rewrite (eqb_false _ _ Hm), (eqb_false _ _ Hp), (eqb_false _ _ Ht). cbn [orb].
  rewrite Hsaved. rewrite Hget, Hsave. f_equal.
  destruct ps' as [u' d' b' p']. cbn in Hdev', Hut'. subst u' d'.
  unfold SaveUserTokens in Hsave. cbn [MetaID] in Hsave.
  destruct (String.eqb (MetaID ut) ""); [discriminate|].
  injection Hsave as Hb Hn. cbn in Hb, Hn. subst b' p'. reflexivity.
Qed.

(** The invariant is kept by [SetUserToken], whatever its arguments. *)
Lemma SetUserToken_preserves_wf now metaId platform token ps :
  wf ps -> wf (snd (SetUserToken now metaId platform token ps)).
Proof.
  intros Hwf.
  destruct (String.eqb metaId "") eqn:Hm;
    [unfold SetUserToken; rewrite Hm; exact Hwf|].
  destruct (String.eqb platform "") eqn:Hp;
    [unfold SetUserToken; rewrite Hm, Hp; exact Hwf|].
  destruct (String.eqb token "") eqn:Ht;
    [unfold SetUserToken; rewrite Hm, Hp, Ht; exact Hwf|].
  apply String.eqb_neq in Hm, Hp, Ht.
  destruct (SetUserToken_spec now metaId platform token ps Hwf Hm Hp Ht)
    as (ps0 & ut & [Hu0 _] & _ & _ & _ & ->).
  destruct Hwf as [_ Hd]. split; cbn.
  - apply map_Forall_insert_2; [reflexivity|exact Hu0].
  - apply map_Forall_insert_2; [reflexivity|exact Hd].
Qed.

Lemma scrubOldOwner_holder now old platform token ps v :
  old <> "" ->
  user_tokens ps !! old = Some v -> MetaID v = old ->
  Tokens v !! platform = Some token ->
  user_tokens (scrubOldOwner now old platform token ps)
  = <[old := {| MetaID := old; Tokens := delete platform (Tokens v);
                UpdatedAt := now |}]> (user_tokens ps).
Proof.
  intros Hne Hv Hid Htok. unfold scrubOldOwner, GetUserTokens.
  rewrite (eqb_false _ _ Hne), Hv, Htok, String.eqb_refl.
  unfold SaveUserTokens. cbn [MetaID Tokens]. rewrite Hid, (eqb_false _ _ Hne).
  reflexivity.
Qed.

(** C4: registering token [T] for [A] and then for [B] on platform [P]
    leaves [A] without a [P] entry, gives [B] the entry [T], and binds the
    device [T] to [B]. *)
Theorem SetUserToken_transfer (now1 now2 now3 : Z) (A B P T : string) (ps : t) :
  wf ps -> A <> "" -> B <> "" -> P <> "" -> T <> "" -> A <> B ->
  exists ps1 ps2,
    SetUserToken now1 A P T ps = (Ok tt, ps1)
    /\ SetUserToken now2 B P T ps1 = (Ok tt, ps2)
    /\ (exists ua, GetUserTokens now3 A ps2 = Ok ua /\ Tokens ua !! P = None)
    /\ (exists ub, GetUserTokens now3 B ps2 = Ok ub /\ Tokens ub !! P = Some T)
    /\ (exists d, GetDeviceInfo T ps2 = Ok d
                  /\ DeviceMetaID d = B /\ Platform d = P).
Proof.
  intros Hwf HA HB HP HT HAB.
  destruct (SetUserToken_spec now1 A P T ps Hwf HA HP HT)
    as (q0 & ut1 & Hwfq0 & _ & _ & _ & Hset1).
  eexists. rewrite Hset1.
  match goal with |- exists ps2, (_, ?x) = _ /\ _ => set (ps1 := x) end.
  assert (Hwf1 : wf ps1).
  { destruct Hwfq0 as [Hu0 Hd0]. destruct Hwf as [_ Hd]. split; cbn.
    - apply map_Forall_insert_2; [reflexivity|exact Hu0].
    - apply map_Forall_insert_2; [reflexivity|exact Hd]. }
  destruct (SetUserToken_spec now2 B P T ps1 Hwf1 HB HP HT)
    as (r0 & ut2 & Hwfr0 & _ & Hr0 & _ & Hset2).
  eexists. split; [reflexivity|]. split; [exact Hset2|].
  (* the scrub of A inside the second call *)
  assert (Hscrub :
    user_tokens r0
    = <[A := {| MetaID := A; Tokens := delete P (<[P := T]> (Tokens ut1));
                UpdatedAt := now2 |}]> (user_tokens ps1)).
  { rewrite Hr0.
    assert (devices ps1 !! T
            = Some {| DeviceID := T; Platform := P; DeviceMetaID := A;
                      DeviceUpdatedAt := now1 |}) as ->
      by (unfold ps1; cbn [devices]; apply lookup_insert_eq).
    cbn [DeviceMetaID]. rewrite (eqb_false _ _ HAB). cbn [negb].
    pose proof (scrubOldOwner_holder now2 A P T ps1
                  {| MetaID := A; Tokens := <[P := T]> (Tokens ut1); UpdatedAt := now1 |}
                  HA) as Hholder.
    cbn [Tokens MetaID] in Hholder. apply Hholder; [|reflexivity|].
    - unfold ps1. cbn [user_tokens]. apply lookup_insert_eq.
    - apply lookup_insert_eq. }
  unfold GetUserTokens, GetDeviceInfo. cbn [user_tokens devices].
  rewrite (eqb_false _ _ HA), (eqb_false _ _ HB), (eqb_false _ _ HT).
  rewrite Hscrub.
  rewrite lookup_insert_ne by congruence.
  rewrite !lookup_insert_eq.
  split; [|split].
  - eexists. split; [reflexivity|]. cbn [Tokens]. apply lookup_delete_eq.
  - eexists. split; [reflexivity|]. cbn [Tokens]. apply lookup_insert_eq.
  - eexists. split; [reflexivity|]. split; reflexivity.
Qed.

End TokenTransfer.

Lemma SetUserToken_transfer_witness :
  exists ps1 ps2,
    PebbleService.SetUserToken 1 "u1" "expo" "ExponentPushToken[AAA]"
      PebbleService.empty = (Ok tt, ps1)
    /\ PebbleService.SetUserToken 2 "u2" "expo" "ExponentPushToken[AAA]" ps1 = (Ok tt, ps2)
    /\ (exists ua, PebbleService.GetUserTokens 3 "u1" ps2 = Ok ua
                   /\ models.Tokens ua !! "expo" = None)
    /\ (exists ub, PebbleService.GetUserTokens 3 "u2" ps2 = Ok ub
                   /\ models.Tokens ub !! "expo" = Some "ExponentPushToken[AAA]")
    /\ (exists d, PebbleService.GetDeviceInfo "ExponentPushToken[AAA]" ps2 = Ok d
                  /\ models.DeviceMetaID d = "u2" /\ models.Platform d = "expo").
Proof.
  apply (SetUserToken_transfer 1 2 3 "u1" "u2" "expo" "ExponentPushToken[AAA]"
           PebbleService.empty wf_empty); discriminate.
Defined.

(** ** Paging over the user_tokens keyspace *)

Section Paging.
Import models PebbleService.

Lemma wrap64_small z : - 2 ^ 63 <= z < 2 ^ 63 -> wrap64 z = z.
Proof. intros Hz. unfold wrap64. rewrite Z.mod_small; lia. Qed.

(** As long as [(page - 1) * pageSize] stays clear of the int64 range,
    [GetUserTokensList] returns the [page]-th window of the scan. *)
Lemma GetUserTokensList_in_range (page pageSize : Z) (ps : t) :
  1 <= page -> 1 <= pageSize <= 100 ->
  (page - 1) * pageSize < 2 ^ 62 ->
  Z.of_nat (length (scanUserTokens ps)) < 2 ^ 62 ->
  exists p,
    GetUserTokensList page pageSize ps = Ok p
    /\ Users p = pageOf (scanUserTokens ps) page pageSize
    /\ Total p = Z.of_nat (length (scanUserTokens ps))
    /\ (Z.of_nat (length (scanUserTokens ps)) <= (page - 1) * pageSize ->
        Users p = [] /\ HasNext p = false).
Proof.
  intros Hpage Hsize Hstart Htotal. unfold GetUserTokensList, pageOf.
  assert ((page <? 1) = false) as -> by lia.
  assert ((pageSize <? 1) = false) as -> by lia.
  assert ((pageSize >? 100) = false) as -> by lia.
  set (allUsers := scanUserTokens ps) in *.
  set (start := (page - 1) * pageSize) in *.
  assert (0 <= start) by (unfold start; nia).
  rewrite (wrap64_small start) by lia.
  rewrite (wrap64_small (start + pageSize)) by lia.
  destruct (start >=? Z.of_nat (length allUsers)) eqn:Hbeyond.
  - eexists. split; [reflexivity|]. cbn.
    rewrite drop_ge by lia. rewrite take_nil. auto.
  - assert (Hlt : start < Z.of_nat (length allUsers)) by lia.
    set (stop := if start + pageSize >? Z.of_nat (length allUsers)
                 then Z.of_nat (length allUsers) else start + pageSize).
    assert (Hstop : start <= stop <= Z.of_nat (length allUsers)).
    { unfold stop. destruct (start + pageSize >? Z.of_nat (length allUsers)) eqn:E; lia. }
    unfold slice.
    assert (((0 <=? start) && (start <=? stop) && (stop <=? Z.of_nat (length allUsers)))
            = true) as ->.
    { rewrite !andb_true_iff. repeat split; lia. }
    eexists. split; [reflexivity|]. cbn. split; [|split; [reflexivity|lia]].
    unfold stop. destruct (start + pageSize >? Z.of_nat (length allUsers)) eqn:E.
    + rewrite !take_ge; [reflexivity| |]; rewrite length_drop; lia.
    + f_equal. lia.
Qed.

Lemma pageOf_concat {A} (l : list A) (pageSize : Z) (pages : nat) :
  1 <= pageSize ->
  concat ((fun i => pageOf l (Z.of_nat (S i)) pageSize) <$> seq 0 pages)
  = take (pages * Z.to_nat pageSize) l.
Proof.
  intros Hsize. induction pages as [|pages IH]; [reflexivity|].
  rewrite seq_S, fmap_app, concat_app, IH. cbn [fmap list_fmap concat Nat.add].
  rewrite app_nil_r. unfold pageOf.
  replace (Z.to_nat ((Z.of_nat (S pages) - 1) * pageSize))
    with (pages * Z.to_nat pageSize)%nat by nia.
  replace (S pages * Z.to_nat pageSize)%nat
    with (pages * Z.to_nat pageSize + Z.to_nat pageSize)%nat by lia.
  apply take_take_drop.
Qed.

(** The part of the pagination law that holds: pages [1 .. total_pages],
    put end to end, are the full scan. *)
Lemma pages_concat_is_scan (pageSize : Z) (ps : t) :
  1 <= pageSize <= 100 ->
  Z.of_nat (length (scanUserTokens ps)) < 2 ^ 62 ->
  concat ((fun i => usersOfPage (Z.of_nat (S i)) pageSize ps)
            <$> seq 0 (Z.to_nat (totalPagesOf pageSize ps)))
  = scanUserTokens ps.
Proof.
  intros Hsize Htotal. unfold totalPagesOf.
  set (total := Z.of_nat (length (scanUserTokens ps))) in *.
  assert (Htp : 0 <= (total + pageSize - 1) ÷ pageSize
                /\ total <= ((total + pageSize - 1) ÷ pageSize) * pageSize
                /\ ((total + pageSize - 1) ÷ pageSize - 1) * pageSize < total \/ total = 0).
  { rewrite Z.quot_div_nonneg by lia.
    pose proof (Z.div_mod (total + pageSize - 1) pageSize ltac:(lia)).
    pose proof (Z.mod_pos_bound (total + pageSize - 1) pageSize ltac:(lia)).
    destruct (Z.eq_dec total 0); [right; assumption|left]. 
    assert (0 <= (total + pageSize - 1) / pageSize) by (apply Z.div_pos; lia).
    repeat split; nia. }
  transitivity (concat ((fun i => pageOf (scanUserTokens ps) (Z.of_nat (S i)) pageSize)
                          <$> seq 0 (Z.to_nat ((total + pageSize - 1) ÷ pageSize)))).
  - f_equal. apply list_fmap_ext. intros j i [-> Hi]%lookup_seq. cbn [Nat.add].
    unfold usersOfPage.
    destruct (GetUserTokensList_in_range (Z.of_nat (S j)) pageSize ps)
      as (p & -> & Hp & _); [lia|lia| |exact Htotal|exact Hp].
    destruct Htp as [(H0 & H1 & H2)|H0]; [nia|rewrite H0 in Hi; cbn in Hi].
    rewrite Z.quot_small in Hi by lia. cbn in Hi. lia.
  - rewrite pageOf_concat by lia. apply take_ge.
    destruct Htp as [(H0 & H1 & H2)|H0]; fold total; nia.
Qed.

(** C9, the overflow: with one user stored, page [2^62 + 1] at page size
    100 lies far beyond the single page there is, yet [(page - 1) *
    pageSize] wraps around to 0 and the call returns the first page's items
    instead of an empty list. *)
Theorem GetUserTokensList_page_wraps_around :
  exists p,
    GetUserTokensList (2 ^ 62 + 1) 100 oneUserStore = Ok p
    /\ TotalPages p = 1
    /\ MetaID <$> Users p = ["u1"]
    /\ Users p = scanUserTokens oneUserStore
    /\ HasNext p = false.
Proof. eexists. split; [vm_compute; reflexivity|]. repeat split. Qed.

(** The neighbouring page [2^62] makes the start index negative and the
    slice expression panics. *)
Lemma GetUserTokensList_page_panics :
  GetUserTokensList (2 ^ 62) 100 oneUserStore = Err PanicSliceBounds.
Proof. vm_compute. reflexivity. Qed.

End Paging.

(** ** The dispatcher *)

Section Dispatcher.
Import push_service.

Lemma sendSingleNotification_ok metaId platform token provider notification n :
  exists r n',
    sendSingleNotification metaId platform token provider notification n = (Ok r, n')
    /\ MetaID r = metaId /\ Platform r = platform.
Proof.
  unfold sendSingleNotification.
  destruct (negb (ValidateToken provider token)).
  - eexists _, _. split; [reflexivity|]. split; reflexivity.
  - unfold try. destruct (SendNotification provider token notification n) as [[r|e] n'];
      eexists _, _; (split; [reflexivity|]); split; reflexivity.
Qed.

Lemma sendAll_ok notification l :
  forall n, exists rs n',
    sendAll notification l n = (Ok rs, n')
    /\ Forall2 (fun a r => MetaID r = attemptMetaId a /\ Platform r = attemptPlatform a) l rs.
Proof.
  induction l as [|a l IH]; intros n.
  - exists [], n. split; [reflexivity|constructor].
  - cbn [sendAll]. unfold bind.
    destruct (sendSingleNotification_ok (attemptMetaId a) (attemptPlatform a)
                (attemptToken a) (attemptProvider a) notification n)
      as (r & n1 & -> & Hm & Hp).
    destruct (IH n1) as (rs & n' & -> & Hall).
    exists (r :: rs), n'. split; [reflexivity|]. constructor; auto.
Qed.

Lemma attempts_metaId s (allUserTokens : gmap string models.UserPushTokens) a :
  a ∈ attempts s allUserTokens -> is_Some (allUserTokens !! attemptMetaId a).
Proof.
  unfold attempts. intros ([metaId userTokens] & Ha & Hin)%list_elem_of_bind.
  apply elem_of_map_to_list in Hin.
  unfold attemptsOfUser in Ha. apply list_elem_of_omap in Ha as ([platform token] & _ & Ha).
  destruct (providers s !! platform); [|discriminate].
  injection Ha as <-. cbn. eauto.
Qed.

Lemma GetAllUserTokens_keys now metaIds ps k :
  is_Some (PebbleService.GetAllUserTokens now metaIds ps !! k) -> k ∈ metaIds.
Proof.
  unfold PebbleService.GetAllUserTokens.
  assert (forall (acc : gmap string models.UserPushTokens),
            is_Some (foldl (fun acc metaId =>
                       <[metaId := match PebbleService.GetUserTokens now metaId ps with
                                   | Ok ut => ut
                                   | Err _ => {| models.MetaID := metaId; models.Tokens := ∅;
                                                 models.UpdatedAt := now |}
                                   end]> acc) acc metaIds !! k) ->
            is_Some (acc !! k) \/ k ∈ metaIds) as Hgen.
  { induction metaIds as [|m l IH]; intros acc H; [left; exact H|].
    cbn [foldl] in H. destruct (IH _ H) as [Hacc|Hin].
    - destruct (decide (m = k)) as [->|Hne].
      + right. left.
      + rewrite lookup_insert_ne in Hacc by exact Hne. left. exact Hacc.
    - right. right. exact Hin. }
  intros H. destruct (Hgen ∅ H) as [Hempty|Hin]; [|exact Hin].
  rewrite lookup_empty in Hempty. destruct Hempty as [? ?]. discriminate.
Qed.

Lemma SendToUsers_frame s now metaIds notification w :
  pebble (snd (SendToUsers s now metaIds notification w)) = pebble w
  /\ dispatched (snd (SendToUsers s now metaIds notification w)) = dispatched w
  /\ resultsWithin metaIds (fst (SendToUsers s now metaIds notification w)).
Proof.
  unfold SendToUsers, resultsWithin. destruct metaIds as [|m l].
  - cbn. split; [reflexivity|]. split; [reflexivity|].
    intros b x [= <-] Hx. cbn in Hx. inversion Hx.
  - set (metaIds := m :: l). unfold bind, tokenStore_GetAllUserTokens.
    unfold pebble_service.withService.
    destruct (pebble w) as [service|] eqn:Hsvc; cbn [fst snd].
    + unfold liftNet.
      destruct (sendAll_ok notification
                  (attempts s (PebbleService.GetAllUserTokens now metaIds service)) (net w))
        as (rs & n' & -> & Hall).
      cbn. split; [exact Hsvc|]. split; [reflexivity|].
      intros b x [= <-] Hx. cbn in Hx.
      apply list_elem_of_lookup in Hx as [i Hi].
      destruct (Forall2_lookup_r _ _ _ _ _ Hall Hi) as (a & Ha & Hm & _).
      rewrite Hm. eapply GetAllUserTokens_keys, attempts_metaId.
      apply list_elem_of_lookup. eauto.
    + split; [exact Hsvc|]. split; [reflexivity|]. intros b x [=].
Qed.

(** *** No batching *)






End Dispatcher.

(** ** The relay *)

Section Relay.
Import socket_client_service push_service pushcenter.

Lemma dispatch_frame pc now users title body data w :
  pebble (dispatch pc now users title body data w) = pebble w
  /\ exists d,
       dispatched (dispatch pc now users title body data w) = (dispatched w ++ [d])%list
       /\ callOf users title body data d.
Proof.
  unfold dispatch, SendToUsersWithData.
  match goal with
  | |- context [SendToUsers ?s ?t ?u ?n w] =>
      pose proof (SendToUsers_frame s t u n w) as (Hp & Hd & Hr);
      destruct (SendToUsers s t u n w) as [r w'] eqn:E
  end.
  cbn [fst snd] in *. cbn [pebble dispatched]. split; [exact Hp|].
  eexists. rewrite Hd. split; [reflexivity|]. unfold callOf. cbn.
  repeat (split; [reflexivity|]). exact Hr.
Qed.

(** [if len(users) > 0 { dispatch }] *)
Lemma guarded_dispatch_frame pc now users title body data w :
  let w' := match users with
            | [] => w
            | _ :: _ => dispatch pc now users title body data w
            end in
  pebble w' = pebble w
  /\ exists calls,
       dispatched w' = (dispatched w ++ calls)%list
       /\ (length calls <= 1)%nat
       /\ Forall (callOf users title body data) calls.
Proof.
  destruct users as [|u l]; cbn zeta.
  - split; [reflexivity|]. exists []. rewrite app_nil_r. auto.
  - destruct (dispatch_frame pc now (u :: l) title body data w) as (Hp & d & Hd & Hc).
    split; [exact Hp|]. exists [d]. split; [exact Hd|]. split; [cbn; lia|].
    constructor; [exact Hc|constructor].
Qed.

(** The asynchronous pin record that ends the processing. *)
Lemma record_frame now pin w :
  let w' := if negb (String.eqb pin "")
            then snd (liftPebble (pebble_service.AddNotifiedPin now pin) w)
            else w in
  dispatched w' = dispatched w
  /\ net w' = net w
  /\ pebble w' = (if negb (String.eqb pin "")
                  then snd (pebble_service.AddNotifiedPin now pin (pebble w))
                  else pebble w).
Proof.
  cbn zeta. destruct (negb (String.eqb pin "")); [|auto].
  unfold liftPebble.
  destruct (pebble_service.AddNotifiedPin now pin (pebble w)) as [r g]. cbn. auto.
Qed.

(** What processing one envelope does: nothing at all, or at most two
    dispatcher calls of the shapes above followed by the pin record. *)
Lemma processChatMessage_shape pc now chatMsg w :
  processChatMessage pc now chatMsg w = w
  \/ exists parsedInfo data calls,
       parseMessageInfo chatMsg = Ok parsedInfo
       /\ socket_client_service.Data chatMsg = Some data
       /\ passesDedup parsedInfo (pebble w) = true
       /\ dispatched (processChatMessage pc now chatMsg w) = (dispatched w ++ calls)%list
       /\ (length calls <= 2)%nat
       /\ Forall (fun d => resultsWithin (recipients d) (outcome d)
                           /\ (isMentionCall now chatMsg parsedInfo data d
                               \/ isPlainCall now (pebble w) chatMsg parsedInfo data d))
                 calls
       /\ pebble (processChatMessage pc now chatMsg w)
          = (if negb (String.eqb (PinId parsedInfo) "")
             then snd (pebble_service.AddNotifiedPin now (PinId parsedInfo) (pebble w))
             else pebble w).
Proof.
  unfold processChatMessage.
  destruct (parseMessageInfo chatMsg) as [parsedInfo|] eqn:Hparse; [|left; reflexivity].
  destruct (socket_client_service.Data chatMsg) as [data|] eqn:Hdata; [|left; reflexivity].
  destruct (passesDedup parsedInfo (pebble w)) eqn:Hdedup; cbn [negb]; [|left; reflexivity].
  destruct (RepostMetaIds data) as [|m0 l0] eqn:Hrep; [left; reflexivity|].
  right. exists parsedInfo, data. cbv zeta.
  set (normalUsers := normalUsersOf _ _).
  match goal with
  | |- context [match MentionMetaIds data with
                | [] => w
                | _ :: _ => dispatch pc now ?u ?t ?b ?d w
                end] =>
      pose proof (guarded_dispatch_frame pc now u t b d w) as (Hp1 & c1 & Hd1 & Hl1 & Hf1);
      cbv zeta in Hp1, Hd1;
      set (w1 := match MentionMetaIds data with
                 | [] => w
                 | _ :: _ => dispatch pc now u t b d w
                 end) in *
  end.
  match goal with
  | |- context [match normalUsers with
                | [] => w1
                | _ :: _ => dispatch pc now ?u ?t ?b ?d w1
                end] =>
      pose proof (guarded_dispatch_frame pc now u t b d w1) as (Hp2 & c2 & Hd2 & Hl2 & Hf2);
      cbv zeta in Hp2, Hd2;
      set (w2 := match normalUsers with
                 | [] => w1
                 | _ :: _ => dispatch pc now u t b d w1
                 end) in *
  end.
  pose proof (record_frame now (PinId parsedInfo) w2) as (Hd3 & _ & Hp3).
  cbv zeta in Hd3, Hp3.
  exists (c1 ++ c2)%list.
  split; [reflexivity|]. split; [reflexivity|]. split; [exact Hdedup|].
  split; [rewrite Hd3, Hd2, Hd1; now rewrite app_assoc|].
  split; [rewrite length_app; lia|].
  split; [|rewrite Hp3, Hp2, Hp1; reflexivity].
  apply Forall_app. split.
  - eapply Forall_impl; [exact Hf1|]. intros d (Hr & Ht & Hb & Hda & Hres).
    split; [rewrite Hr; exact Hres|]. left. unfold isMentionCall.
    repeat split; assumption.
  - eapply Forall_impl; [exact Hf2|]. intros d (Hr & Ht & Hb & Hda & Hres).
    split; [rewrite Hr; exact Hres|]. right. unfold isPlainCall. rewrite Hrep.
    repeat split; assumption.
Qed.

Lemma dispatchedBy_unchanged pc now chatMsg w :
  processChatMessage pc now chatMsg w = w -> dispatchedBy pc now chatMsg w = [].
Proof. intros H. unfold dispatchedBy. rewrite H. apply drop_all. Qed.

Lemma dispatchedBy_calls pc now chatMsg w calls :
  dispatched (processChatMessage pc now chatMsg w) = (dispatched w ++ calls)%list ->
  dispatchedBy pc now chatMsg w = calls.
Proof. intros H. unfold dispatchedBy. rewrite H. apply drop_app_length. Qed.

Lemma parseMessageInfo_ChatType chatMsg parsedInfo :
  parseMessageInfo chatMsg = Ok parsedInfo -> ChatType parsedInfo = Type_ chatMsg.
Proof.
  unfold parseMessageInfo.
  destruct (socket_client_service.Data chatMsg) as [data|]; [|discriminate].
  destruct (Message data); try discriminate;
    repeat match goal with
           | |- context [if ?c then _ else _] => destruct c
           end;
    intros [= <-]; reflexivity.
Qed.

(** *** PIN-level dedup *)

(** An envelope whose pin is on record is dropped whole. *)
Lemma processChatMessage_notified pc now chatMsg w :
  pinOf chatMsg <> "" ->
  pebble_service.IsNotifiedPin (pinOf chatMsg) (pebble w) = Ok true ->
  processChatMessage pc now chatMsg w = w.
Proof.
  unfold pinOf, processChatMessage. intros Hpin Hnotified.
  destruct (parseMessageInfo chatMsg) as [parsedInfo|]; [|reflexivity].
  destruct (socket_client_service.Data chatMsg) as [data|]; [|reflexivity].
  unfold passesDedup. rewrite (eqb_false _ _ Hpin), Hnotified. reflexivity.
Qed.

(** An envelope that got past the dedup gate and had recipients leaves its
    pin on record. *)
Lemma processChatMessage_records pc now chatMsg w :
  pinOf chatMsg <> "" ->
  processChatMessage pc now chatMsg w = w
  \/ (pebble_service.IsNotifiedPin (pinOf chatMsg)
        (pebble (processChatMessage pc now chatMsg w)) = Ok true
      /\ (length (dispatched (processChatMessage pc now chatMsg w))
          <= length (dispatched w) + 2)%nat).
Proof.
  intros Hpin.
  destruct (processChatMessage_shape pc now chatMsg w)
    as [Hsame|(parsedInfo & data & calls & Hparse & _ & Hdedup & Hcalls & Hlen & _ & Hpebble)];
    [left; exact Hsame|right].
  unfold pinOf in *. rewrite Hparse in *.
  split; [|rewrite Hcalls, length_app; lia].
  rewrite Hpebble. unfold passesDedup in Hdedup.
  rewrite (eqb_false _ _ Hpin) in *. cbn [negb] in *.
  unfold pebble_service.IsNotifiedPin, pebble_service.AddNotifiedPin in *.
  rewrite (eqb_false _ _ Hpin) in *.
  destruct (pebble w) as [service|]; [|discriminate].
  cbn. unfold PebbleService.IsNotifiedPin, PebbleService.AddNotifiedPin.
  rewrite (eqb_false _ _ Hpin). cbn. rewrite lookup_insert_eq. reflexivity.
Qed.

(** [handleChatMessage], and with it [processChatMessage], is the
    interleaving in which one envelope arrives at a quiet relay and its
    goroutines run with nothing in between. *)
Lemma run_toCompletion pc now chatMsg w :
  run pc now (toCompletion chatMsg) (quiet w) = quiet (handleChatMessage pc now chatMsg w).
Proof.
  unfold toCompletion, run, quiet, handleChatMessage, processChatMessage. cbn [replicate foldl handleEvent].
  destruct (socket_client_service.Data chatMsg) as [data|] eqn:Hdata; [|reflexivity].
  destruct (negb (isMessageTypeEnabled pc (Type_ chatMsg))); [reflexivity|].
  unfold stepAt at 5. cbn [goroutines world app lookup list_lookup stepTask].
  rewrite Hdata.
  destruct (parseMessageInfo chatMsg) as [parsedInfo|]; [|reflexivity].
  destruct (negb (passesDedup parsedInfo (pebble w))); [reflexivity|].
  destruct (RepostMetaIds data) as [|m0 l0] eqn:Hrep; [reflexivity|].
  rewrite <- Hrep.
  cbn. destruct (negb (String.eqb (PinId parsedInfo) "")); reflexivity.
Qed.

Lemma customData_pinId now chatMsg message parsedInfo isMention :
  customData now chatMsg message parsedInfo isMention !! "pinId"
  = Some (VString (PinId parsedInfo)).
Proof.
  unfold customData.
  repeat match goal with
         | |- context [if ?c then _ else _] => destruct c
         end;
    rewrite ?(lookup_insert_ne (M := gmap string)) by discriminate;
    apply lookup_insert_eq.
Qed.

Lemma guarded_dispatch_callsFor pc now users title body chatMsg message parsedInfo
    isMention w pin :
  let w' := match users with
            | [] => w
            | _ :: _ => dispatch pc now users title body
                          (customData now chatMsg message parsedInfo isMention) w
            end in
  pebble w' = pebble w
  /\ (length (callsFor pin w') <= length (callsFor pin w) + 1)%nat
  /\ (PinId parsedInfo <> pin -> callsFor pin w' = callsFor pin w).
Proof.
  destruct (guarded_dispatch_frame pc now users title body
              (customData now chatMsg message parsedInfo isMention) w)
    as (Hp & calls & Hd & Hlen & Hcalls).
  cbv zeta in *. split; [exact Hp|]. unfold callsFor. rewrite Hd, List.filter_app.
  split.
  - rewrite length_app.
    pose proof (List.filter_length_le (fun d => String.eqb (pinOfCall d) pin) calls). lia.
  - intros Hpin.
    replace (List.filter _ calls) with (@nil Dispatch); [now rewrite app_nil_r|].
    symmetry. clear Hd Hlen. induction Hcalls as [|d calls (_ & _ & _ & Hdata & _) _ IH];
      [reflexivity|].
    cbn [List.filter]. unfold pinOfCall at 1. rewrite Hdata, customData_pinId.
    rewrite (proj2 (String.eqb_neq _ _) Hpin). exact IH.
Qed.


(** The dedup check either ends the goroutine or lets the envelope through
    to the filter. *)
Lemma AtGate_next pc now chatMsg w :
  stepTask pc now (AtGate chatMsg) w = (w, [])
  \/ exists parsedInfo data,
       parseMessageInfo chatMsg = Ok parsedInfo
       /\ passesDedup parsedInfo (pebble w) = true
       /\ stepTask pc now (AtGate chatMsg) w = (w, [AtFilter chatMsg parsedInfo data]).
Proof.
  cbn [stepTask].
  destruct (parseMessageInfo chatMsg) as [parsedInfo|]; [|left; reflexivity].
  destruct (socket_client_service.Data chatMsg) as [data|]; [|left; reflexivity].
  destruct (passesDedup parsedInfo (pebble w)) eqn:Hdedup; cbn [negb];
    [|left; reflexivity].
  destruct (RepostMetaIds data); [left; reflexivity|].
  right. exists parsedInfo, data. split; [reflexivity|]. split; [exact Hdedup|reflexivity].
Qed.

Lemma AtRecord_frame now pinId w :
  dispatched (snd (liftPebble (pebble_service.AddNotifiedPin now pinId) w)) = dispatched w.
Proof.
  unfold liftPebble.
  destruct (pebble_service.AddNotifiedPin now pinId (pebble w)). reflexivity.
Qed.

Lemma callsLeft_eq pin t :
  pinOfTask t = pin ->
  callsLeft pin t = match t with
                    | AtGate _ | AtFilter _ _ _ | AtMentionCall _ _ _ _ => 2%nat
                    | AtPlainCall _ _ _ _ => 1%nat
                    | AtRecord _ => 0%nat
                    end.
Proof. intros <-. unfold callsLeft. now rewrite String.eqb_refl. Qed.

Lemma callsLeft_ne pin t : pinOfTask t <> pin -> callsLeft pin t = 0%nat.
Proof. intros H. unfold callsLeft. now rewrite (proj2 (String.eqb_neq _ _) H). Qed.

(** One step of one goroutine never raises the calls made for a pin plus
    the calls its goroutines may still make. *)
Lemma stepTask_calls pc now pin t w :
  (length (callsFor pin (fst (stepTask pc now t w)))
   + sum_list_with (callsLeft pin) (snd (stepTask pc now t w))
   <= length (callsFor pin w) + callsLeft pin t)%nat.
Proof.
  destruct t as [chatMsg|chatMsg parsedInfo data|chatMsg parsedInfo data filteredMetaIds
                 |chatMsg parsedInfo data filteredMetaIds|pinId].
  - destruct (AtGate_next pc now chatMsg w) as [->|(parsedInfo & data & Hparse & _ & ->)];
      cbn [fst snd sum_list_with]; [lia|].
    unfold callsLeft. cbn [pinOfTask]. unfold pinOf. rewrite Hparse. lia.
  - cbn [stepTask fst snd sum_list_with]. unfold callsLeft. cbn [pinOfTask]. lia.
  - cbn [stepTask fst snd sum_list_with].
    match goal with
    | |- context [match MentionMetaIds data with
                  | [] => w
                  | _ :: _ => dispatch pc now ?u ?ti ?b _ w
                  end] =>
        pose proof (guarded_dispatch_callsFor pc now u ti b chatMsg (Message data)
                      parsedInfo true w pin) as (_ & Hlen & Hsame)
    end.
    cbv zeta in Hlen, Hsame.
    destruct (String.eqb_spec (PinId parsedInfo) pin) as [Heq|Hne].
    + rewrite !callsLeft_eq by exact Heq. lia.
    + rewrite !callsLeft_ne by exact Hne. rewrite (Hsame Hne). lia.
  - cbn [stepTask fst snd].
    match goal with
    | |- context [match ?users with
                  | [] => w
                  | _ :: _ => dispatch pc now ?u ?ti ?b _ w
                  end] =>
        pose proof (guarded_dispatch_callsFor pc now u ti b chatMsg (Message data)
                      parsedInfo false w pin) as (_ & Hlen & Hsame)
    end.
    cbv zeta in Hlen, Hsame.
    assert (Hnext : sum_list_with (callsLeft pin)
                      (if negb (String.eqb (PinId parsedInfo) "")
                       then [AtRecord (PinId parsedInfo)] else []) = 0%nat).
    { destruct (negb _); [|reflexivity]. cbn. unfold callsLeft.
      destruct (String.eqb _ _); reflexivity. }
    rewrite Hnext.
    destruct (String.eqb_spec (PinId parsedInfo) pin) as [Heq|Hne].
    + rewrite callsLeft_eq by exact Heq. lia.
    + rewrite callsLeft_ne by exact Hne. rewrite (Hsame Hne). lia.
  - cbn [stepTask fst snd sum_list_with]. unfold callsFor. rewrite AtRecord_frame. lia.
Qed.

Lemma stepAt_calls pc now pin i r :
  (length (callsFor pin (world (stepAt pc now i r)))
   + sum_list_with (callsLeft pin) (goroutines (stepAt pc now i r))
   <= length (callsFor pin (world r)) + sum_list_with (callsLeft pin) (goroutines r))%nat.
Proof.
  unfold stepAt. destruct (goroutines r !! i) as [t|] eqn:Ht; [|lia].
  pose proof (stepTask_calls pc now pin t (world r)) as Hstep.
  destruct (stepTask pc now t (world r)) as [w next]. cbn [fst snd world goroutines] in *.
  rewrite <- (take_drop_middle _ _ _ Ht) at 3.
  rewrite !sum_list_with_app. cbn [sum_list_with]. lia.
Qed.

Lemma handleEvent_calls pc now pin e r :
  (length (callsFor pin (world (handleEvent pc now r e)))
   + sum_list_with (callsLeft pin) (goroutines (handleEvent pc now r e))
   <= length (callsFor pin (world r)) + sum_list_with (callsLeft pin) (goroutines r)
      + 2 * arrivals pin [e])%nat.
Proof.
  destruct e as [chatMsg|i]; cbn [handleEvent].
  - destruct (socket_client_service.Data chatMsg); [|lia].
    destruct (negb _); [lia|]. cbn [world goroutines].
    rewrite sum_list_with_app. cbn [sum_list_with]. unfold arrivals, callsLeft.
    cbn [List.filter pinOfTask]. destruct (String.eqb (pinOf chatMsg) pin); cbn [length]; lia.
  - pose proof (stepAt_calls pc now pin i r). lia.
Qed.

Lemma arrivals_cons pin e events :
  arrivals pin (e :: events) = (arrivals pin [e] + arrivals pin events)%nat.
Proof.
  unfold arrivals. cbn [List.filter].
  destruct e as [chatMsg|i]; [destruct (String.eqb _ _)|]; reflexivity.
Qed.

Lemma run_calls pc now pin events r :
  (length (callsFor pin (world (run pc now events r)))
   + sum_list_with (callsLeft pin) (goroutines (run pc now events r))
   <= length (callsFor pin (world r)) + sum_list_with (callsLeft pin) (goroutines r)
      + 2 * arrivals pin events)%nat.
Proof.
  revert r. induction events as [|e events IH]; intros r; [cbn; lia|].
  unfold run in *. cbn [foldl]. rewrite arrivals_cons.
  pose proof (IH (handleEvent pc now r e)).
  pose proof (handleEvent_calls pc now pin e r). lia.
Qed.

(** Recording a pin leaves every pin on record. *)
Lemma AddNotifiedPin_keeps now pinId pin g :
  pebble_service.IsNotifiedPin pin g = Ok true ->
  pebble_service.IsNotifiedPin pin (snd (pebble_service.AddNotifiedPin now pinId g)) = Ok true.
Proof.
  unfold pebble_service.IsNotifiedPin, pebble_service.AddNotifiedPin.
  destruct (String.eqb pin "") eqn:Hpin; [discriminate|].
  destruct (String.eqb pinId "") eqn:HpinId; [cbn; auto|].
  destruct g as [service|]; [|discriminate]. cbn.
  unfold PebbleService.IsNotifiedPin, PebbleService.AddNotifiedPin.
  rewrite Hpin, HpinId. cbn.
  destruct (decide (pinId = pin)) as [->|Hne].
  - rewrite lookup_insert_eq. reflexivity.
  - rewrite lookup_insert_ne by exact Hne. auto.
Qed.

(** With the pin on record, a step of a goroutine that holds no envelope
    of that pin past the dedup check keeps the pin on record, makes no call
    for it and starts no such goroutine. *)
Lemma stepTask_on_record pc now pin t w :
  pin <> "" -> onRecord pin w -> settled pin t ->
  onRecord pin (fst (stepTask pc now t w))
  /\ callsFor pin (fst (stepTask pc now t w)) = callsFor pin w
  /\ Forall (settled pin) (snd (stepTask pc now t w)).
Proof.
  unfold onRecord, settled. intros Hpin Hrec Hsettled.
  destruct t as [chatMsg|chatMsg parsedInfo data|chatMsg parsedInfo data filteredMetaIds
                 |chatMsg parsedInfo data filteredMetaIds|pinId].
  - destruct (AtGate_next pc now chatMsg w)
      as [->|(parsedInfo & data & Hparse & Hdedup & ->)]; cbn [fst snd];
      [repeat split; [assumption|constructor]|].
    repeat split; [assumption|]. constructor; [|constructor].
    cbn [pinOfTask]. intros _ Heq. unfold passesDedup in Hdedup.
    rewrite Heq, (proj2 (String.eqb_neq _ _) Hpin), Hrec in Hdedup. discriminate.
  - cbn [stepTask fst snd]. repeat split; [assumption|]. constructor; [|constructor].
    exact Hsettled.
  - cbn [stepTask fst snd].
    match goal with
    | |- context [match MentionMetaIds data with
                  | [] => w
                  | _ :: _ => dispatch pc now ?u ?ti ?b _ w
                  end] =>
        pose proof (guarded_dispatch_callsFor pc now u ti b chatMsg (Message data)
                      parsedInfo true w pin) as (Hp & _ & Hsame)
    end.
    cbv zeta in Hp, Hsame. rewrite Hp. split; [assumption|].
    split; [exact (Hsame (Hsettled eq_refl))|]. constructor; [|constructor].
    exact Hsettled.
  - cbn [stepTask fst snd].
    match goal with
    | |- context [match ?users with
                  | [] => w
                  | _ :: _ => dispatch pc now ?u ?ti ?b _ w
                  end] =>
        pose proof (guarded_dispatch_callsFor pc now u ti b chatMsg (Message data)
                      parsedInfo false w pin) as (Hp & _ & Hsame)
    end.
    cbv zeta in Hp, Hsame. rewrite Hp. split; [assumption|].
    split; [exact (Hsame (Hsettled eq_refl))|].
    destruct (negb _); constructor; [discriminate|constructor].
  - cbn [stepTask fst snd]. unfold callsFor. rewrite AtRecord_frame.
    split; [|split; [reflexivity|constructor]].
    unfold liftPebble.
    pose proof (AddNotifiedPin_keeps now pinId pin (pebble w) Hrec) as Hkeep.
    destruct (pebble_service.AddNotifiedPin now pinId (pebble w)). exact Hkeep.
Qed.

Lemma handleEvent_on_record pc now pin e r :
  pin <> "" -> onRecord pin (world r) -> Forall (settled pin) (goroutines r) ->
  onRecord pin (world (handleEvent pc now r e))
  /\ callsFor pin (world (handleEvent pc now r e)) = callsFor pin (world r)
  /\ Forall (settled pin) (goroutines (handleEvent pc now r e)).
Proof.
  intros Hpin Hrec Hall. destruct e as [chatMsg|i]; cbn [handleEvent].
  - destruct (socket_client_service.Data chatMsg); [|auto].
    destruct (negb _); [auto|]. cbn [world goroutines].
    repeat split; [assumption|]. apply Forall_app. split; [assumption|].
    constructor; [discriminate|constructor].
  - unfold stepAt. destruct (goroutines r !! i) as [t|] eqn:Ht; [|auto].
    pose proof (stepTask_on_record pc now pin t (world r) Hpin Hrec
                  (proj1 (Forall_lookup _ _) Hall i t Ht)) as (Hrec' & Hcalls & Hnext).
    destruct (stepTask pc now t (world r)) as [w next]. cbn [fst snd world goroutines] in *.
    repeat split; [assumption..|].
    apply Forall_app. split; [apply Forall_take; assumption|].
    apply Forall_app. split; [assumption|apply Forall_drop; assumption].
Qed.

Lemma run_on_record pc now pin events r :
  pin <> "" -> onRecord pin (world r) -> Forall (settled pin) (goroutines r) ->
  onRecord pin (world (run pc now events r))
  /\ callsFor pin (world (run pc now events r)) = callsFor pin (world r)
  /\ Forall (settled pin) (goroutines (run pc now events r)).
Proof.
  intros Hpin. revert r. induction events as [|e events IH]; intros r Hrec Hall; [auto|].
  unfold run in *. cbn [foldl].
  destruct (handleEvent_on_record pc now pin e r Hpin Hrec Hall) as (Hrec' & Hcalls & Hall').
  destruct (IH _ Hrec' Hall') as (Hrec'' & Hcalls' & Hall'').
  repeat split; [assumption| |assumption]. rewrite Hcalls'. exact Hcalls.
Qed.

Lemma AtGate_on_record pc now pin chatMsg w :
  pin <> "" -> onRecord pin w -> pinOf chatMsg = pin ->
  stepTask pc now (AtGate chatMsg) w = (w, []).
Proof.
  unfold onRecord. intros Hpin Hrec Hof.
  destruct (AtGate_next pc now chatMsg w)
    as [H|(parsedInfo & data & Hparse & Hdedup & _)]; [exact H|].
  unfold pinOf in Hof. rewrite Hparse in Hof. unfold passesDedup in Hdedup.
  rewrite Hof, (proj2 (String.eqb_neq _ _) Hpin), Hrec in Hdedup. discriminate.
Qed.

(** C1, as the code has it, for every interleaving of the goroutines of the
    relay and every non-empty pin.  An envelope makes at most two
    dispatcher calls: the calls made for the pin grow by at most what the
    goroutines in flight can still make plus two for each envelope of the
    pin that arrives.  Once the pin is on record and no envelope of the
    pin is between its dedup check and its record, this stays so: the pin
    stays on record, no further dispatcher call is made for it, and every
    envelope of the pin that comes to the dedup check is dropped there. *)
Theorem pin_dedup_in_every_interleaving (pc : PushCenter) (now : Z) (pin : string)
    (events : list Event) (r : Relay) :
  pin <> "" ->
  (length (callsFor pin (world (run pc now events r)))
   <= length (callsFor pin (world r)) + sum_list_with (callsLeft pin) (goroutines r)
      + 2 * arrivals pin events)%nat
  /\ (onRecord pin (world r) -> Forall (settled pin) (goroutines r) ->
      onRecord pin (world (run pc now events r))
      /\ Forall (settled pin) (goroutines (run pc now events r))
      /\ callsFor pin (world (run pc now events r)) = callsFor pin (world r)
      /\ forall chatMsg,
           pinOf chatMsg = pin ->
           stepTask pc now (AtGate chatMsg) (world (run pc now events r))
           = (world (run pc now events r), [])).
Proof.
  intros Hpin. split.
  - pose proof (run_calls pc now pin events r). lia.
  - intros Hrec Hall.
    destruct (run_on_record pc now pin events r Hpin Hrec Hall) as (Hrec' & Hcalls & Hall').
    repeat split; [assumption..|].
    intros chatMsg Hof. exact (AtGate_on_record pc now pin chatMsg _ Hpin Hrec' Hof).
Qed.

(** *** Mute filter *)

Lemma IsUserBlockedChat_now now now' user chat g :
  pebble_service.IsUserBlockedChat now user chat g
  = pebble_service.IsUserBlockedChat now' user chat g.
Proof.
  unfold pebble_service.IsUserBlockedChat, pebble_service.withService.
  destruct (String.eqb user ""), (String.eqb chat ""), g as [service|]; try reflexivity.
  unfold PebbleService.IsBlockedChat, PebbleService.getUserBlockedChatsFromDB.
  destruct (String.eqb user "" || String.eqb chat ""); [reflexivity|].
  destruct (PebbleService.blocked_chats service !! user); reflexivity.
Qed.

(** A recipient who muted the chat of the envelope is not kept. *)
Lemma keepRecipient_muted now now' g parsedInfo user :
  pebble_service.IsUserBlockedChat now' user (chatIDOf parsedInfo) g = Ok true ->
  keepRecipient now g parsedInfo user = false.
Proof.
  intros Hblocked. unfold keepRecipient.
  destruct (String.eqb (ChatType parsedInfo) "private_chat"
            && String.eqb user (chatIDOf parsedInfo)); [reflexivity|].
  destruct (String.eqb (chatIDOf parsedInfo) "") eqn:Hempty.
  - apply String.eqb_eq in Hempty. rewrite Hempty in Hblocked.
    unfold pebble_service.IsUserBlockedChat in Hblocked. cbn in Hblocked.
    destruct (String.eqb user ""); discriminate.
  - rewrite (IsUserBlockedChat_now now now'), Hblocked. reflexivity.
Qed.

Lemma normalUsersOf_filtered user filtered mentions :
  user ∈ normalUsersOf filtered mentions -> user ∈ filtered.
Proof.
  unfold normalUsersOf. rewrite !list_elem_of_In, filter_In. tauto.
Qed.

(** C2: when [user] has muted the chat an envelope belongs to and is not
    among its mention ids, no [PushResult] of any dispatcher call made for
    that envelope is for [user]. *)
Theorem muted_recipient_gets_no_push (pc : PushCenter) (now now' : Z)
    (chatMsg : ChatNotificationMessage) (w : World)
    (parsedInfo : ParsedMessageInfo) (data : ExtraServiceMessage)
    (user : string) (d : Dispatch) (b : BatchPushResult) (r : PushResult) :
  parseMessageInfo chatMsg = Ok parsedInfo ->
  socket_client_service.Data chatMsg = Some data ->
  pebble_service.IsUserBlockedChat now' user (chatIDOf parsedInfo) (pebble w) = Ok true ->
  user ∉ MentionMetaIds data ->
  d ∈ dispatchedBy pc now chatMsg w ->
  outcome d = Ok b ->
  r ∈ Results b ->
  MetaID r <> user.
Proof.
  intros Hparse Hdata Hblocked Hnotmentioned Hd Hout Hr Huser.
  destruct (processChatMessage_shape pc now chatMsg w)
    as [Hsame|(parsedInfo' & data' & calls & Hparse' & Hdata' & _ & Hcalls & _ & Hall & _)].
  - rewrite (dispatchedBy_unchanged _ _ _ _ Hsame) in Hd. inversion Hd.
  - rewrite Hparse in Hparse'. injection Hparse' as <-.
    rewrite Hdata in Hdata'. injection Hdata' as <-.
    rewrite (dispatchedBy_calls _ _ _ _ _ Hcalls) in Hd.
    rewrite Forall_forall in Hall. destruct (Hall d Hd) as [Hwithin Hkind].
    pose proof (Hwithin b r Hout Hr) as Hin. rewrite Huser in Hin.
    destruct Hkind as [(Hrec & _)|(Hrec & _)]; rewrite Hrec in Hin.
    + exact (Hnotmentioned Hin).
    + apply normalUsersOf_filtered in Hin.
      unfold filterBlockedUsers in Hin. rewrite list_elem_of_In, filter_In in Hin.
      destruct Hin as [_ Hkeep].
      rewrite (keepRecipient_muted now now' _ _ _ Hblocked) in Hkeep. discriminate.
Qed.

(** *** Self-suppression *)

Lemma keepRecipient_self now g parsedInfo :
  ChatType parsedInfo = "private_chat" ->
  keepRecipient now g parsedInfo (MetaId parsedInfo) = false.
Proof.
  intros Hprivate. unfold keepRecipient, chatIDOf. rewrite Hprivate. cbn.
  rewrite String.eqb_refl. reflexivity.
Qed.

Lemma customData_isMention now chatMsg message parsedInfo :
  customData now chatMsg message parsedInfo true !! "isMention" = Some (VBool true).
Proof.
  unfold customData.
  repeat match goal with
         | |- context [if ?c then _ else _] => destruct c
         end;
    rewrite ?(lookup_insert_ne (M := gmap string)) by discriminate;
    apply lookup_insert_eq.
Qed.

(** The recipient sets of the calls of one envelope, exactly. *)
Lemma guarded_dispatch_recipients pc now users title body data w :
  let w' := match users with
            | [] => w
            | _ :: _ => dispatch pc now users title body data w
            end in
  exists calls,
    dispatched w' = (dispatched w ++ calls)%list
    /\ recipients <$> calls = callIfAny users.
Proof.
  destruct users as [|u l]; cbn zeta.
  - exists []. rewrite app_nil_r. auto.
  - destruct (dispatch_frame pc now (u :: l) title body data w) as (_ & d & Hd & Hc & _).
    exists [d]. split; [exact Hd|]. cbn. rewrite Hc. reflexivity.
Qed.

Lemma dispatchedBy_recipients pc now chatMsg w parsedInfo data :
  parseMessageInfo chatMsg = Ok parsedInfo ->
  socket_client_service.Data chatMsg = Some data ->
  recipients <$> dispatchedBy pc now chatMsg w
  = recipientSets now (pebble w) parsedInfo data.
Proof.
  intros Hparse Hdata. unfold dispatchedBy, recipientSets, processChatMessage.
  rewrite Hparse, Hdata.
  destruct (passesDedup parsedInfo (pebble w)); cbn [negb];
    [|rewrite drop_all; reflexivity].
  destruct (RepostMetaIds data) as [|m0 l0] eqn:Hrep; [rewrite drop_all; reflexivity|].
  cbv zeta. set (normalUsers := normalUsersOf _ _).
  match goal with
  | |- context [match MentionMetaIds data with
                | [] => w
                | _ :: _ => dispatch pc now ?u ?t ?b ?d w
                end] =>
      pose proof (guarded_dispatch_recipients pc now u t b d w) as (c1 & Hd1 & Hr1);
      cbv zeta in Hd1;
      set (w1 := match MentionMetaIds data with
                 | [] => w
                 | _ :: _ => dispatch pc now u t b d w
                 end) in *
  end.
  match goal with
  | |- context [match normalUsers with
                | [] => w1
                | _ :: _ => dispatch pc now ?u ?t ?b ?d w1
                end] =>
      pose proof (guarded_dispatch_recipients pc now u t b d w1) as (c2 & Hd2 & Hr2);
      cbv zeta in Hd2;
      set (w2 := match normalUsers with
                 | [] => w1
                 | _ :: _ => dispatch pc now u t b d w1
                 end) in *
  end.
  pose proof (record_frame now (PinId parsedInfo) w2) as (Hd3 & _).
  cbv zeta in Hd3.
  rewrite Hd3, Hd2, Hd1, <- app_assoc, drop_app_length, fmap_app, Hr1, Hr2.
  reflexivity.
Qed.

(** C3, as the code has it: for a private_chat envelope the plain call
    never lists the envelope's own [private_meta_id]; a dispatcher call
    that lists it is the mention call, whose recipients are the envelope's
    mention ids as they came.  The calls are made as [recipientSets] has
    them, the mention call first and with the mention ids untouched, so
    that [private_meta_id] is handed to the dispatcher exactly when the
    envelope gets past the dedup gate, lists a recipient and names
    [private_meta_id] among its mentions. *)
Theorem self_only_in_mention_call (pc : PushCenter) (now : Z)
    (chatMsg : ChatNotificationMessage) (w : World)
    (parsedInfo : ParsedMessageInfo) (data : ExtraServiceMessage) :
  Type_ chatMsg = "private_chat" ->
  parseMessageInfo chatMsg = Ok parsedInfo ->
  socket_client_service.Data chatMsg = Some data ->
  (MetaId parsedInfo
     ∉ normalUsersOf (filterBlockedUsers now (pebble w) (RepostMetaIds data) parsedInfo)
                     (MentionMetaIds data))
  /\ (forall d, d ∈ dispatchedBy pc now chatMsg w ->
                MetaId parsedInfo ∈ recipients d ->
                recipients d = MentionMetaIds data
                /\ push_service.Data (notification d) !! "isMention" = Some (VBool true))
  /\ recipients <$> dispatchedBy pc now chatMsg w
     = recipientSets now (pebble w) parsedInfo data
  /\ ((exists d, d ∈ dispatchedBy pc now chatMsg w /\ MetaId parsedInfo ∈ recipients d)
      <-> (passesDedup parsedInfo (pebble w) = true
           /\ RepostMetaIds data <> []
           /\ MetaId parsedInfo ∈ MentionMetaIds data)).
Proof.
  intros Hprivate Hparse Hdata.
  assert (Hself : forall g,
            MetaId parsedInfo
              ∉ normalUsersOf (filterBlockedUsers now g (RepostMetaIds data) parsedInfo)
                              (MentionMetaIds data)).
  { intros g Hin. apply normalUsersOf_filtered in Hin.
    unfold filterBlockedUsers in Hin. rewrite list_elem_of_In, filter_In in Hin.
    destruct Hin as [_ Hkeep]. rewrite keepRecipient_self in Hkeep; [discriminate|].
    rewrite (parseMessageInfo_ChatType _ _ Hparse). exact Hprivate. }
  pose proof (dispatchedBy_recipients pc now chatMsg w parsedInfo data Hparse Hdata)
    as Hsets.
  split; [apply Hself|]. split; [|split; [exact Hsets|]].
  - intros d Hd Hin.
    destruct (processChatMessage_shape pc now chatMsg w)
      as [Hsame|(parsedInfo' & data' & calls & Hparse' & Hdata' & _ & Hcalls & _ & Hall & _)].
    + rewrite (dispatchedBy_unchanged _ _ _ _ Hsame) in Hd. inversion Hd.
    + rewrite Hparse in Hparse'. injection Hparse' as <-.
      rewrite Hdata in Hdata'. injection Hdata' as <-.
      rewrite (dispatchedBy_calls _ _ _ _ _ Hcalls) in Hd.
      rewrite Forall_forall in Hall. destruct (Hall d Hd) as [_ Hkind].
      destruct Hkind as [(Hrec & _ & _ & Hcustom)|(Hrec & _)].
      * split; [exact Hrec|]. rewrite Hcustom. apply customData_isMention.
      * rewrite Hrec in Hin. destruct (Hself _ Hin).
  - unfold recipientSets in Hsets. split.
    + intros (d & Hd & Hin).
      apply (list_elem_of_fmap_2 recipients) in Hd. rewrite Hsets in Hd.
      destruct (passesDedup parsedInfo (pebble w)); [|inversion Hd].
      split; [reflexivity|].
      destruct (RepostMetaIds data) as [|m0 l0] eqn:Hrep; [inversion Hd|].
      split; [discriminate|].
      apply elem_of_app in Hd. destruct Hd as [Hd|Hd].
      * destruct (MentionMetaIds data) as [|m1 l1]; [inversion Hd|].
        apply list_elem_of_singleton in Hd. rewrite Hd in Hin. exact Hin.
      * pose proof (Hself (pebble w)) as Hplain.
        set (normalUsers := normalUsersOf _ _) in *.
        destruct normalUsers as [|n1 l1]; [inversion Hd|].
        apply list_elem_of_singleton in Hd. rewrite Hd in Hin.
        destruct (Hplain Hin).
    + intros (Hdedup & Hrep & Hin). rewrite Hdedup in Hsets.
      destruct (RepostMetaIds data) as [|m0 l0]; [congruence|].
      destruct (MentionMetaIds data) as [|m1 l1] eqn:Hmention; [inversion Hin|].
      destruct (dispatchedBy pc now chatMsg w) as [|d rest]; [discriminate|].
      cbn in Hsets. injection Hsets as Hrec _.
      exists d. split; [left|]. rewrite Hrec. exact Hin.
Qed.

(** *** Candy Bag bodies and private chats *)

Lemma lastByte_app (a b : string) : b <> "" -> lastByte (a +:+ b) = lastByte b.
Proof.
  intros Hb. induction a as [|c a IH]; [reflexivity|].
  change (String c a +:+ b) with (String c (a +:+ b)).
  change (lastByte (String c (a +:+ b)))
    with (match a +:+ b with
          | EmptyString => Some c
          | String _ _ => lastByte (a +:+ b)
          end).
  destruct (a +:+ b) eqn:E; [|exact IH].
  destruct a; cbn in E; [contradiction|discriminate].
Qed.

Lemma parseMessageInfo_private chatMsg parsedInfo :
  Type_ chatMsg = "private_chat" ->
  parseMessageInfo chatMsg = Ok parsedInfo ->
  ChatInfoType parsedInfo = 0.
Proof.
  intros Hprivate. unfold parseMessageInfo. rewrite Hprivate.
  destruct (socket_client_service.Data chatMsg) as [data|]; [|discriminate].
  destruct (Message data); try discriminate; cbn; intros [= <-]; reflexivity.
Qed.

Lemma private_body_lastByte userName isMention groupId :
  lastByte (GenerateNotificationBody "private_chat" userName 0 isMention groupId)
  <> Some "g"%char.
Proof.
  unfold GenerateNotificationBody. cbn [isCandyBag Z.eqb orb].
  destruct isMention.
  - rewrite lastByte_app by discriminate. discriminate.
  - cbn. destruct (negb (String.eqb userName "")).
    + rewrite lastByte_app by discriminate. discriminate.
    + discriminate.
Qed.

(** C10: for a private_chat envelope the parsed [chat_info_type] is 0
    whatever the message carries, and no notification composed for it has
    a Candy Bag body, plain or mention. *)
Theorem private_chat_never_candy_bag (pc : PushCenter) (now : Z)
    (chatMsg : ChatNotificationMessage) (w : World) :
  Type_ chatMsg = "private_chat" ->
  (forall parsedInfo, parseMessageInfo chatMsg = Ok parsedInfo ->
                      ChatInfoType parsedInfo = 0)
  /\ (forall d name,
        d ∈ dispatchedBy pc now chatMsg w ->
        Body (notification d) <> name +:+ " sent you a Candy Bag"
        /\ Body (notification d) <> name +:+ " mentioned you with a Candy Bag").
Proof.
  intros Hprivate. split; [intros parsedInfo; apply parseMessageInfo_private, Hprivate|].
  intros d name Hd.
  destruct (processChatMessage_shape pc now chatMsg w)
    as [Hsame|(parsedInfo & data & calls & Hparse & _ & _ & Hcalls & _ & Hall & _)].
  - rewrite (dispatchedBy_unchanged _ _ _ _ Hsame) in Hd. inversion Hd.
  - rewrite (dispatchedBy_calls _ _ _ _ _ Hcalls) in Hd.
    rewrite Forall_forall in Hall. destruct (Hall d Hd) as [_ Hkind].
    pose proof (parseMessageInfo_private _ _ Hprivate Hparse) as Hzero.
    assert (Hlast : lastByte (Body (notification d)) <> Some "g"%char).
    { destruct Hkind as [(_ & _ & -> & _)|(_ & _ & -> & _)];
        rewrite Hprivate, Hzero; apply private_body_lastByte. }
    split; intros Heq; apply Hlast; rewrite Heq, lastByte_app by discriminate;
      reflexivity.
Qed.

End Relay.

(** ** The properties on a concrete deployment *)

(** C1, the claim fails as worded.  The one envelope of scenario S4, pin
    [P2], processed on its own at a quiet relay, invokes the dispatcher
    twice; delivered twice, with the second copy checked at the dedup gate
    before the pin of the first is on record, it invokes the dispatcher
    four times for the one pin. *)
Lemma pin_dedup_more_than_one_call :
  pinOf envelopeS4 = "P2"
  /\ pushcenter.run exampleCenter 7 (toCompletion envelopeS4) (quiet exampleWorld)
     = quiet (pushcenter.handleChatMessage exampleCenter 7 envelopeS4 exampleWorld)
  /\ length (callsFor "P2"
               (pushcenter.world
                  (pushcenter.run exampleCenter 7 (toCompletion envelopeS4)
                     (quiet exampleWorld)))) = 2%nat
  /\ pushcenter.goroutines (pushcenter.run exampleCenter 7 raceS4 (quiet exampleWorld)) = []
  /\ length (callsFor "P2"
               (pushcenter.world
                  (pushcenter.run exampleCenter 7 raceS4 (quiet exampleWorld)))) = 4%nat.
Proof. repeat split; vm_compute; reflexivity. Qed.

Lemma pin_dedup_in_every_interleaving_witness :
  onRecord "P2" (pushcenter.world afterS4)
  /\ Forall (settled "P2") (pushcenter.goroutines afterS4)
  /\ (length (callsFor "P2" (pushcenter.world (pushcenter.run exampleCenter 7 raceS4 afterS4)))
      <= length (callsFor "P2" (pushcenter.world afterS4))
         + sum_list_with (callsLeft "P2") (pushcenter.goroutines afterS4)
         + 2 * arrivals "P2" raceS4)%nat
  /\ (onRecord "P2" (pushcenter.world afterS4) ->
      Forall (settled "P2") (pushcenter.goroutines afterS4) ->
      onRecord "P2" (pushcenter.world (pushcenter.run exampleCenter 7 raceS4 afterS4))
      /\ Forall (settled "P2")
            (pushcenter.goroutines (pushcenter.run exampleCenter 7 raceS4 afterS4))
      /\ callsFor "P2" (pushcenter.world (pushcenter.run exampleCenter 7 raceS4 afterS4))
         = callsFor "P2" (pushcenter.world afterS4)
      /\ forall chatMsg,
           pinOf chatMsg = "P2" ->
           pushcenter.stepTask exampleCenter 7 (pushcenter.AtGate chatMsg)
             (pushcenter.world (pushcenter.run exampleCenter 7 raceS4 afterS4))
           = (pushcenter.world (pushcenter.run exampleCenter 7 raceS4 afterS4), [])).
Proof.
  split; [vm_compute; reflexivity|]. split.
  - replace (pushcenter.goroutines afterS4) with (@nil pushcenter.Task)
      by (vm_compute; reflexivity).
    constructor.
  - apply (pin_dedup_in_every_interleaving exampleCenter 7 "P2" raceS4 afterS4).
    discriminate.
Defined.

Lemma muted_recipient_gets_no_push_witness :
  exists d b r,
    dispatchedBy exampleCenter 7 envelopeMuted exampleWorld = [d]
    /\ push_service.outcome d = Ok b
    /\ push_service.Results b = [r]
    /\ push_service.MetaID r <> "u3".
Proof.
  assert (exists d b r,
            dispatchedBy exampleCenter 7 envelopeMuted exampleWorld = [d]
            /\ push_service.outcome d = Ok b
            /\ push_service.Results b = [r]) as (d & b & r & Hd & Hb & Hr).
  { vm_compute. eexists _, _, _. repeat split. }
  exists d, b, r. split; [exact Hd|]. split; [exact Hb|]. split; [exact Hr|].
  eapply (muted_recipient_gets_no_push exampleCenter 7 7 envelopeMuted exampleWorld
            _ _ "u3" d b r).
  - vm_compute. reflexivity.
  - reflexivity.
  - vm_compute. reflexivity.
  - cbn. apply not_elem_of_nil.
  - rewrite Hd. left.
  - exact Hb.
  - rewrite Hr. left.
Defined.

(** The exception is real: in scenario S4 the muted user u3 is mentioned
    and does get a push, through the mention call. *)
Lemma muted_mentioned_recipient_is_pushed :
  pebble_service.IsUserBlockedChat 7 "u3" "g1" (push_service.pebble exampleWorld) = Ok true
  /\ (fun d => (push_service.recipients d,
                match push_service.outcome d with
                | Ok b => push_service.MetaID <$> push_service.Results b
                | Err _ => []
                end))
       <$> dispatchedBy exampleCenter 7 envelopeS4 exampleWorld
     = [(["u3"], ["u3"]); (["u4"], ["u4"])].
Proof. split; vm_compute; reflexivity. Qed.

(** C3, the claim fails for the mention call: the private chat's own
    [private_meta_id], u1, is handed to the dispatcher there. *)
Lemma self_listed_in_mention_call :
  socket_client_service.Type_ envelopeSelfMention = "private_chat"
  /\ (exists parsedInfo,
        pushcenter.parseMessageInfo envelopeSelfMention = Ok parsedInfo
        /\ pushcenter.MetaId parsedInfo = "u1")
  /\ push_service.recipients <$> dispatchedBy exampleCenter 7 envelopeSelfMention exampleWorld
     = [["u1"]; ["u2"]].
Proof.
  split; [reflexivity|]. split; [eexists; split; reflexivity|].
  vm_compute. reflexivity.
Qed.

Lemma self_only_in_mention_call_witness :
  exists parsedInfo data,
    pushcenter.parseMessageInfo envelopeSelfMention = Ok parsedInfo
    /\ socket_client_service.Data envelopeSelfMention = Some data
    /\ (pushcenter.MetaId parsedInfo
          ∉ pushcenter.normalUsersOf
              (pushcenter.filterBlockedUsers 7 (push_service.pebble exampleWorld)
                 (socket_client_service.RepostMetaIds data) parsedInfo)
              (socket_client_service.MentionMetaIds data))
    /\ (forall d, d ∈ dispatchedBy exampleCenter 7 envelopeSelfMention exampleWorld ->
                  pushcenter.MetaId parsedInfo ∈ push_service.recipients d ->
                  push_service.recipients d = socket_client_service.MentionMetaIds data
                  /\ push_service.Data (push_service.notification d) !! "isMention"
                     = Some (VBool true))
    /\ push_service.recipients <$> dispatchedBy exampleCenter 7 envelopeSelfMention exampleWorld
       = recipientSets 7 (push_service.pebble exampleWorld) parsedInfo data
    /\ ((exists d, d ∈ dispatchedBy exampleCenter 7 envelopeSelfMention exampleWorld
                   /\ pushcenter.MetaId parsedInfo ∈ push_service.recipients d)
        <-> (pushcenter.passesDedup parsedInfo (push_service.pebble exampleWorld) = true
             /\ socket_client_service.RepostMetaIds data <> []
             /\ pushcenter.MetaId parsedInfo ∈ socket_client_service.MentionMetaIds data)).
Proof.
  eexists _, _. split; [reflexivity|]. split; [reflexivity|].
  apply (self_only_in_mention_call exampleCenter 7 envelopeSelfMention exampleWorld);
    reflexivity.
Defined.

Lemma private_chat_never_candy_bag_witness :
  (forall parsedInfo,
     pushcenter.parseMessageInfo envelopeSelfMention = Ok parsedInfo ->
     pushcenter.ChatInfoType parsedInfo = 0)
  /\ (forall d name,
        d ∈ dispatchedBy exampleCenter 7 envelopeSelfMention exampleWorld ->
        push_service.Body (push_service.notification d) <> name +:+ " sent you a Candy Bag"
        /\ push_service.Body (push_service.notification d)
           <> name +:+ " mentioned you with a Candy Bag").
Proof.
  apply (private_chat_never_candy_bag exampleCenter 7 envelopeSelfMention exampleWorld).
  reflexivity.
Defined.

(** The bodies composed for that envelope, a Candy Bag by its [chatType]. *)
Lemma private_chat_candy_bag_bodies :
  push_service.Body <$> (push_service.notification
                           <$> dispatchedBy exampleCenter 7 envelopeSelfMention exampleWorld)
  = ["Alice mentioned you"; "Alice sent you a message"].
Proof. vm_compute. reflexivity. Qed.



(** * Further properties of the store *)

Section StoreTokens.
Import models PebbleService.

Lemma GetUserTokens_tokensOf now metaId ps ut :
  GetUserTokens now metaId ps = Ok ut -> Tokens ut = tokensOf metaId ps.
Proof.
  unfold GetUserTokens, tokensOf. destruct (String.eqb metaId ""); [discriminate|].
  destruct (user_tokens ps !! metaId); intros [= <-]; reflexivity.
Qed.

Lemma GetUserTokens_ok now metaId ps :
  metaId <> "" ->
  exists ut, GetUserTokens now metaId ps = Ok ut /\ Tokens ut = tokensOf metaId ps.
Proof.
  intros Hne. unfold GetUserTokens, tokensOf. rewrite (eqb_false _ _ Hne).
  destruct (user_tokens ps !! metaId); eexists; split; reflexivity.
Qed.

(** What the scrub of the prior owner changes: at most the record of
    [old], and only by dropping a [platform] entry equal to [token]. *)
Lemma scrubOldOwner_effect now old platform token ps :
  wf ps ->
  devices (scrubOldOwner now old platform token ps) = devices ps
  /\ blocked_chats (scrubOldOwner now old platform token ps) = blocked_chats ps
  /\ notified_pins (scrubOldOwner now old platform token ps) = notified_pins ps
  /\ (forall k, k <> old ->
        user_tokens (scrubOldOwner now old platform token ps) !! k = user_tokens ps !! k)
  /\ tokensOf old (scrubOldOwner now old platform token ps)
     = (if decide (old <> "" /\ tokensOf old ps !! platform = Some token)
        then delete platform (tokensOf old ps) else tokensOf old ps).
Proof.
  intros [Hu _]. unfold scrubOldOwner, GetUserTokens, tokensOf.
  destruct (String.eqb old "") eqn:Hold.
  - apply String.eqb_eq in Hold. subst old.
    repeat (split; [reflexivity|]). rewrite decide_False by tauto. reflexivity.
  - apply String.eqb_neq in Hold.
    destruct (user_tokens ps !! old) as [v|] eqn:Hv; cbn [Tokens].
    + pose proof (Hu _ _ Hv) as Hid. cbn in Hid.
      destruct (Tokens v !! platform) as [oldToken|] eqn:Hp.
      * destruct (String.eqb oldToken token) eqn:Heq.
        -- apply String.eqb_eq in Heq. subst oldToken.
           unfold SaveUserTokens. cbn [MetaID Tokens]. rewrite Hid, (eqb_false _ _ Hold).
           cbn. repeat (split; [reflexivity|]). split.
           ++ intros k Hk. apply lookup_insert_ne. congruence.
           ++ rewrite lookup_insert_eq. cbn. rewrite decide_True by tauto. reflexivity.
        -- apply String.eqb_neq in Heq. repeat (split; [reflexivity|]).
           rewrite Hv. rewrite decide_False; [reflexivity|]. intros [_ [= ->]]. congruence.
      * repeat (split; [reflexivity|]). rewrite Hv.
        rewrite decide_False; [reflexivity|]. intros [_ H]. discriminate.
    + rewrite lookup_empty. repeat (split; [reflexivity|]). rewrite Hv.
      rewrite decide_False; [reflexivity|]. intros [_ H].
      rewrite ?lookup_empty in H. discriminate.
Qed.

(** The whole effect of one [SetUserToken] on a store that keeps [wf]. *)
Lemma SetUserToken_effect now metaId platform token ps :
  wf ps -> metaId <> "" -> platform <> "" -> token <> "" ->
  exists ps',
    SetUserToken now metaId platform token ps = (Ok tt, ps')
    /\ wf ps'
    /\ devices ps'
       = <[token := {| DeviceID := token; Platform := platform;
                       DeviceMetaID := metaId; DeviceUpdatedAt := now |}]> (devices ps)
    /\ blocked_chats ps' = blocked_chats ps
    /\ notified_pins ps' = notified_pins ps
    /\ tokensOf metaId ps' = <[platform := token]> (tokensOf metaId ps)
    /\ (forall k, k <> metaId -> ownerOf token ps <> Some k ->
                  user_tokens ps' !! k = user_tokens ps !! k)
    /\ (forall k, k <> metaId -> ownerOf token ps = Some k ->
                  tokensOf k ps'
                  = (if decide (k <> "" /\ tokensOf k ps !! platform = Some token)
                     then delete platform (tokensOf k ps) else tokensOf k ps)).
Proof.
  intros Hwf Hm Hp Ht.
  destruct (SetUserToken_spec now metaId platform token ps Hwf Hm Hp Ht)
    as (ps0 & ut & Hwf0 & Hdev0 & Hps0 & Hget & Hset).
  eexists. split; [exact Hset|].
  assert (Hframe :
    blocked_chats ps0 = blocked_chats ps
    /\ notified_pins ps0 = notified_pins ps
    /\ tokensOf metaId ps0 = tokensOf metaId ps
    /\ (forall k, k <> metaId -> ownerOf token ps <> Some k ->
                  user_tokens ps0 !! k = user_tokens ps !! k)
    /\ (forall k, k <> metaId -> ownerOf token ps = Some k ->
                  tokensOf k ps0
                  = (if decide (k <> "" /\ tokensOf k ps !! platform = Some token)
                     then delete platform (tokensOf k ps) else tokensOf k ps))).
  { rewrite Hps0. unfold ownerOf.
    destruct (devices ps !! token) as [d|] eqn:Hd; cbn [fmap option_fmap option_map].
    - destruct (String.eqb (DeviceMetaID d) metaId) eqn:Hown; cbn [negb].
      + apply String.eqb_eq in Hown.
        split; [reflexivity|]. split; [reflexivity|]. split; [reflexivity|].
        split; [intros; reflexivity|]. intros k Hk [= Hk']. congruence.
      + apply String.eqb_neq in Hown.
        destruct (scrubOldOwner_effect now (DeviceMetaID d) platform token ps Hwf)
          as (_ & Hb & Hn & Hother & Hold).
        split; [exact Hb|]. split; [exact Hn|]. split; [|split].
        * unfold tokensOf. rewrite Hother by congruence. reflexivity.
        * intros k Hk Hne. apply Hother. congruence.
        * intros k Hk [= <-]. exact Hold.
    - split; [reflexivity|]. split; [reflexivity|]. split; [reflexivity|].
      split; [intros; reflexivity|]. intros k _ [=]. }
  destruct Hframe as (Hb & Hn & Hself & Hother & Howner).
  pose proof (GetUserTokens_tokensOf _ _ _ _ Hget) as Hut. rewrite Hself in Hut.
  split; [|split; [reflexivity|]]; [|cbn [blocked_chats notified_pins]].
  - destruct Hwf0 as [Hu0 _]. destruct Hwf as [_ Hd]. split; cbn.
    + apply map_Forall_insert_2; [reflexivity|exact Hu0].
    + apply map_Forall_insert_2; [reflexivity|exact Hd].
  - split; [exact Hb|]. split; [exact Hn|]. split; [|split].
    + unfold tokensOf at 1. cbn [user_tokens]. rewrite lookup_insert_eq. cbn [Tokens].
      rewrite Hut. reflexivity.
    + intros k Hk Hne. cbn [user_tokens]. rewrite lookup_insert_ne by congruence.
      apply Hother; assumption.
    + intros k Hk Hown. rewrite <- (Howner k Hk Hown). unfold tokensOf.
      cbn [user_tokens]. rewrite lookup_insert_ne by congruence. reflexivity.
Qed.

(** X1.  Set then get: after [SetUserToken(m, p, t)] the user's tokens
    hold [t] under [p] and are otherwise what they were, and the device
    [t] is bound to [m] on [p]. *)
Theorem SetUserToken_round_trip (now now' : Z) (metaId platform token : string) (ps : t) :
  wf ps -> metaId <> "" -> platform <> "" -> token <> "" ->
  exists ps' ut d,
    SetUserToken now metaId platform token ps = (Ok tt, ps')
    /\ GetUserTokens now' metaId ps' = Ok ut
    /\ Tokens ut !! platform = Some token
    /\ (forall q, q <> platform -> Tokens ut !! q = tokensOf metaId ps !! q)
    /\ GetDeviceInfo token ps' = Ok d
    /\ DeviceMetaID d = metaId /\ Platform d = platform.
Proof.
  intros Hwf Hm Hp Ht.
  destruct (SetUserToken_effect now metaId platform token ps Hwf Hm Hp Ht)
    as (ps' & Hset & _ & Hdev & _ & _ & Hself & _).
  destruct (GetUserTokens_ok now' metaId ps' Hm) as (ut & Hget & Hut).
  exists ps', ut. eexists. split; [exact Hset|]. split; [exact Hget|].
  rewrite Hut, Hself. split; [apply lookup_insert_eq|].
  split; [intros q Hq; apply lookup_insert_ne; congruence|].
  unfold GetDeviceInfo. rewrite (eqb_false _ _ Ht), Hdev, lookup_insert_eq.
  split; [reflexivity|]. split; reflexivity.
Qed.

(** X2.  Frame: [SetUserToken(m, p, t)] leaves alone the mute lists, the
    notified pins, every device other than [t], and every user other than
    [m] and the user [t] was bound to. *)
Theorem SetUserToken_frame (now : Z) (metaId platform token : string) (ps : t) :
  wf ps -> metaId <> "" -> platform <> "" -> token <> "" ->
  exists ps',
    SetUserToken now metaId platform token ps = (Ok tt, ps')
    /\ blocked_chats ps' = blocked_chats ps
    /\ notified_pins ps' = notified_pins ps
    /\ (forall d, d <> token -> devices ps' !! d = devices ps !! d)
    /\ (forall k, k <> metaId -> ownerOf token ps <> Some k ->
                  user_tokens ps' !! k = user_tokens ps !! k).
Proof.
  intros Hwf Hm Hp Ht.
  destruct (SetUserToken_effect now metaId platform token ps Hwf Hm Hp Ht)
    as (ps' & Hset & _ & Hdev & Hb & Hn & _ & Hother & _).
  exists ps'. split; [exact Hset|]. split; [exact Hb|]. split; [exact Hn|].
  split; [|exact Hother].
  intros d Hd. rewrite Hdev. apply lookup_insert_ne. congruence.
Qed.

(** X3.  Registering the same token twice for the same user is the same as
    registering it once. *)
Theorem SetUserToken_idempotent (now : Z) (metaId platform token : string) (ps : t) :
  wf ps -> metaId <> "" -> platform <> "" -> token <> "" ->
  SetUserToken now metaId platform token (snd (SetUserToken now metaId platform token ps))
  = SetUserToken now metaId platform token ps.
Proof.
  intros Hwf Hm Hp Ht.
  destruct (SetUserToken_spec now metaId platform token ps Hwf Hm Hp Ht)
    as (ps0 & ut & Hwf0 & _ & _ & _ & Hset).
  rewrite Hset. cbn [snd].
  match goal with |- SetUserToken _ _ _ _ ?x = _ => set (ps1 := x) end.
  assert (Hwf1 : wf ps1).
  { destruct Hwf0 as [Hu0 _]. destruct Hwf as [_ Hd]. split; cbn.
    - apply map_Forall_insert_2; [reflexivity|exact Hu0].
    - apply map_Forall_insert_2; [reflexivity|exact Hd]. }
  destruct (SetUserToken_spec now metaId platform token ps1 Hwf1 Hm Hp Ht)
    as (q0 & ut' & _ & _ & Hq0 & Hget' & Hset').
  rewrite Hset'. f_equal.
  assert (Hq : q0 = ps1).
  { rewrite Hq0. unfold ps1 at 1. cbn [devices]. rewrite lookup_insert_eq.
    cbn [DeviceMetaID]. rewrite String.eqb_refl. reflexivity. }
  clear Hq0. rewrite Hq in *. clear Hq q0.
  assert (Hut' : ut' = {| MetaID := metaId; Tokens := <[platform := token]> (Tokens ut);
                          UpdatedAt := now |}).
  { unfold GetUserTokens in Hget'. rewrite (eqb_false _ _ Hm) in Hget'.
    unfold ps1 in Hget'. cbn [user_tokens] in Hget'. rewrite lookup_insert_eq in Hget'.
    congruence. }
  subst ut'. unfold ps1. cbn [user_tokens devices blocked_chats notified_pins Tokens].
  rewrite !insert_insert_eq. reflexivity.
Qed.

(** X4.  Stale bindings.  When a user replaces the token of a platform the
    old token stays bound to that user; handing the old token to another
    user later does not take away the entry the first user now holds. *)
Theorem SetUserToken_stale_binding (now1 now2 now3 : Z) (A B P T1 T2 : string) (ps : t) :
  wf ps -> A <> "" -> B <> "" -> P <> "" -> T1 <> "" -> T2 <> "" ->
  A <> B -> T1 <> T2 ->
  exists ps1 ps2 ps3,
    SetUserToken now1 A P T1 ps = (Ok tt, ps1)
    /\ SetUserToken now2 A P T2 ps1 = (Ok tt, ps2)
    /\ SetUserToken now3 B P T1 ps2 = (Ok tt, ps3)
    /\ ownerOf T1 ps2 = Some A /\ tokensOf A ps2 !! P = Some T2
    /\ tokensOf A ps3 !! P = Some T2 /\ tokensOf B ps3 !! P = Some T1
    /\ ownerOf T1 ps3 = Some B /\ ownerOf T2 ps3 = Some A.
Proof.
  intros Hwf HA HB HP HT1 HT2 HAB HT.
  destruct (SetUserToken_effect now1 A P T1 ps Hwf HA HP HT1)
    as (ps1 & Hset1 & Hwf1 & Hdev1 & _ & _ & Hself1 & _).
  destruct (SetUserToken_effect now2 A P T2 ps1 Hwf1 HA HP HT2)
    as (ps2 & Hset2 & Hwf2 & Hdev2 & _ & _ & Hself2 & _).
  destruct (SetUserToken_effect now3 B P T1 ps2 Hwf2 HB HP HT1)
    as (ps3 & Hset3 & _ & Hdev3 & _ & _ & Hself3 & _ & Howner3).
  exists ps1, ps2, ps3. split; [exact Hset1|]. split; [exact Hset2|]. split; [exact Hset3|].
  assert (Hown2 : ownerOf T1 ps2 = Some A).
  { unfold ownerOf. rewrite Hdev2, lookup_insert_ne by congruence.
    rewrite Hdev1, lookup_insert_eq. reflexivity. }
  assert (Htok2 : tokensOf A ps2 !! P = Some T2).
  { rewrite Hself2. apply lookup_insert_eq. }
  split; [exact Hown2|]. split; [exact Htok2|]. split; [|split; [|split]].
  - rewrite (Howner3 A) by congruence.
    rewrite decide_False; [exact Htok2|]. intros [_ H]. congruence.
  - rewrite Hself3. apply lookup_insert_eq.
  - unfold ownerOf. rewrite Hdev3, lookup_insert_eq. reflexivity.
  - unfold ownerOf. rewrite Hdev3, lookup_insert_ne by congruence.
    rewrite Hdev2, lookup_insert_eq. reflexivity.
Qed.

(** X5.  [RemoveUserToken] drops the platform entry and nothing else: the
    other users and every device binding stay, the binding of the removed
    token included; where there is no entry the store is not written. *)
Theorem RemoveUserToken_effect (now : Z) (metaId platform : string) (ps : t) :
  wf ps -> metaId <> "" -> platform <> "" ->
  exists ps',
    RemoveUserToken now metaId platform ps = (Ok tt, ps')
    /\ tokensOf metaId ps' = delete platform (tokensOf metaId ps)
    /\ devices ps' = devices ps
    /\ (forall k, k <> metaId -> user_tokens ps' !! k = user_tokens ps !! k)
    /\ (tokensOf metaId ps !! platform = None -> ps' = ps).
Proof.
  intros [Hu Hd] Hm Hp. unfold RemoveUserToken, GetUserTokens, tokensOf.
  rewrite (eqb_false _ _ Hm), (eqb_false _ _ Hp). cbn [orb].
  destruct (user_tokens ps !! metaId) as [v|] eqn:Hv; cbn [Tokens].
  - pose proof (Hu _ _ Hv) as Hid. cbn in Hid.
    destruct (Tokens v !! platform) as [tok|] eqn:Htok.
    + unfold SaveUserTokens. cbn [MetaID Tokens]. rewrite Hid, (eqb_false _ _ Hm).
      eexists. split; [reflexivity|]. cbn [user_tokens devices set_user_tokens].
      rewrite lookup_insert_eq. cbn [Tokens]. split; [reflexivity|]. split; [reflexivity|].
      split; [|discriminate]. intros k Hk. apply lookup_insert_ne. congruence.
    + exists ps. split; [reflexivity|]. rewrite Hv.
      split; [symmetry; apply delete_id; exact Htok|]. auto.
  - rewrite lookup_empty. exists ps. split; [reflexivity|]. rewrite Hv.
    split; [symmetry; apply delete_id; apply lookup_empty|]. auto.
Qed.

(** X6.  [DeleteUserTokens] makes the user read as empty and leaves every
    device binding in place. *)
Theorem DeleteUserTokens_effect (now : Z) (metaId : string) (ps : t) :
  metaId <> "" ->
  exists ps' ut,
    DeleteUserTokens metaId ps = (Ok tt, ps')
    /\ GetUserTokens now metaId ps' = Ok ut /\ Tokens ut = ∅
    /\ devices ps' = devices ps
    /\ (forall k, k <> metaId -> user_tokens ps' !! k = user_tokens ps !! k).
Proof.
  intros Hm. unfold DeleteUserTokens, GetUserTokens. rewrite (eqb_false _ _ Hm).
  exists (set_user_tokens (delete metaId (user_tokens ps)) ps).
  cbn [user_tokens devices set_user_tokens]. rewrite lookup_delete_eq.
  eexists. split; [reflexivity|]. split; [reflexivity|]. split; [reflexivity|].
  split; [reflexivity|]. intros k Hk. apply lookup_delete_ne. congruence.
Qed.

(** X7.  [SetDeviceInfo] rebinding a device from [A] to [B] removes the
    token [A] holds on the platform, whichever token it is, and writes
    nothing into [B]'s tokens. *)
Theorem SetDeviceInfo_rebind (now : Z) (deviceId platform A B : string) (ps : t) :
  wf ps -> deviceId <> "" -> platform <> "" -> A <> "" -> B <> "" -> A <> B ->
  ownerOf deviceId ps = Some A ->
  exists ps',
    SetDeviceInfo now deviceId platform B ps = (Ok tt, ps')
    /\ ownerOf deviceId ps' = Some B
    /\ tokensOf A ps' = delete platform (tokensOf A ps)
    /\ user_tokens ps' !! B = user_tokens ps !! B.
Proof.
  intros [Hu Hd] Hdev Hp HA HB HAB Hown. unfold SetDeviceInfo, GetDeviceInfo.
  rewrite (eqb_false _ _ Hdev), (eqb_false _ _ Hp), (eqb_false _ _ HB). cbn [orb].
  unfold ownerOf in Hown.
  destruct (devices ps !! deviceId) as [d|] eqn:Hd0; [|discriminate].
  injection Hown as Hown. pose proof (Hd _ _ Hd0) as Hid. cbn in Hid.
  rewrite Hown, (eqb_false _ _ HAB). cbn [negb].
  unfold GetUserTokens. rewrite (eqb_false _ _ HA).
  set (ps0 := match
                match user_tokens ps !! A with
                | Some userTokens => Ok userTokens
                | None => Ok {| MetaID := A; Tokens := ∅; UpdatedAt := now |}
                end
              with
              | Ok oldUserTokens => _
              | Err _ => ps
              end).
  assert (Hps0 : devices ps0 = devices ps
                 /\ tokensOf A ps0 = delete platform (tokensOf A ps)
                 /\ user_tokens ps0 !! B = user_tokens ps !! B).
  { unfold ps0, tokensOf.
    destruct (user_tokens ps !! A) as [v|] eqn:Hv; cbn [Tokens].
    - pose proof (Hu _ _ Hv) as HidA. cbn in HidA.
      destruct (Tokens v !! platform) eqn:Htok.
      + unfold SaveUserTokens. cbn [MetaID Tokens]. rewrite HidA, (eqb_false _ _ HA).
        cbn. rewrite lookup_insert_eq, lookup_insert_ne by congruence. auto.
      + rewrite Hv. split; [reflexivity|].
        split; [symmetry; apply delete_id; exact Htok|reflexivity].
    - rewrite lookup_empty, Hv. split; [reflexivity|].
      split; [symmetry; apply delete_id; apply lookup_empty|reflexivity]. }
  destruct Hps0 as (Hdev0 & HtokA & HtokB).
  unfold SaveDeviceInfo. cbn [DeviceID Platform DeviceMetaID].
  rewrite Hid, (eqb_false _ _ Hdev), (eqb_false _ _ Hp), (eqb_false _ _ HB).
  eexists. split; [reflexivity|]. unfold ownerOf, tokensOf in *.
  cbn [devices user_tokens set_devices]. rewrite lookup_insert_eq.
  split; [reflexivity|]. split; [exact HtokA|exact HtokB].
Qed.

End StoreTokens.

Section StoreBlockedChats.
Import models PebbleService.

Lemma hasChat_elem_of chatId l :
  hasChat chatId l = bool_decide (chatId ∈ ChatID <$> l).
Proof.
  unfold hasChat. induction l as [|b l IH]; [reflexivity|].
  cbn [existsb fmap list_fmap]. rewrite IH.
  destruct (String.eqb (ChatID b) chatId) eqn:E.
  - apply String.eqb_eq in E. symmetry. apply bool_decide_eq_true. rewrite E. left.
  - apply String.eqb_neq in E. cbn [orb]. apply bool_decide_ext.
    rewrite elem_of_cons. split; [auto|]. intros [H|H]; [congruence|exact H].
Qed.

Lemma blockedIdsOf_db now userId ps :
  ChatID <$> BlockedChats (getUserBlockedChatsFromDB now userId ps) = blockedIdsOf userId ps.
Proof.
  unfold getUserBlockedChatsFromDB, blockedIdsOf.
  destruct (blocked_chats ps !! userId); reflexivity.
Qed.

Lemma IsBlockedChat_spec now userId chatId ps :
  userId <> "" -> chatId <> "" ->
  IsBlockedChat now userId chatId ps = Ok (bool_decide (chatId ∈ blockedIdsOf userId ps)).
Proof.
  intros Hu Hc. unfold IsBlockedChat. rewrite (eqb_false _ _ Hu), (eqb_false _ _ Hc).
  cbn [orb]. rewrite hasChat_elem_of, blockedIdsOf_db. reflexivity.
Qed.

Lemma fmap_ChatID_filter chatId l :
  ChatID <$> List.filter (fun b => negb (String.eqb (ChatID b) chatId)) l
  = List.filter (fun c => negb (String.eqb c chatId)) (ChatID <$> l).
Proof.
  induction l as [|b l IH]; [reflexivity|]. cbn [List.filter fmap list_fmap].
  destruct (negb (String.eqb (ChatID b) chatId)); cbn [fmap list_fmap]; rewrite IH;
    reflexivity.
Qed.

Lemma filter_ne_not_elem chatId (l : list string) :
  chatId ∉ List.filter (fun c => negb (String.eqb c chatId)) l.
Proof.
  rewrite list_elem_of_In, filter_In. intros [_ H].
  rewrite String.eqb_refl in H. discriminate.
Qed.

Lemma filter_ne_id chatId (l : list string) :
  chatId ∉ l -> List.filter (fun c => negb (String.eqb c chatId)) l = l.
Proof.
  induction l as [|c l IH]; [reflexivity|]. rewrite not_elem_of_cons. intros [Hne Hl].
  cbn [List.filter]. rewrite (eqb_false c chatId) by congruence. cbn [negb].
  rewrite IH by exact Hl. reflexivity.
Qed.

(** X8.  [AddBlockedChat] appends the chat unless the user already has it,
    in which case the store is not written; either way the chat then reads
    as muted, and the other users' lists are as before. *)
Theorem AddBlockedChat_effect (now now' : Z) (userId chatId chatType reason : string)
    (ps : t) :
  userId <> "" -> chatId <> "" ->
  exists ps',
    AddBlockedChat now userId chatId chatType reason ps = (Ok tt, ps')
    /\ blockedIdsOf userId ps'
       = (if decide (chatId ∈ blockedIdsOf userId ps) then blockedIdsOf userId ps
          else (blockedIdsOf userId ps ++ [chatId])%list)
    /\ (chatId ∈ blockedIdsOf userId ps -> ps' = ps)
    /\ IsBlockedChat now' userId chatId ps' = Ok true
    /\ (forall k, k <> userId -> blocked_chats ps' !! k = blocked_chats ps !! k)
    /\ user_tokens ps' = user_tokens ps /\ devices ps' = devices ps
    /\ notified_pins ps' = notified_pins ps.
Proof.
  intros Hu Hc. unfold AddBlockedChat. rewrite (eqb_false _ _ Hu), (eqb_false _ _ Hc).
  cbn [orb]. rewrite hasChat_elem_of, blockedIdsOf_db.
  destruct (decide (chatId ∈ blockedIdsOf userId ps)) as [Hin|Hnin].
  - rewrite bool_decide_eq_true_2 by exact Hin. exists ps.
    split; [reflexivity|]. rewrite IsBlockedChat_spec by assumption.
    rewrite bool_decide_eq_true_2 by exact Hin. auto 10.
  - rewrite bool_decide_eq_false_2 by exact Hnin. eexists. split; [reflexivity|].
    rewrite IsBlockedChat_spec by assumption.
    assert (Hids : blockedIdsOf userId
                     (set_blocked_chats
                        (<[userId := {| BlockedUserID :=
                                          BlockedUserID (getUserBlockedChatsFromDB now userId ps);
                                        BlockedChats :=
                                          (BlockedChats (getUserBlockedChatsFromDB now userId ps)
                                           ++ [{| UserID := userId; ChatID := chatId;
                                                  ChatType := chatType; BlockedAt := now;
                                                  Reason := reason |}])%list;
                                        BlockedUpdatedAt := now |}]> (blocked_chats ps)) ps)
                   = (blockedIdsOf userId ps ++ [chatId])%list).
    { unfold blockedIdsOf at 1. cbn [blocked_chats set_blocked_chats].
      rewrite lookup_insert_eq. cbn [BlockedChats]. rewrite fmap_app, blockedIdsOf_db.
      reflexivity. }
    rewrite Hids. split; [reflexivity|]. split; [contradiction|].
    split; [f_equal; apply bool_decide_eq_true_2; set_solver|].
    split; [|auto]. intros k Hk. cbn. apply lookup_insert_ne. congruence.
Qed.

(** X9.  [RemoveBlockedChat] takes the chat out of the user's list and
    keeps the rest in order; the chat then reads as not muted; a list that
    becomes empty takes its key with it; where the chat is not in the list
    the store is not written. *)
Theorem RemoveBlockedChat_effect (now now' : Z) (userId chatId : string) (ps : t) :
  userId <> "" -> chatId <> "" ->
  exists ps',
    RemoveBlockedChat now userId chatId ps = (Ok tt, ps')
    /\ blockedIdsOf userId ps'
       = List.filter (fun c => negb (String.eqb c chatId)) (blockedIdsOf userId ps)
    /\ (chatId ∉ blockedIdsOf userId ps -> ps' = ps)
    /\ IsBlockedChat now' userId chatId ps' = Ok false
    /\ (chatId ∈ blockedIdsOf userId ps -> blockedIdsOf userId ps' = [] ->
        blocked_chats ps' !! userId = None)
    /\ (forall k, k <> userId -> blocked_chats ps' !! k = blocked_chats ps !! k).
Proof.
  intros Hu Hc. unfold RemoveBlockedChat. rewrite (eqb_false _ _ Hu), (eqb_false _ _ Hc).
  cbn [orb]. rewrite hasChat_elem_of, blockedIdsOf_db.
  assert (Hafter : forall ps',
            blockedIdsOf userId ps'
            = List.filter (fun c => negb (String.eqb c chatId)) (blockedIdsOf userId ps) ->
            IsBlockedChat now' userId chatId ps' = Ok false).
  { intros ps' Hids. rewrite IsBlockedChat_spec by assumption. f_equal.
    apply bool_decide_eq_false_2. rewrite Hids. apply filter_ne_not_elem. }
  destruct (decide (chatId ∈ blockedIdsOf userId ps)) as [Hin|Hnin].
  - rewrite bool_decide_eq_true_2 by exact Hin. cbn [negb].
    pose proof (fmap_ChatID_filter chatId
                  (BlockedChats (getUserBlockedChatsFromDB now userId ps))) as Hf.
    rewrite blockedIdsOf_db in Hf.
    destruct (List.filter _ (BlockedChats (getUserBlockedChatsFromDB now userId ps)))
      as [|b rest] eqn:Hrest.
    + eexists. split; [reflexivity|].
      assert (Hids : blockedIdsOf userId
                       (set_blocked_chats (delete userId (blocked_chats ps)) ps)
                     = List.filter (fun c => negb (String.eqb c chatId))
                                   (blockedIdsOf userId ps)).
      { unfold blockedIdsOf at 1. cbn. rewrite lookup_delete_eq. exact Hf. }
      split; [exact Hids|]. split; [contradiction|]. split; [apply Hafter, Hids|].
      split; [intros _ _; cbn; apply lookup_delete_eq|].
      intros k Hk. cbn. apply lookup_delete_ne. congruence.
    + eexists. split; [reflexivity|].
      match goal with
      | |- blockedIdsOf userId ?x = _ /\ _ =>
          assert (Hids : blockedIdsOf userId x
                         = List.filter (fun c => negb (String.eqb c chatId))
                                       (blockedIdsOf userId ps))
      end.
      { unfold blockedIdsOf at 1. cbn. rewrite lookup_insert_eq. cbn. exact Hf. }
      split; [exact Hids|]. split; [contradiction|]. split; [apply Hafter, Hids|].
      split; [intros _ Hnil; rewrite Hids, <- Hf in Hnil; discriminate|].
      intros k Hk. cbn. apply lookup_insert_ne. congruence.
  - rewrite bool_decide_eq_false_2 by exact Hnin. cbn [negb]. exists ps.
    split; [reflexivity|]. split; [symmetry; apply filter_ne_id, Hnin|].
    split; [reflexivity|].
    split; [apply Hafter; symmetry; apply filter_ne_id, Hnin|].
    split; [contradiction|reflexivity].
Qed.

Lemma NoDup_filter_ne chatId (l : list string) :
  NoDup l -> NoDup (List.filter (fun c => negb (String.eqb c chatId)) l).
Proof.
  induction 1 as [|c l Hc Hl IH]; cbn [List.filter]; [constructor|].
  destruct (negb (String.eqb c chatId)); [|exact IH].
  constructor; [|exact IH]. rewrite list_elem_of_In, filter_In, <- list_elem_of_In. tauto.
Qed.

(** X10.  The mute lists stay tidy: neither [AddBlockedChat] nor
    [RemoveBlockedChat], with whatever arguments, leaves a user with the
    same chat twice or a key with an empty list. *)
Theorem blockedChatsTidy_preserved (now : Z) (userId chatId chatType reason : string)
    (ps : t) :
  blockedChatsTidy ps ->
  blockedChatsTidy (snd (AddBlockedChat now userId chatId chatType reason ps))
  /\ blockedChatsTidy (snd (RemoveBlockedChat now userId chatId ps)).
Proof.
  intros Htidy. split.
  - unfold AddBlockedChat.
    destruct (String.eqb userId "" || String.eqb chatId ""); [exact Htidy|].
    rewrite hasChat_elem_of.
    destruct (bool_decide _) eqn:Hin; [exact Htidy|].
    apply bool_decide_eq_false in Hin. cbn [snd]. unfold blockedChatsTidy.
    cbn [blocked_chats set_blocked_chats]. apply map_Forall_insert_2; [|exact Htidy].
    cbn [BlockedChats]. split.
    + rewrite fmap_app. cbn [fmap list_fmap ChatID]. apply NoDup_app. split; [|split].
      * unfold getUserBlockedChatsFromDB.
        destruct (blocked_chats ps !! userId) as [v|] eqn:Hv; [|constructor].
        exact (proj1 (Htidy _ _ Hv)).
      * intros c Hc Hc'. apply list_elem_of_singleton in Hc'. subst c. exact (Hin Hc).
      * apply NoDup_singleton.
    + intros H. apply app_eq_nil in H as [_ H]. discriminate.
  - unfold RemoveBlockedChat.
    destruct (String.eqb userId "" || String.eqb chatId ""); [exact Htidy|].
    destruct (negb (hasChat chatId _)); [exact Htidy|].
    destruct (List.filter _ (BlockedChats (getUserBlockedChatsFromDB now userId ps)))
      as [|b rest] eqn:Hrest; cbn [snd]; unfold blockedChatsTidy;
      cbn [blocked_chats set_blocked_chats].
    + apply map_Forall_delete. exact Htidy.
    + apply map_Forall_insert_2; [|exact Htidy]. cbn [BlockedChats].
      split; [|discriminate]. rewrite <- Hrest, fmap_ChatID_filter.
      apply NoDup_filter_ne. unfold getUserBlockedChatsFromDB.
      destruct (blocked_chats ps !! userId) as [v|] eqn:Hv; [|constructor].
      exact (proj1 (Htidy _ _ Hv)).
Qed.

(** X11.  Notified pins behave as a set: a pin reads as notified after
    [AddNotifiedPin] and as not notified after [RemoveNotifiedPin], and
    neither changes how any other pin reads. *)
Theorem notified_pin_set_semantics (now : Z) (pinId other : string) (ps : t) :
  pinId <> "" ->
  IsNotifiedPin pinId (snd (AddNotifiedPin now pinId ps)) = Ok true
  /\ IsNotifiedPin pinId (snd (RemoveNotifiedPin pinId ps)) = Ok false
  /\ (other <> pinId ->
      IsNotifiedPin other (snd (AddNotifiedPin now pinId ps)) = IsNotifiedPin other ps
      /\ IsNotifiedPin other (snd (RemoveNotifiedPin pinId ps)) = IsNotifiedPin other ps).
Proof.
  intros Hp. unfold IsNotifiedPin, AddNotifiedPin, RemoveNotifiedPin.
  rewrite (eqb_false _ _ Hp). cbn [snd notified_pins set_notified_pins].
  rewrite lookup_insert_eq, lookup_delete_eq. split; [reflexivity|]. split; [reflexivity|].
  intros Hne. rewrite lookup_insert_ne, lookup_delete_ne by congruence. auto.
Qed.

End StoreBlockedChats.

(** ** The store properties on concrete stores *)

Lemma oneUserStore_wf : wf oneUserStore.
Proof.
  apply (SetUserToken_preserves_wf 1 "u1" "expo" "ExponentPushToken[AAA]" _ wf_empty).
Qed.

Lemma SetUserToken_round_trip_witness :
  exists ps' ut d,
    PebbleService.SetUserToken 1 "u2" "expo" "ExponentPushToken[BBB]" oneUserStore
    = (Ok tt, ps')
    /\ PebbleService.GetUserTokens 2 "u2" ps' = Ok ut
    /\ models.Tokens ut !! "expo" = Some "ExponentPushToken[BBB]"
    /\ (forall q, q <> "expo" -> models.Tokens ut !! q = tokensOf "u2" oneUserStore !! q)
    /\ PebbleService.GetDeviceInfo "ExponentPushToken[BBB]" ps' = Ok d
    /\ models.DeviceMetaID d = "u2" /\ models.Platform d = "expo".
Proof.
  apply (SetUserToken_round_trip 1 2 "u2" "expo" "ExponentPushToken[BBB]" oneUserStore
           oneUserStore_wf); discriminate.
Defined.

Lemma SetUserToken_frame_witness :
  exists ps',
    PebbleService.SetUserToken 1 "u2" "expo" "ExponentPushToken[BBB]" oneUserStore
    = (Ok tt, ps')
    /\ PebbleService.blocked_chats ps' = PebbleService.blocked_chats oneUserStore
    /\ PebbleService.notified_pins ps' = PebbleService.notified_pins oneUserStore
    /\ (forall d, d <> "ExponentPushToken[BBB]" ->
                  PebbleService.devices ps' !! d = PebbleService.devices oneUserStore !! d)
    /\ (forall k, k <> "u2" -> ownerOf "ExponentPushToken[BBB]" oneUserStore <> Some k ->
                  PebbleService.user_tokens ps' !! k
                  = PebbleService.user_tokens oneUserStore !! k).
Proof.
  apply (SetUserToken_frame 1 "u2" "expo" "ExponentPushToken[BBB]" oneUserStore
           oneUserStore_wf); discriminate.
Defined.

Lemma SetUserToken_idempotent_witness :
  PebbleService.SetUserToken 1 "u2" "expo" "ExponentPushToken[BBB]"
    (snd (PebbleService.SetUserToken 1 "u2" "expo" "ExponentPushToken[BBB]" oneUserStore))
  = PebbleService.SetUserToken 1 "u2" "expo" "ExponentPushToken[BBB]" oneUserStore.
Proof.
  apply (SetUserToken_idempotent 1 "u2" "expo" "ExponentPushToken[BBB]" oneUserStore
           oneUserStore_wf); discriminate.
Defined.

Lemma SetUserToken_stale_binding_witness :
  exists ps1 ps2 ps3,
    PebbleService.SetUserToken 1 "u1" "expo" "ExponentPushToken[AAA]" PebbleService.empty
    = (Ok tt, ps1)
    /\ PebbleService.SetUserToken 2 "u1" "expo" "ExponentPushToken[BBB]" ps1 = (Ok tt, ps2)
    /\ PebbleService.SetUserToken 3 "u2" "expo" "ExponentPushToken[AAA]" ps2 = (Ok tt, ps3)
    /\ ownerOf "ExponentPushToken[AAA]" ps2 = Some "u1"
    /\ tokensOf "u1" ps2 !! "expo" = Some "ExponentPushToken[BBB]"
    /\ tokensOf "u1" ps3 !! "expo" = Some "ExponentPushToken[BBB]"
    /\ tokensOf "u2" ps3 !! "expo" = Some "ExponentPushToken[AAA]"
    /\ ownerOf "ExponentPushToken[AAA]" ps3 = Some "u2"
    /\ ownerOf "ExponentPushToken[BBB]" ps3 = Some "u1".
Proof.
  apply (SetUserToken_stale_binding 1 2 3 "u1" "u2" "expo" "ExponentPushToken[AAA]"
           "ExponentPushToken[BBB]" PebbleService.empty wf_empty); discriminate.
Defined.

Lemma RemoveUserToken_effect_witness :
  exists ps',
    PebbleService.RemoveUserToken 2 "u1" "expo" oneUserStore = (Ok tt, ps')
    /\ tokensOf "u1" ps' = delete "expo" (tokensOf "u1" oneUserStore)
    /\ PebbleService.devices ps' = PebbleService.devices oneUserStore
    /\ (forall k, k <> "u1" ->
                  PebbleService.user_tokens ps' !! k
                  = PebbleService.user_tokens oneUserStore !! k)
    /\ (tokensOf "u1" oneUserStore !! "expo" = None -> ps' = oneUserStore).
Proof.
  apply (RemoveUserToken_effect 2 "u1" "expo" oneUserStore oneUserStore_wf); discriminate.
Defined.

Lemma DeleteUserTokens_effect_witness :
  exists ps' ut,
    PebbleService.DeleteUserTokens "u1" oneUserStore = (Ok tt, ps')
    /\ PebbleService.GetUserTokens 2 "u1" ps' = Ok ut /\ models.Tokens ut = ∅
    /\ PebbleService.devices ps' = PebbleService.devices oneUserStore
    /\ (forall k, k <> "u1" ->
                  PebbleService.user_tokens ps' !! k
                  = PebbleService.user_tokens oneUserStore !! k).
Proof. apply (DeleteUserTokens_effect 2 "u1" oneUserStore); discriminate. Defined.

Lemma SetDeviceInfo_rebind_witness :
  exists ps',
    PebbleService.SetDeviceInfo 2 "ExponentPushToken[AAA]" "expo" "u2" oneUserStore
    = (Ok tt, ps')
    /\ ownerOf "ExponentPushToken[AAA]" ps' = Some "u2"
    /\ tokensOf "u1" ps' = delete "expo" (tokensOf "u1" oneUserStore)
    /\ PebbleService.user_tokens ps' !! "u2"
       = PebbleService.user_tokens oneUserStore !! "u2".
Proof.
  apply (SetDeviceInfo_rebind 2 "ExponentPushToken[AAA]" "expo" "u1" "u2" oneUserStore
           oneUserStore_wf); try discriminate.
  vm_compute. reflexivity.
Defined.

Lemma AddBlockedChat_effect_witness :
  exists ps',
    PebbleService.AddBlockedChat 1 "u3" "g2" "group" "" exampleStore = (Ok tt, ps')
    /\ blockedIdsOf "u3" ps'
       = (if decide ("g2" ∈ blockedIdsOf "u3" exampleStore)
          then blockedIdsOf "u3" exampleStore
          else (blockedIdsOf "u3" exampleStore ++ ["g2"])%list)
    /\ ("g2" ∈ blockedIdsOf "u3" exampleStore -> ps' = exampleStore)
    /\ PebbleService.IsBlockedChat 2 "u3" "g2" ps' = Ok true
    /\ (forall k, k <> "u3" ->
                  PebbleService.blocked_chats ps' !! k
                  = PebbleService.blocked_chats exampleStore !! k)
    /\ PebbleService.user_tokens ps' = PebbleService.user_tokens exampleStore
    /\ PebbleService.devices ps' = PebbleService.devices exampleStore
    /\ PebbleService.notified_pins ps' = PebbleService.notified_pins exampleStore.
Proof.
  apply (AddBlockedChat_effect 1 2 "u3" "g2" "group" "" exampleStore); discriminate.
Defined.

Lemma RemoveBlockedChat_effect_witness :
  exists ps',
    PebbleService.RemoveBlockedChat 2 "u3" "g1" exampleStore = (Ok tt, ps')
    /\ blockedIdsOf "u3" ps'
       = List.filter (fun c => negb (String.eqb c "g1")) (blockedIdsOf "u3" exampleStore)
    /\ ("g1" ∉ blockedIdsOf "u3" exampleStore -> ps' = exampleStore)
    /\ PebbleService.IsBlockedChat 3 "u3" "g1" ps' = Ok false
    /\ ("g1" ∈ blockedIdsOf "u3" exampleStore -> blockedIdsOf "u3" ps' = [] ->
        PebbleService.blocked_chats ps' !! "u3" = None)
    /\ (forall k, k <> "u3" ->
                  PebbleService.blocked_chats ps' !! k
                  = PebbleService.blocked_chats exampleStore !! k).
Proof.
  apply (RemoveBlockedChat_effect 2 3 "u3" "g1" exampleStore); discriminate.
Defined.

Lemma blockedChatsTidy_preserved_witness :
  blockedChatsTidy
    (snd (PebbleService.AddBlockedChat 1 "u3" "g1" "group" "" PebbleService.empty))
  /\ blockedChatsTidy (snd (PebbleService.RemoveBlockedChat 1 "u3" "g1" PebbleService.empty)).
Proof.
  apply (blockedChatsTidy_preserved 1 "u3" "g1" "group" "" PebbleService.empty).
  apply map_Forall_empty.
Defined.

Lemma notified_pin_set_semantics_witness :
  PebbleService.IsNotifiedPin "P1"
    (snd (PebbleService.AddNotifiedPin 1 "P1" exampleStore)) = Ok true
  /\ PebbleService.IsNotifiedPin "P1"
       (snd (PebbleService.RemoveNotifiedPin "P1" exampleStore)) = Ok false
  /\ ("P2" <> "P1" ->
      PebbleService.IsNotifiedPin "P2" (snd (PebbleService.AddNotifiedPin 1 "P1" exampleStore))
      = PebbleService.IsNotifiedPin "P2" exampleStore
      /\ PebbleService.IsNotifiedPin "P2"
           (snd (PebbleService.RemoveNotifiedPin "P1" exampleStore))
         = PebbleService.IsNotifiedPin "P2" exampleStore).
Proof. apply (notified_pin_set_semantics 1 "P1" "P2" exampleStore); discriminate. Defined.

(** ** Further properties of paging *)

Section PagingShape.
Import models PebbleService.

Lemma totalPages_bounds (total pageSize : Z) :
  0 <= total -> 1 <= pageSize ->
  ((total + pageSize - 1) ÷ pageSize - 1) * pageSize < total
  /\ total <= ((total + pageSize - 1) ÷ pageSize) * pageSize.
Proof.
  intros Ht Hs. rewrite Z.quot_div_nonneg by lia.
  pose proof (Z.div_mod (total + pageSize - 1) pageSize ltac:(lia)) as Hdm.
  pose proof (Z.mod_pos_bound (total + pageSize - 1) pageSize ltac:(lia)) as Hm.
  nia.
Qed.

(** X12.  Away from the int64 limits a request is served as follows: the
    page and page size are the normalised ones, the items are that window
    of the key-ordered scan (its length the page size, or what is left of
    the scan, or nothing), [total_pages] is the least number of pages that
    covers the scan, and [has_next] says whether a later page has items. *)
Theorem GetUserTokensList_page_shape (page pageSize : Z) (ps : t) :
  (pageServed page - 1) * pageSizeServed pageSize < 2 ^ 62 ->
  Z.of_nat (length (scanUserTokens ps)) < 2 ^ 62 ->
  exists p,
    GetUserTokensList page pageSize ps = Ok p
    /\ Page p = pageServed page /\ PageSize p = pageSizeServed pageSize
    /\ Total p = Z.of_nat (length (scanUserTokens ps))
    /\ Users p = pageOf (scanUserTokens ps) (pageServed page) (pageSizeServed pageSize)
    /\ Z.of_nat (length (Users p))
       = Z.max 0 (Z.min (pageSizeServed pageSize)
                        (Total p - (pageServed page - 1) * pageSizeServed pageSize))
    /\ (TotalPages p - 1) * PageSize p < Total p <= TotalPages p * PageSize p
    /\ (HasNext p = true <-> Page p * PageSize p < Total p).
Proof.
  unfold GetUserTokensList, pageOf, pageServed, pageSizeServed.
  set (page' := if page <? 1 then 1 else page).
  set (size' := if (if pageSize <? 1 then 10 else pageSize) >? 100 then 100
                else if pageSize <? 1 then 10 else pageSize).
  assert (Hpage : 1 <= page') by (unfold page'; destruct (page <? 1) eqn:E; lia).
  assert (Hsize : 1 <= size' <= 100).
  { unfold size'. destruct (pageSize <? 1) eqn:E1;
      destruct (_ >? 100) eqn:E2; lia. }
  intros Hstart Htotal.
  set (allUsers := scanUserTokens ps) in *.
  set (total := Z.of_nat (length allUsers)) in *.
  set (start := (page' - 1) * size') in *.
  assert (0 <= start) by (unfold start; nia).
  assert (0 <= total) by (unfold total; lia).
  rewrite (wrap64_small start) by lia.
  rewrite (wrap64_small (start + size')) by lia.
  rewrite (wrap64_small (total + size' - 1)) by lia.
  pose proof (totalPages_bounds total size' ltac:(lia) ltac:(lia)) as [Htp1 Htp2].
  set (totalPages := (total + size' - 1) ÷ size') in *.
  destruct (start >=? total) eqn:Hbeyond.
  - eexists. split; [reflexivity|]. cbn [Page PageSize Total Users TotalPages HasNext].
    split; [reflexivity|]. split; [reflexivity|]. split; [reflexivity|].
    split; [rewrite drop_ge by (unfold total in *; lia); rewrite take_nil; reflexivity|].
    split; [cbn [length]; lia|]. split; [lia|].
    split; [discriminate|]. unfold start in *. nia.
  - assert (Hlt : start < total) by lia.
    set (stop := if start + size' >? total then total else start + size').
    assert (Hstop : start <= stop <= total).
    { unfold stop. destruct (start + size' >? total) eqn:E; lia. }
    unfold slice. fold total.
    assert (((0 <=? start) && (start <=? stop) && (stop <=? total)) = true) as ->.
    { rewrite !andb_true_iff. repeat split; lia. }
    eexists. split; [reflexivity|]. cbn [Page PageSize Total Users TotalPages HasNext].
    split; [reflexivity|]. split; [reflexivity|]. split; [reflexivity|].
    assert (Hlen : Z.of_nat (length (take (Z.to_nat (stop - start))
                                          (drop (Z.to_nat start) allUsers)))
                   = stop - start).
    { rewrite length_take, length_drop. unfold total in *. lia. }
    split; [|split; [|split]].
    + unfold stop. destruct (start + size' >? total) eqn:E.
      * rewrite !take_ge; [reflexivity| |]; rewrite length_drop; unfold total in *; lia.
      * f_equal. lia.
    + rewrite Hlen. unfold stop. destruct (start + size' >? total) eqn:E; lia.
    + lia.
    + rewrite Z.ltb_lt. unfold start in *. split; intros Hn; nia.
Qed.

(** X13.  Paging partitions the scan: pages 1 to [total_pages], put end to
    end, are the key-ordered scan, each user once; every later page that
    stays clear of the int64 limits is empty and has no successor. *)
Theorem GetUserTokensList_partition (pageSize : Z) (ps : t) :
  1 <= pageSize <= 100 ->
  Z.of_nat (length (scanUserTokens ps)) < 2 ^ 62 ->
  concat ((fun i => usersOfPage (Z.of_nat (S i)) pageSize ps)
            <$> seq 0 (Z.to_nat (totalPagesOf pageSize ps)))
  = scanUserTokens ps
  /\ (forall page, totalPagesOf pageSize ps < page -> (page - 1) * pageSize < 2 ^ 62 ->
        exists p, GetUserTokensList page pageSize ps = Ok p
                  /\ Users p = [] /\ HasNext p = false).
Proof.
  intros Hsize Htotal. split.
  - unfold totalPagesOf.
    set (total := Z.of_nat (length (scanUserTokens ps))) in *.
    pose proof (totalPages_bounds total pageSize ltac:(lia) ltac:(lia)) as [Htp1 Htp2].
    set (pages := (total + pageSize - 1) ÷ pageSize) in *.
    assert (Hpages : 0 <= pages) by nia.
    rewrite (list_fmap_ext _ (fun i => pageOf (scanUserTokens ps) (Z.of_nat (S i)) pageSize)).
    + rewrite pageOf_concat by lia. apply take_ge. fold total in Htp2 |- *. nia.
    + intros i x Hi. apply lookup_seq in Hi as [-> Hi]. cbn [Nat.add].
      unfold usersOfPage.
      destruct (GetUserTokensList_in_range (Z.of_nat (S i)) pageSize ps)
        as (p & -> & Hu & _); [lia|lia| |exact Htotal|exact Hu].
      fold total. nia.
  - intros page Hpage Hstart. unfold totalPagesOf in Hpage.
    set (total := Z.of_nat (length (scanUserTokens ps))) in *.
    pose proof (totalPages_bounds total pageSize ltac:(lia) ltac:(lia)) as [Htp1 Htp2].
    destruct (GetUserTokensList_in_range page pageSize ps)
      as (p & Hp & _ & _ & Hempty); [nia|lia|exact Hstart|exact Htotal|].
    exists p. split; [exact Hp|]. apply Hempty. fold total. nia.
Qed.

End PagingShape.

Lemma GetUserTokensList_page_shape_witness :
  exists p,
    PebbleService.GetUserTokensList 2 0 exampleStore = Ok p
    /\ PebbleService.Page p = pageServed 2 /\ PebbleService.PageSize p = pageSizeServed 0
    /\ PebbleService.Total p = Z.of_nat (length (PebbleService.scanUserTokens exampleStore))
    /\ PebbleService.Users p
       = pageOf (PebbleService.scanUserTokens exampleStore) (pageServed 2) (pageSizeServed 0)
    /\ Z.of_nat (length (PebbleService.Users p))
       = Z.max 0 (Z.min (pageSizeServed 0)
                        (PebbleService.Total p - (pageServed 2 - 1) * pageSizeServed 0))
    /\ (PebbleService.TotalPages p - 1) * PebbleService.PageSize p
       < PebbleService.Total p <= PebbleService.TotalPages p * PebbleService.PageSize p
    /\ (PebbleService.HasNext p = true
        <-> PebbleService.Page p * PebbleService.PageSize p < PebbleService.Total p).
Proof.
  apply (GetUserTokensList_page_shape 2 0 exampleStore).
  - vm_compute. reflexivity.
  - vm_compute. reflexivity.
Defined.

Lemma GetUserTokensList_partition_witness :
  concat ((fun i => usersOfPage (Z.of_nat (S i)) 3 exampleStore)
            <$> seq 0 (Z.to_nat (totalPagesOf 3 exampleStore)))
  = PebbleService.scanUserTokens exampleStore
  /\ (forall page, totalPagesOf 3 exampleStore < page -> (page - 1) * 3 < 2 ^ 62 ->
        exists p, PebbleService.GetUserTokensList page 3 exampleStore = Ok p
                  /\ PebbleService.Users p = [] /\ PebbleService.HasNext p = false).
Proof.
  apply (GetUserTokensList_partition 3 exampleStore).
  - lia.
  - vm_compute. reflexivity.
Defined.

(** ** Further properties of the Expo service *)

Section SendingTrace.
Import expo_service.

Lemma singleLoop_trace s message :
  forall (fuel : nat) (retry : Z) (result : SendNotificationResult) (n : Net),
    retry + Z.of_nat fuel = maxRetries s + 1 -> (0 < fuel)%nat ->
    Success result = false -> Error result = None ->
    exists r n' k,
      singleLoop s message fuel retry result n = (Ok r, n')
      /\ (1 <= k <= fuel)%nat
      /\ sent n' = (sent n ++ replicate k [message])%list
      /\ slept n' = (slept n ++ sleepsFrom s retry (k - 1))%list
      /\ Retry r = retry + Z.of_nat k - 1
      /\ Token r = Token result
      /\ (forall i, (i < k - 1)%nat ->
            is_ok (transport (client s) (requests n + i)%nat [message]) = false)
      /\ reports (transport (client s) (requests n + (k - 1))%nat [message]) (k = fuel) r.
Proof.
  induction fuel as [|fuel IH]; intros retry result n Hfuel Hpos Hs He; [lia|].
  cbn [singleLoop]. unfold try. rewrite SendPushNotification_posts. unfold post.
  destruct (transport (client s) (length (sent n)) [message]) as [response|err] eqn:Hout.
  - exists (match Errors response with
            | _ :: _ => setError ErrAPIErrors retry (setRetry retry result)
            | [] => match ResponseData response with
                    | ticket :: _ =>
                        if String.eqb (Status ticket) "ok"
                        then setSuccess (ID ticket) retry (setRetry retry result)
                        else setError ErrPushFailed retry (setRetry retry result)
                    | [] => setError ErrNoResponseData retry (setRetry retry result)
                    end
            end).
    eexists. exists 1%nat. split.
    { destruct (Errors response); [|reflexivity].
      destruct (ResponseData response) as [|ticket ?]; [reflexivity|].
      destruct (String.eqb (Status ticket) "ok"); reflexivity. }
    cbn [sent slept]. split; [lia|]. split; [reflexivity|].
    split; [cbn; rewrite app_nil_r; reflexivity|].
    split.
    { destruct (Errors response); [|cbn; lia].
      destruct (ResponseData response) as [|ticket ?]; [cbn; lia|].
      destruct (String.eqb (Status ticket) "ok"); cbn; lia. }
    split.
    { destruct (Errors response); [|reflexivity].
      destruct (ResponseData response) as [|ticket ?]; [reflexivity|].
      destruct (String.eqb (Status ticket) "ok"); reflexivity. }
    split; [intros i Hi; lia|].
    cbn [Nat.sub]. rewrite Nat.add_0_r. unfold requests. rewrite Hout.
    unfold reports, accepted.
    destruct (Errors response) as [|e es] eqn:Herr.
    + destruct (ResponseData response) as [|ticket rest] eqn:Hdata.
      * cbn. rewrite Hs. split; [|split; [discriminate|eauto]].
        split; [discriminate|]. intros (_ & t & r & Hd & _). discriminate.
      * destruct (String.eqb (Status ticket) "ok") eqn:Hst.
        -- apply String.eqb_eq in Hst. cbn. rewrite He. split; [|split; [auto|discriminate]].
           split; [|reflexivity]. intros _. split; [reflexivity|]. eauto.
        -- apply String.eqb_neq in Hst. cbn. rewrite Hs.
           split; [|split; [discriminate|eauto]].
           split; [discriminate|]. intros (_ & t & r & Hd & Hok). congruence.
    + cbn. rewrite Hs. split; [|split; [discriminate|eauto]].
      split; [discriminate|]. intros (Hnil & _). discriminate.
  - unfold shouldRetry. destruct (retry >=? maxRetries s) eqn:Hlast.
    + eexists. eexists. exists 1%nat. split; [reflexivity|]. cbn [sent slept].
      split; [lia|]. split; [reflexivity|]. split; [cbn; rewrite app_nil_r; reflexivity|].
      split; [cbn; lia|]. split; [reflexivity|]. split; [intros i Hi; lia|].
      cbn [Nat.sub]. rewrite Nat.add_0_r. unfold requests. rewrite Hout.
      cbn. split; [lia|]. rewrite Hs. auto.
    + unfold bind.
      destruct (IH (retry + 1) (setRetry retry result)
                  (snd (waitBeforeRetry s retry
                          {| sent := (sent n ++ [[message]])%list; slept := slept n |})))
        as (r & n' & k & Heq & Hk & Hsent & Hslept & Hretry & Htok & Hfail & Hrep);
        [lia|lia|exact Hs|exact He|].
      assert (Hwait : waitBeforeRetry s retry
                        {| sent := (sent n ++ [[message]])%list; slept := slept n |}
                      = (Ok tt, {| sent := (sent n ++ [[message]])%list;
                                   slept := (slept n ++ if retry =? 0 then []
                                                        else [backoffDelay s retry])%list |})).
      { unfold waitBeforeRetry. destruct (retry =? 0); [|reflexivity].
        unfold ret. rewrite app_nil_r. reflexivity. }
      rewrite Hwait in *. cbn [snd sent slept] in *.
      exists r, n', (S k). split; [exact Heq|]. split; [lia|].
      split; [rewrite Hsent, <- app_assoc; reflexivity|].
      split.
      { rewrite Hslept, <- app_assoc. f_equal.
        replace (S k - 1)%nat with (S (k - 1)) by lia. reflexivity. }
      split; [lia|]. split; [exact Htok|].
      assert (Hreq : forall j, (length (sent n ++ [[message]]) + j)%nat
                               = (length (sent n) + S j)%nat).
      { intros j. rewrite length_app. cbn. lia. }
      unfold requests in *. cbn [sent] in *. split.
      * intros i Hi. destruct i as [|i]; [rewrite Nat.add_0_r, Hout; reflexivity|].
        rewrite <- Hreq. apply Hfail. lia.
      * replace (S k - 1)%nat with (S (k - 1)) by lia. rewrite <- Hreq.
        unfold reports in *.
        destruct (transport (client s) (length (sent n ++ [[message]]) + (k - 1))%nat [message]);
          [exact Hrep|].
        destruct Hrep as (Hlast' & Hrest). split; [lia|exact Hrest].
Qed.

(** X14.  What one single-message send does, whatever the far end answers:
    it posts the same one-message payload [k] times, [1 <= k <= maxRetries+1];
    all posts but the last failed in transport; it sleeps the backoff
    schedule of [k-1] failures; and the result reports the outcome of the
    last post.  A transport error is reported as it came and only after the
    last admitted attempt; a response ends the send at once, as a success
    exactly when it has no API errors and its first ticket is ok. *)
Theorem SendSingleNotification_trace (s : Service) (token title body : string)
    (data : gmap string Value) (n : Net) :
  0 <= maxRetries s ->
  exists r n' k,
    SendSingleNotification s token title body data n = (Ok r, n')
    /\ (1 <= k <= iterations s)%nat
    /\ sent n' = (sent n ++ replicate k [mkMessage token title body data])%list
    /\ slept n' = (slept n ++ sleepsFrom s 0 (k - 1))%list
    /\ Retry r = Z.of_nat k - 1
    /\ Token r = token
    /\ (forall i, (i < k - 1)%nat ->
          is_ok (transport (client s) (requests n + i)%nat
                           [mkMessage token title body data]) = false)
    /\ reports (transport (client s) (requests n + (k - 1))%nat
                          [mkMessage token title body data])
               (k = iterations s) r.
Proof.
  intros Hmax. unfold SendSingleNotification.
  destruct (singleLoop_trace s (mkMessage token title body data) (iterations s) 0
              (newResult token) n)
    as (r & n' & k & Heq & Hk & Hsent & Hslept & Hretry & Htok & Hfail & Hrep);
    [unfold iterations; lia|unfold iterations; lia|reflexivity|reflexivity|].
  exists r, n', k. repeat (split; [first [assumption|lia]|]). exact Hrep.
Qed.

End SendingTrace.

Lemma SendSingleNotification_trace_witness :
  exists r n' k,
    expo_service.SendSingleNotification failsTwiceService
      "ExponentPushToken[aaaaaaaaaaaa]" "title" "body" ∅ expo_service.Net0 = (Ok r, n')
    /\ (1 <= k <= expo_service.iterations failsTwiceService)%nat
    /\ expo_service.sent n'
       = (expo_service.sent expo_service.Net0
          ++ replicate k [expo_service.mkMessage "ExponentPushToken[aaaaaaaaaaaa]"
                            "title" "body" ∅])%list
    /\ expo_service.slept n'
       = (expo_service.slept expo_service.Net0 ++ sleepsFrom failsTwiceService 0 (k - 1))%list
    /\ expo_service.Retry r = Z.of_nat k - 1
    /\ expo_service.Token r = "ExponentPushToken[aaaaaaaaaaaa]"
    /\ (forall i, (i < k - 1)%nat ->
          is_ok (expo_service.transport (expo_service.client failsTwiceService)
                   (requests expo_service.Net0 + i)%nat
                   [expo_service.mkMessage "ExponentPushToken[aaaaaaaaaaaa]"
                      "title" "body" ∅]) = false)
    /\ reports (expo_service.transport (expo_service.client failsTwiceService)
                  (requests expo_service.Net0 + (k - 1))%nat
                  [expo_service.mkMessage "ExponentPushToken[aaaaaaaaaaaa]" "title" "body" ∅])
               (k = expo_service.iterations failsTwiceService) r.
Proof.
  apply (SendSingleNotification_trace failsTwiceService "ExponentPushToken[aaaaaaaaaaaa]"
           "title" "body" ∅ expo_service.Net0).
  cbn. lia.
Defined.

Section SendingBatches.
Import expo_service.

Lemma Token_failAll err retry results :
  Token <$> failAll err retry results = Token <$> results.
Proof.
  unfold failAll. rewrite <- list_fmap_compose. apply list_fmap_ext.
  intros i r _. cbn. destruct (Success r); reflexivity.
Qed.

Lemma Token_applyTickets retry tickets :
  forall results, Token <$> applyTickets retry tickets results = Token <$> results.
Proof.
  induction tickets as [|ticket tickets IH]; intros [|r results]; try reflexivity.
  cbn [applyTickets fmap list_fmap]. rewrite <- (IH results).
  destruct (String.eqb (Status ticket) "ok"); reflexivity.
Qed.

Lemma batchLoop_trace s messages :
  (0 < length messages <= 100)%nat ->
  forall (fuel : nat) (retry : Z) (results : list SendNotificationResult) (n : Net),
    retry + Z.of_nat fuel = maxRetries s + 1 -> (0 < fuel)%nat ->
    exists results' n' j,
      batchLoop s messages fuel retry results n = (Ok results', n')
      /\ (1 <= j <= fuel)%nat
      /\ sent n' = (sent n ++ replicate j messages)%list
      /\ slept n' = (slept n ++ sleepsFrom s retry (j - 1))%list
      /\ Token <$> results' = Token <$> results.
Proof.
  intros Hlen. induction fuel as [|fuel IH]; intros retry results n Hfuel Hpos; [lia|].
  cbn [batchLoop]. unfold try. rewrite SendPushNotifications_posts by exact Hlen.
  unfold post.
  destruct (transport (client s) (length (sent n)) messages) as [response|err].
  - destruct (Errors response);
      (eexists; eexists; exists 1%nat; split; [reflexivity|]; cbn [sent slept];
       split; [lia|]; split; [reflexivity|];
       split; [cbn; rewrite app_nil_r; reflexivity|]);
      [apply Token_applyTickets|apply Token_failAll].
  - unfold shouldRetry. destruct (retry >=? maxRetries s) eqn:Hlast.
    + eexists. eexists. exists 1%nat. split; [reflexivity|]. cbn [sent slept].
      split; [lia|]. split; [reflexivity|]. split; [cbn; rewrite app_nil_r; reflexivity|].
      apply Token_failAll.
    + unfold bind.
      assert (Hwait : waitBeforeRetry s retry
                        {| sent := (sent n ++ [messages])%list; slept := slept n |}
                      = (Ok tt, {| sent := (sent n ++ [messages])%list;
                                   slept := (slept n ++ if retry =? 0 then []
                                                        else [backoffDelay s retry])%list |})).
      { unfold waitBeforeRetry. destruct (retry =? 0); [|reflexivity].
        unfold ret. rewrite app_nil_r. reflexivity. }
      rewrite Hwait.
      destruct (IH (retry + 1) results
                  {| sent := (sent n ++ [messages])%list;
                     slept := (slept n ++ if retry =? 0 then []
                                          else [backoffDelay s retry])%list |})
        as (results' & n' & j & Heq & Hj & Hsent & Hslept & Htok); [lia|lia|].
      cbn [sent slept] in *.
      exists results', n', (S j). split; [exact Heq|]. split; [lia|].
      split; [rewrite Hsent, <- app_assoc; reflexivity|]. split; [|exact Htok].
      rewrite Hslept, <- app_assoc. f_equal.
      replace (S j - 1)%nat with (S (j - 1)) by lia. reflexivity.
Qed.

Lemma chunks_fmap {A B} (f : A -> B) size :
  forall fuel (l : list A),
    chunks size fuel (f <$> l) = (fun c : list A => f <$> c) <$> chunks size fuel l.
Proof.
  induction fuel as [|fuel IH]; intros [|a l]; try reflexivity.
  change (f <$> a :: l) with (f a :: (f <$> l)). cbn [chunks].
  change (f a :: (f <$> l)) with (f <$> a :: l).
  rewrite <- fmap_take, <- fmap_drop, IH. reflexivity.
Qed.

Lemma chunks_concat {A} size :
  (0 < size)%nat ->
  forall fuel (l : list A), (length l <= fuel)%nat -> concat (chunks size fuel l) = l.
Proof.
  intros Hsize. induction fuel as [|fuel IH]; intros [|a l] Hl; try reflexivity.
  - cbn in Hl. lia.
  - cbn [chunks concat]. rewrite IH; [apply take_drop|].
    rewrite length_drop. cbn [length] in *. lia.
Qed.

Lemma chunks_sizes {A} size :
  (0 < size)%nat ->
  forall fuel (l : list A),
    Forall (fun c => (1 <= length c <= size)%nat) (chunks size fuel l).
Proof.
  intros Hsize. induction fuel as [|fuel IH]; intros [|a l]; try constructor.
  - rewrite length_take. cbn [length]. lia.
  - apply IH.
Qed.

Lemma MaxMessagesPerRequest_nat : Z.to_nat MaxMessagesPerRequest = 100%nat.
Proof. reflexivity. Qed.

Lemma bulkLoop_trace s title body data :
  0 <= maxRetries s ->
  forall (fuel : nat) (tokens : list string) (n : Net),
    (length tokens <= fuel)%nat ->
    exists results n' js,
      bulkLoop s fuel tokens title body data n = (Ok results, n')
      /\ Token <$> results = tokens
      /\ length js = length (chunks 100 fuel tokens)
      /\ Forall (fun j => (1 <= j <= iterations s)%nat) js
      /\ sent n' = (sent n ++ concat (zip_with replicate js
                      (chunks 100 fuel ((fun token => mkMessage token title body data)
                                        <$> tokens))))%list
      /\ slept n' = (slept n ++ concat ((fun j => sleepsFrom s 0 (j - 1)) <$> js))%list.
Proof.
  intros Hmax. induction fuel as [|fuel IH]; intros tokens n Hlen.
  - destruct tokens; [|cbn in Hlen; lia]. exists [], n, []. cbn.
    rewrite !app_nil_r. auto 10.
  - destruct tokens as [|token tokens].
    { exists [], n, []. cbn. rewrite !app_nil_r. auto 10. }
    cbn [bulkLoop]. rewrite MaxMessagesPerRequest_nat. unfold bind at 1. unfold sendBatch.
    set (batch := take 100 (token :: tokens)).
    set (rest := drop 100 (token :: tokens)).
    assert (Hbatch : (0 < length batch <= 100)%nat).
    { unfold batch. rewrite length_take. cbn [length]. lia. }
    destruct (batchLoop_trace s ((fun token => mkMessage token title body data) <$> batch)
                ltac:(rewrite length_fmap; exact Hbatch)
                (iterations s) 0 (newResult <$> batch) n)
      as (results1 & n1 & j & Heq1 & Hj & Hsent1 & Hslept1 & Htok1);
      [unfold iterations; lia|unfold iterations; lia|].
    rewrite Heq1.
    destruct (IH rest n1) as (results2 & n2 & js & Heq2 & Htok2 & Hjs & Hall & Hsent2 & Hslept2).
    { unfold rest. rewrite length_drop. cbn [length] in *. lia. }
    unfold bind. rewrite Heq2. exists (results1 ++ results2)%list, n2, (j :: js).
    split; [reflexivity|]. split.
    { rewrite fmap_app, Htok1, Htok2, <- list_fmap_compose.
      rewrite (list_fmap_ext _ id batch) by (intros; reflexivity).
      rewrite list_fmap_id. apply take_drop. }
    change (chunks 100 (S fuel) (token :: tokens)) with (batch :: chunks 100 fuel rest).
    split; [cbn [length]; rewrite Hjs; reflexivity|].
    split; [constructor; [exact Hj|exact Hall]|].
    split.
    + rewrite Hsent2, Hsent1, <- app_assoc. f_equal.
      change ((fun token0 => mkMessage token0 title body data) <$> token :: tokens)
        with (mkMessage token title body data
              :: ((fun token0 => mkMessage token0 title body data) <$> tokens)).
      cbn [chunks zip_with concat].
      change (mkMessage token title body data
              :: ((fun token0 => mkMessage token0 title body data) <$> tokens))
        with ((fun token0 => mkMessage token0 title body data) <$> token :: tokens).
      rewrite <- fmap_take, <- fmap_drop. reflexivity.
    + rewrite Hslept2, Hslept1, <- app_assoc. reflexivity.
Qed.

(** X15.  [SendBulkNotifications] cuts the tokens into consecutive batches
    of at most 100 and sends batch after batch: every request carries one
    whole batch, a batch is posted between once and [maxRetries + 1] times
    before the next one starts, and the results come back one per token,
    in the order of the tokens. *)
Theorem SendBulkNotifications_batches (s : Service) (tokens : list string)
    (title body : string) (data : gmap string Value) (n : Net) :
  0 <= maxRetries s ->
  exists results n' js,
    SendBulkNotifications s tokens title body data n = (Ok results, n')
    /\ Token <$> results = tokens
    /\ length js = length (batchesOf tokens)
    /\ Forall (fun j => (1 <= j <= iterations s)%nat) js
    /\ sent n' = (sent n ++ concat (zip_with replicate js
                    (batchesOf ((fun token => mkMessage token title body data)
                                <$> tokens))))%list
    /\ slept n' = (slept n ++ concat ((fun j => sleepsFrom s 0 (j - 1)) <$> js))%list
    /\ concat (batchesOf tokens) = tokens
    /\ Forall (fun batch => (1 <= length batch <= 100)%nat) (batchesOf tokens).
Proof.
  intros Hmax. unfold SendBulkNotifications, batchesOf.
  destruct (bulkLoop_trace s title body data Hmax (length tokens) tokens n (le_n _))
    as (results & n' & js & Heq & Htok & Hjs & Hall & Hsent & Hslept).
  exists results, n', js. rewrite length_fmap.
  split; [exact Heq|]. split; [exact Htok|]. split; [exact Hjs|]. split; [exact Hall|].
  split; [exact Hsent|]. split; [exact Hslept|].
  split; [apply chunks_concat; lia|apply chunks_sizes; lia].
Qed.

Lemma batchLoop_answered s messages response fuel retry results n :
  (0 < length messages <= 100)%nat ->
  transport (client s) (length (sent n)) messages = Ok response ->
  batchLoop s messages (S fuel) retry results n
  = (Ok (match Errors response with
         | _ :: _ => failAll ErrAPIErrors retry results
         | [] => applyTickets retry (ResponseData response) results
         end),
     {| sent := (sent n ++ [messages])%list; slept := slept n |}).
Proof.
  intros Hlen Hout. cbn [batchLoop]. unfold try.
  rewrite SendPushNotifications_posts by exact Hlen. unfold post. rewrite Hout.
  destruct (Errors response); reflexivity.
Qed.

Lemma chunks_length {A} :
  forall fuel (l : list A), (length l <= fuel)%nat ->
    Z.of_nat (length (chunks 100 fuel l)) = (Z.of_nat (length l) + 99) / 100.
Proof.
  induction fuel as [|fuel IH]; intros [|a l] Hl; try reflexivity.
  - cbn in Hl. lia.
  - cbn [chunks length]. rewrite Nat2Z.inj_succ, IH
      by (rewrite length_drop; cbn [length] in *; lia).
    rewrite length_drop. cbn [length].
    destruct (decide (S (length l) <= 100)%nat) as [Hsmall|Hbig].
    + replace (S (length l) - 100)%nat with 0%nat by lia.
      change (Z.of_nat 0 + 99) with 99. rewrite (Z.div_small 99 100) by lia.
      apply Z.div_unique with (r := Z.of_nat (S (length l)) + 99 - 100); lia.
    + replace (Z.of_nat (S (length l)) + 99)
        with (Z.of_nat (S (length l) - 100) + 99 + 1 * 100) by lia.
      rewrite Z.div_add by lia. lia.
Qed.

(** X16.  When the far end answers every request (with whatever response),
    [SendBulkNotifications] posts each batch exactly once, in order, and
    never sleeps: [ceil(len(tokens) / 100)] requests in all. *)
Theorem SendBulkNotifications_answered (s : Service) (tokens : list string)
    (title body : string) (data : gmap string Value) (n : Net) :
  0 <= maxRetries s ->
  (forall k messages, is_ok (transport (client s) k messages) = true) ->
  exists results n',
    SendBulkNotifications s tokens title body data n = (Ok results, n')
    /\ sent n' = (sent n ++ batchesOf ((fun token => mkMessage token title body data)
                                       <$> tokens))%list
    /\ slept n' = slept n
    /\ Z.of_nat (requests n') = Z.of_nat (requests n) + (Z.of_nat (length tokens) + 99) / 100.
Proof.
  intros Hmax Hanswer. unfold SendBulkNotifications, batchesOf. rewrite length_fmap.
  assert (Hloop : forall fuel tokens n,
            exists results n',
              bulkLoop s fuel tokens title body data n = (Ok results, n')
              /\ sent n' = (sent n ++ chunks 100 fuel
                              ((fun token => mkMessage token title body data) <$> tokens))%list
              /\ slept n' = slept n).
  { clear n tokens. induction fuel as [|fuel IH]; intros tokens n.
    - exists [], n. cbn. rewrite app_nil_r. destruct tokens; auto.
    - destruct tokens as [|token tokens].
      { exists [], n. cbn. rewrite app_nil_r. auto. }
      cbn [bulkLoop]. rewrite MaxMessagesPerRequest_nat. unfold bind at 1. unfold sendBatch.
      set (batch := take 100 (token :: tokens)).
      set (rest := drop 100 (token :: tokens)).
      assert (Hbatch : (0 < length ((fun token => mkMessage token title body data) <$> batch)
                        <= 100)%nat).
      { rewrite length_fmap. unfold batch. rewrite length_take. cbn [length]. lia. }
      pose proof (Hanswer (length (sent n))
                    ((fun token => mkMessage token title body data) <$> batch)) as Hok.
      destruct (transport (client s) (length (sent n))
                  ((fun token => mkMessage token title body data) <$> batch))
        as [response|] eqn:Hout; [|discriminate].
      assert (Hit : iterations s = S (Z.to_nat (maxRetries s))) by (unfold iterations; lia).
      rewrite Hit, (batchLoop_answered s _ response _ _ _ _ Hbatch Hout).
      destruct (IH rest {| sent := (sent n ++ [(fun token => mkMessage token title body data)
                                                <$> batch])%list;
                           slept := slept n |})
        as (results2 & n2 & Heq2 & Hsent2 & Hslept2).
      unfold bind. rewrite Heq2. eexists. exists n2. split; [reflexivity|].
      split; [|exact Hslept2]. rewrite Hsent2. cbn [sent]. rewrite <- app_assoc.
      f_equal.
      change ((fun token0 => mkMessage token0 title body data) <$> token :: tokens)
        with (mkMessage token title body data
              :: ((fun token0 => mkMessage token0 title body data) <$> tokens)).
      cbn [chunks app].
      change (mkMessage token title body data
              :: ((fun token0 => mkMessage token0 title body data) <$> tokens))
        with ((fun token0 => mkMessage token0 title body data) <$> token :: tokens).
      rewrite <- fmap_take, <- fmap_drop. reflexivity. }
  destruct (Hloop (length tokens) tokens n) as (results & n' & Heq & Hsent & Hslept).
  exists results, n'. split; [exact Heq|]. split; [exact Hsent|]. split; [exact Hslept|].
  unfold requests. rewrite Hsent, length_app, Nat2Z.inj_add, chunks_length
    by (rewrite length_fmap; lia).
  rewrite length_fmap. reflexivity.
Qed.

Lemma applyTickets_lookup retry :
  forall tickets results i,
    applyTickets retry tickets results !! i
    = match tickets !! i, results !! i with
      | Some ticket, Some r =>
          Some (if String.eqb (Status ticket) "ok"
                then setSuccess (ID ticket) retry r
                else setError ErrPushFailed retry r)
      | _, r => r
      end.
Proof.
  induction tickets as [|ticket tickets IH]; intros results i.
  - destruct results; reflexivity.
  - destruct results as [|r results].
    + cbn [applyTickets]. change (@nil SendNotificationResult !! i) with (@None SendNotificationResult).
      destruct ((ticket :: tickets) !! i); reflexivity.
    + destruct i as [|i]; [reflexivity|]. exact (IH results i).
Qed.

(** X17.  How [sendBatch] reads an answered request: tickets are matched to
    tokens by position; a token whose ticket is ok is a success with the
    ticket's id, one whose ticket is not ok is a push failure, and a token
    for which the response holds no ticket comes back marked neither as
    sent nor as failed. *)
Theorem sendBatch_tickets_by_position (s : Service) (tokens : list string)
    (title body : string) (data : gmap string Value) (response : PushResponse) (n : Net) :
  (0 < length tokens <= 100)%nat ->
  0 <= maxRetries s ->
  transport (client s) (requests n)
            ((fun token => mkMessage token title body data) <$> tokens) = Ok response ->
  Errors response = [] ->
  exists results n',
    sendBatch s tokens title body data n = (Ok results, n')
    /\ sent n' = (sent n ++ [(fun token => mkMessage token title body data) <$> tokens])%list
    /\ slept n' = slept n
    /\ forall i token, tokens !! i = Some token ->
         exists r, results !! i = Some r /\ Token r = token
           /\ match ResponseData response !! i with
              | Some ticket =>
                  (Success r = true <-> Status ticket = "ok")
                  /\ (Success r = true -> ReceiptID r = ID ticket /\ Error r = None)
                  /\ (Success r = false -> Error r = Some ErrPushFailed)
              | None => Success r = false /\ Error r = None
              end.
Proof.
  intros Hlen Hmax Hout Hnoerr. unfold sendBatch.
  assert (Hit : iterations s = S (Z.to_nat (maxRetries s))) by (unfold iterations; lia).
  assert (Hlen' : (0 < length ((fun token => mkMessage token title body data) <$> tokens)
                   <= 100)%nat) by (rewrite length_fmap; exact Hlen).
  rewrite Hit, (batchLoop_answered s _ response _ _ _ _ Hlen' Hout), Hnoerr.
  eexists. eexists. split; [reflexivity|]. cbn [sent slept].
  split; [reflexivity|]. split; [reflexivity|].
  intros i token Hi. rewrite applyTickets_lookup, list_lookup_fmap, Hi. cbn [fmap option_fmap option_map].
  destruct (ResponseData response !! i) as [ticket|].
  - eexists. split; [reflexivity|].
    destruct (String.eqb (Status ticket) "ok") eqn:Hst.
    + apply String.eqb_eq in Hst. cbn. split; [reflexivity|].
      split; [tauto|]. split; [auto|discriminate].
    + apply String.eqb_neq in Hst. cbn. split; [reflexivity|].
      split; [split; [discriminate|contradiction]|]. split; [discriminate|reflexivity].
  - eexists. split; [reflexivity|]. cbn. auto.
Qed.

End SendingBatches.

Lemma SendBulkNotifications_batches_witness :
  exists results n' js,
    expo_service.SendBulkNotifications failsTwiceService
      ["ExponentPushToken[aaaaaaaaaaaa]"; "ExponentPushToken[bbbbbbbbbbbb]"]
      "title" "body" ∅ expo_service.Net0 = (Ok results, n')
    /\ expo_service.Token <$> results
       = ["ExponentPushToken[aaaaaaaaaaaa]"; "ExponentPushToken[bbbbbbbbbbbb]"]
    /\ length js
       = length (batchesOf ["ExponentPushToken[aaaaaaaaaaaa]";
                            "ExponentPushToken[bbbbbbbbbbbb]"])
    /\ Forall (fun j => (1 <= j <= expo_service.iterations failsTwiceService)%nat) js
    /\ expo_service.sent n'
       = (expo_service.sent expo_service.Net0
          ++ concat (zip_with replicate js
               (batchesOf ((fun token => expo_service.mkMessage token "title" "body" ∅)
                           <$> ["ExponentPushToken[aaaaaaaaaaaa]";
                                "ExponentPushToken[bbbbbbbbbbbb]"]))))%list
    /\ expo_service.slept n'
       = (expo_service.slept expo_service.Net0
          ++ concat ((fun j => sleepsFrom failsTwiceService 0 (j - 1)) <$> js))%list
    /\ concat (batchesOf ["ExponentPushToken[aaaaaaaaaaaa]"; "ExponentPushToken[bbbbbbbbbbbb]"])
       = ["ExponentPushToken[aaaaaaaaaaaa]"; "ExponentPushToken[bbbbbbbbbbbb]"]
    /\ Forall (fun batch => (1 <= length batch <= 100)%nat)
              (batchesOf ["ExponentPushToken[aaaaaaaaaaaa]";
                          "ExponentPushToken[bbbbbbbbbbbb]"]).
Proof.
  apply (SendBulkNotifications_batches failsTwiceService
           ["ExponentPushToken[aaaaaaaaaaaa]"; "ExponentPushToken[bbbbbbbbbbbb]"]
           "title" "body" ∅ expo_service.Net0).
  cbn. lia.
Defined.

Lemma SendBulkNotifications_answered_witness :
  exists results n',
    expo_service.SendBulkNotifications (expo_service.service exampleManager)
      ["ExponentPushToken[aaaaaaaaaaaa]"; "ExponentPushToken[bbbbbbbbbbbb]"]
      "title" "body" ∅ expo_service.Net0 = (Ok results, n')
    /\ expo_service.sent n'
       = (expo_service.sent expo_service.Net0
          ++ batchesOf ((fun token => expo_service.mkMessage token "title" "body" ∅)
                        <$> ["ExponentPushToken[aaaaaaaaaaaa]";
                             "ExponentPushToken[bbbbbbbbbbbb]"]))%list
    /\ expo_service.slept n' = expo_service.slept expo_service.Net0
    /\ Z.of_nat (requests n')
       = Z.of_nat (requests expo_service.Net0)
         + (Z.of_nat (length ["ExponentPushToken[aaaaaaaaaaaa]";
                              "ExponentPushToken[bbbbbbbbbbbb]"]) + 99) / 100.
Proof.
  apply (SendBulkNotifications_answered (expo_service.service exampleManager)
           ["ExponentPushToken[aaaaaaaaaaaa]"; "ExponentPushToken[bbbbbbbbbbbb]"]
           "title" "body" ∅ expo_service.Net0).
  - cbn. lia.
  - intros k messages. reflexivity.
Defined.

Lemma sendBatch_tickets_by_position_witness :
  exists results n',
    expo_service.sendBatch (expo_service.service exampleManager)
      ["ExponentPushToken[aaaaaaaaaaaa]"; "ExponentPushToken[bbbbbbbbbbbb]"]
      "title" "body" ∅ expo_service.Net0 = (Ok results, n')
    /\ expo_service.sent n'
       = (expo_service.sent expo_service.Net0
          ++ [(fun token => expo_service.mkMessage token "title" "body" ∅)
              <$> ["ExponentPushToken[aaaaaaaaaaaa]";
                   "ExponentPushToken[bbbbbbbbbbbb]"]])%list
    /\ expo_service.slept n' = expo_service.slept expo_service.Net0
    /\ forall i token,
         ["ExponentPushToken[aaaaaaaaaaaa]"; "ExponentPushToken[bbbbbbbbbbbb]"] !! i
         = Some token ->
         exists r, results !! i = Some r /\ expo_service.Token r = token
           /\ match expo_service.ResponseData
                      (okResponse ((fun token => expo_service.mkMessage token "title" "body" ∅)
                                   <$> ["ExponentPushToken[aaaaaaaaaaaa]";
                                        "ExponentPushToken[bbbbbbbbbbbb]"])) !! i with
              | Some ticket =>
                  (expo_service.Success r = true <-> expo_service.Status ticket = "ok")
                  /\ (expo_service.Success r = true ->
                      expo_service.ReceiptID r = expo_service.ID ticket
                      /\ expo_service.Error r = None)
                  /\ (expo_service.Success r = false ->
                      expo_service.Error r = Some ErrPushFailed)
              | None => expo_service.Success r = false /\ expo_service.Error r = None
              end.
Proof.
  apply (sendBatch_tickets_by_position (expo_service.service exampleManager)
           ["ExponentPushToken[aaaaaaaaaaaa]"; "ExponentPushToken[bbbbbbbbbbbb]"]
           "title" "body" ∅
           (okResponse ((fun token => expo_service.mkMessage token "title" "body" ∅)
                        <$> ["ExponentPushToken[aaaaaaaaaaaa]";
                             "ExponentPushToken[bbbbbbbbbbbb]"]))
           expo_service.Net0).
  - cbn. lia.
  - cbn. lia.
  - reflexivity.
  - reflexivity.
Defined.

Section CustomMessage.
Import expo_service.

(** X18.  [SendCustomMessage] addresses one token only: without a valid
    token it fails before any request; otherwise every payload it posts is
    a single message to the first valid token with the title, body and data
    handed in, and with no TTL and no priority, whatever the message and
    the configured defaults say. *)
Theorem SendCustomMessage_first_valid_token (m : Manager) (message : PushMessage) (n : Net) :
  0 <= maxRetries (service m) ->
  (List.filter ValidateToken (To message) = [] ->
   exists e, SendCustomMessage m message n = (Err e, n))
  /\ (forall first rest, List.filter ValidateToken (To message) = first :: rest ->
      exists r n' k payload,
        SendCustomMessage m message n = (Ok r, n')
        /\ (1 <= k <= iterations (service m))%nat
        /\ Token r = first
        /\ sent n' = (sent n ++ replicate k [payload])%list
        /\ To payload = [first]
        /\ Title payload = Title message /\ Body payload = Body message
        /\ Data payload = Data message
        /\ TTL payload = 0 /\ Priority payload = "" /\ Badge payload = None).
Proof.
  intros Hmax. unfold SendCustomMessage. split.
  - intros Hnone. rewrite Hnone. destruct (To message); eexists; reflexivity.
  - intros first rest Hsome. rewrite Hsome.
    destruct (To message) as [|t ts] eqn:Hto; [discriminate|].
    unfold SendSingleNotification. cbn [Title Body Data applyDefaults].
    destruct (singleLoop_trace (service m)
                (mkMessage first (Title message) (Body message) (Data message))
                (iterations (service m)) 0 (newResult first) n)
      as (r & n' & k & Heq & Hk & Hsent & _ & _ & Htok & _);
      [unfold iterations; lia|unfold iterations; lia|reflexivity|reflexivity|].
    exists r, n', k. eexists. split; [exact Heq|]. split; [exact Hk|]. split; [exact Htok|].
    split; [exact Hsent|]. cbn. auto 10.
Qed.

End CustomMessage.

Lemma SendCustomMessage_first_valid_token_witness :
  (List.filter expo_service.ValidateToken
     (expo_service.To (push_service.buildExpoMessage "ExponentPushToken[1xxxxxxxxxxxx]"
                         exampleNotification)) = [] ->
   exists e, expo_service.SendCustomMessage exampleManager
               (push_service.buildExpoMessage "ExponentPushToken[1xxxxxxxxxxxx]"
                  exampleNotification) expo_service.Net0 = (Err e, expo_service.Net0))
  /\ (forall first rest,
        List.filter expo_service.ValidateToken
          (expo_service.To (push_service.buildExpoMessage "ExponentPushToken[1xxxxxxxxxxxx]"
                              exampleNotification)) = first :: rest ->
        exists r n' k payload,
          expo_service.SendCustomMessage exampleManager
            (push_service.buildExpoMessage "ExponentPushToken[1xxxxxxxxxxxx]"
               exampleNotification) expo_service.Net0 = (Ok r, n')
          /\ (1 <= k <= expo_service.iterations (expo_service.service exampleManager))%nat
          /\ expo_service.Token r = first
          /\ expo_service.sent n'
             = (expo_service.sent expo_service.Net0 ++ replicate k [payload])%list
          /\ expo_service.To payload = [first]
          /\ expo_service.Title payload
             = expo_service.Title
                 (push_service.buildExpoMessage "ExponentPushToken[1xxxxxxxxxxxx]"
                    exampleNotification)
          /\ expo_service.Body payload
             = expo_service.Body
                 (push_service.buildExpoMessage "ExponentPushToken[1xxxxxxxxxxxx]"
                    exampleNotification)
          /\ expo_service.Data payload
             = expo_service.Data
                 (push_service.buildExpoMessage "ExponentPushToken[1xxxxxxxxxxxx]"
                    exampleNotification)
          /\ expo_service.TTL payload = 0 /\ expo_service.Priority payload = ""
          /\ expo_service.Badge payload = None).
Proof.
  apply (SendCustomMessage_first_valid_token exampleManager
           (push_service.buildExpoMessage "ExponentPushToken[1xxxxxxxxxxxx]"
              exampleNotification) expo_service.Net0).
  cbn. lia.
Defined.

Section Configuration.
Import expo_service_config.

(** X19.  A configuration run through [ApplyDefaults] and then [Validate],
    as the manager does with every configuration it is given, has a
    positive timeout and base delay, a batch size between 1 and 100, at
    least one concurrent request, a default sound, a non-zero default TTL,
    priority normal or high, and a retry count that is never negative.  A
    retry count of 0 is read as unset and becomes 3; only a negative one
    ends as 0. *)
Theorem Config_normalised (c : Config) :
  0 < Timeout (Validate (ApplyDefaults c))
  /\ 0 < BaseDelay (Validate (ApplyDefaults c))
  /\ 1 <= BatchSize (Validate (ApplyDefaults c)) <= 100
  /\ 1 <= MaxConcurrency (Validate (ApplyDefaults c))
  /\ DefaultSound (Validate (ApplyDefaults c)) <> ""
  /\ DefaultTTL (Validate (ApplyDefaults c)) <> 0
  /\ (DefaultPriority (Validate (ApplyDefaults c)) = "normal"
      \/ DefaultPriority (Validate (ApplyDefaults c)) = "high")
  /\ 0 <= MaxRetries (Validate (ApplyDefaults c))
  /\ (MaxRetries c = 0 -> MaxRetries (Validate (ApplyDefaults c)) = 3)
  /\ (MaxRetries (Validate (ApplyDefaults c)) = 0 <-> MaxRetries c < 0)
  /\ (0 < MaxRetries c -> MaxRetries (Validate (ApplyDefaults c)) = MaxRetries c).
Proof.
  unfold Validate, ApplyDefaults, DefaultConfig, Second, expo_service.MaxMessagesPerRequest.
  cbn [Timeout BaseDelay BatchSize MaxConcurrency DefaultSound DefaultTTL DefaultPriority
       MaxRetries].
  split; [destruct (Timeout c =? 0) eqn:E1; destruct (_ <? 0) eqn:E2; lia|].
  split; [destruct (BaseDelay c =? 0) eqn:E1; destruct (_ <? 0) eqn:E2; lia|].
  split; [destruct (BatchSize c =? 0) eqn:E1; destruct (_ <=? 0) eqn:E2;
          destruct (_ >? 100) eqn:E3; lia|].
  split; [destruct (MaxConcurrency c =? 0) eqn:E1; destruct (_ <=? 0) eqn:E2; lia|].
  split; [destruct (String.eqb (DefaultSound c) "") eqn:E;
          [discriminate|apply String.eqb_neq, E]|].
  split; [destruct (DefaultTTL c =? 0) eqn:E; lia|].
  split.
  { destruct (String.eqb (DefaultPriority c) "") eqn:E.
    - left. reflexivity.
    - destruct (String.eqb (DefaultPriority c) "normal") eqn:E1;
        [left; apply String.eqb_eq, E1|].
      destruct (String.eqb (DefaultPriority c) "high") eqn:E2;
        [right; apply String.eqb_eq, E2|left; reflexivity]. }
  destruct (MaxRetries c =? 0) eqn:E1; destruct (_ <? 0) eqn:E2; lia.
Qed.

End Configuration.

(** ** Further properties of the dispatcher *)

Section DispatcherResults.
Import push_service.

Lemma sendAll_shape notification l :
  forall n, exists rs n',
    sendAll notification l n = (Ok rs, n')
    /\ (fun r => (MetaID r, Platform r, Token r)) <$> rs
       = (fun a => (attemptMetaId a, attemptPlatform a, attemptToken a)) <$> l.
Proof.
  induction l as [|a l IH]; intros n.
  - exists [], n. split; reflexivity.
  - cbn [sendAll]. unfold bind.
    assert (Hone : exists r n1,
               sendSingleNotification (attemptMetaId a) (attemptPlatform a) (attemptToken a)
                 (attemptProvider a) notification n = (Ok r, n1)
               /\ MetaID r = attemptMetaId a /\ Platform r = attemptPlatform a
               /\ Token r = attemptToken a).
    { unfold sendSingleNotification.
      destruct (negb (ValidateToken (attemptProvider a) (attemptToken a))).
      - eexists _, _. split; [reflexivity|]. auto.
      - unfold try.
        destruct (SendNotification (attemptProvider a) (attemptToken a) notification n)
          as [[r|e] n1]; eexists _, _; (split; [reflexivity|]); auto. }
    destruct Hone as (r & n1 & -> & Hm & Hp & Ht).
    destruct (IH n1) as (rs & n' & -> & Hall).
    exists (r :: rs), n'. split; [reflexivity|].
    cbn [fmap list_fmap]. rewrite Hm, Hp, Ht. f_equal. exact Hall.
Qed.

Lemma attemptsOfUser_spec s metaId ut a :
  a ∈ attemptsOfUser s metaId ut
  <-> attemptMetaId a = metaId
      /\ models.Tokens ut !! attemptPlatform a = Some (attemptToken a)
      /\ providers s !! attemptPlatform a = Some (attemptProvider a).
Proof.
  unfold attemptsOfUser. rewrite list_elem_of_omap. split.
  - intros ([platform token] & Hin & Ha). apply elem_of_map_to_list in Hin.
    destruct (providers s !! platform) eqn:Hp; [|discriminate].
    injection Ha as <-. cbn. auto.
  - intros (Hm & Ht & Hp). exists (attemptPlatform a, attemptToken a).
    split; [apply elem_of_map_to_list, Ht|]. rewrite Hp, <- Hm. destruct a; reflexivity.
Qed.

Lemma attemptsOfUser_platforms s metaId ut :
  NoDup (attemptPlatform <$> attemptsOfUser s metaId ut).
Proof.
  unfold attemptsOfUser.
  apply (sublist_NoDup _ ((map_to_list (models.Tokens ut)).*1));
    [apply NoDup_fst_map_to_list|].
  induction (map_to_list (models.Tokens ut)) as [|[platform token] l IH]; [constructor|].
  cbn [omap list_omap fmap list_fmap fst].
  destruct (providers s !! platform); cbn [fmap list_fmap attemptPlatform].
  - apply sublist_skip, IH.
  - apply sublist_cons, IH.
Qed.

Lemma attempts_spec s (allUserTokens : gmap string models.UserPushTokens) a :
  a ∈ attempts s allUserTokens
  <-> exists ut, allUserTokens !! attemptMetaId a = Some ut
                 /\ models.Tokens ut !! attemptPlatform a = Some (attemptToken a)
                 /\ providers s !! attemptPlatform a = Some (attemptProvider a).
Proof.
  unfold attempts. rewrite list_elem_of_bind. split.
  - intros ([metaId ut] & Ha & Hin). apply elem_of_map_to_list in Hin.
    apply attemptsOfUser_spec in Ha as (Hm & Ht & Hp). exists ut. rewrite Hm. auto.
  - intros (ut & Hall & Ht & Hp). exists (attemptMetaId a, ut).
    split; [apply attemptsOfUser_spec; auto|apply elem_of_map_to_list, Hall].
Qed.

Lemma attempts_keys s (allUserTokens : gmap string models.UserPushTokens) :
  NoDup ((fun a => (attemptMetaId a, attemptPlatform a)) <$> attempts s allUserTokens).
Proof.
  apply NoDup_fmap_2_strong.
  - intros a1 a2 (ut1 & Hu1 & Ht1 & Hp1)%attempts_spec (ut2 & Hu2 & Ht2 & Hp2)%attempts_spec
           [= Hm Hp].
    rewrite Hm in Hu1. rewrite Hu1 in Hu2. injection Hu2 as <-.
    rewrite Hp in Ht1, Hp1. rewrite Ht1 in Ht2. rewrite Hp1 in Hp2.
    destruct a1, a2; cbn in *. congruence.
  - unfold attempts. apply NoDup_bind.
    + intros [m1 ut1] [m2 ut2] a Hin1 Hin2 Ha1 Ha2.
      apply attemptsOfUser_spec in Ha1 as (Hm1 & _), Ha2 as (Hm2 & _).
      apply elem_of_map_to_list in Hin1, Hin2. subst m1 m2. congruence.
    + intros [m ut] _. apply (NoDup_fmap_1 attemptPlatform), attemptsOfUser_platforms.
    + apply NoDup_map_to_list.
Qed.

Lemma GetAllUserTokens_lookup now metaIds ps k :
  PebbleService.GetAllUserTokens now metaIds ps !! k
  = if decide (k ∈ metaIds)
    then Some (match PebbleService.GetUserTokens now k ps with
               | Ok ut => ut
               | Err _ => {| models.MetaID := k; models.Tokens := ∅; models.UpdatedAt := now |}
               end)
    else None.
Proof.
  unfold PebbleService.GetAllUserTokens.
  set (f := fun (acc : gmap string models.UserPushTokens) metaId =>
              <[metaId := match PebbleService.GetUserTokens now metaId ps with
                          | Ok ut => ut
                          | Err _ => {| models.MetaID := metaId; models.Tokens := ∅;
                                        models.UpdatedAt := now |}
                          end]> acc).
  assert (Hgen : forall l acc,
            foldl f acc l !! k
            = if decide (k ∈ l)
              then Some (match PebbleService.GetUserTokens now k ps with
                         | Ok ut => ut
                         | Err _ => {| models.MetaID := k; models.Tokens := ∅;
                                       models.UpdatedAt := now |}
                         end)
              else acc !! k).
  { induction l as [|m l IH]; intros acc.
    - rewrite decide_False by (apply not_elem_of_nil). reflexivity.
    - cbn [foldl]. rewrite IH. destruct (decide (k ∈ l)) as [Hin|Hnin].
      + rewrite decide_True by (right; exact Hin). reflexivity.
      + unfold f at 1. destruct (decide (m = k)) as [->|Hne].
        * rewrite lookup_insert_eq, decide_True by left. reflexivity.
        * rewrite lookup_insert_ne by exact Hne.
          rewrite decide_False; [reflexivity|].
          rewrite elem_of_cons. intros [->|?]; [congruence|contradiction]. }
  rewrite Hgen. destruct (decide (k ∈ metaIds)); [reflexivity|apply lookup_empty].
Qed.

Lemma count_partition (l : list PushResult) :
  count Success l + count (fun r => negb (Success r)) l = Z.of_nat (length l).
Proof. unfold count. rewrite <- Nat2Z.inj_add, List.filter_length. reflexivity. Qed.

(** X20.  What a [SendToUsers] call with the store at hand reports: one
    result for every registered platform of every listed user that holds a
    token there, carrying the stored token, and no other result; a user
    listed several times is still served once per platform; the success
    and failure counts add up to the number of results. *)
Theorem SendToUsers_results (s : DefaultPushService) (now : Z) (metaIds : list string)
    (notification : PushNotification) (w : World) (service : PebbleService.t) :
  pebble w = Some service -> metaIds <> [] ->
  exists b,
    fst (SendToUsers s now metaIds notification w) = Ok b
    /\ TotalUsers b = Z.of_nat (length metaIds)
    /\ SuccessCount b + FailureCount b = Z.of_nat (length (Results b))
    /\ NoDup ((fun r => (MetaID r, Platform r)) <$> Results b)
    /\ (forall metaId platform token,
          (exists r, r ∈ Results b /\ MetaID r = metaId /\ Platform r = platform
                     /\ Token r = token)
          <-> (metaId ∈ metaIds /\ metaId <> ""
               /\ tokensOf metaId service !! platform = Some token
               /\ is_Some (providers s !! platform))).
Proof.
  intros Hsvc Hne. unfold SendToUsers. destruct metaIds as [|m0 l0]; [contradiction|].
  set (metaIds := m0 :: l0). unfold bind, tokenStore_GetAllUserTokens.
  unfold pebble_service.withService. rewrite Hsvc. unfold liftNet.
  set (all := PebbleService.GetAllUserTokens now metaIds service).
  destruct (sendAll_shape notification (attempts s all) (net w)) as (rs & n' & -> & Hshape).
  eexists. split; [reflexivity|]. cbn [TotalUsers SuccessCount FailureCount Results].
  split; [reflexivity|]. split; [apply count_partition|]. split.
  - replace ((fun r => (MetaID r, Platform r)) <$> rs)
      with (fst <$> ((fun r => (MetaID r, Platform r, Token r)) <$> rs))
      by (rewrite <- list_fmap_compose; reflexivity).
    rewrite Hshape, <- list_fmap_compose. apply attempts_keys.
  - intros metaId platform token.
    assert (Hmem : (exists r, r ∈ rs /\ MetaID r = metaId /\ Platform r = platform
                              /\ Token r = token)
                   <-> (exists a, a ∈ attempts s all /\ attemptMetaId a = metaId
                                  /\ attemptPlatform a = platform /\ attemptToken a = token)).
    { split.
      - intros (r & Hin & Hm & Hp & Ht).
        apply (list_elem_of_fmap_2 (fun r => (MetaID r, Platform r, Token r))) in Hin.
        rewrite Hshape in Hin. apply list_elem_of_fmap in Hin as (a & Heq & Ha).
        exists a. split; [exact Ha|]. injection Heq as H1 H2 H3. repeat split; congruence.
      - intros (a & Hin & Hm & Hp & Ht).
        apply (list_elem_of_fmap_2
                 (fun a => (attemptMetaId a, attemptPlatform a, attemptToken a))) in Hin.
        rewrite <- Hshape in Hin. apply list_elem_of_fmap in Hin as (r & Heq & Hr).
        exists r. split; [exact Hr|]. injection Heq as H1 H2 H3. repeat split; congruence. }
    rewrite Hmem. clear Hmem. split.
    + intros (a & (ut & Hall & Htok & Hprov)%attempts_spec & <- & <- & <-).
      unfold all in Hall. rewrite GetAllUserTokens_lookup in Hall.
      destruct (decide (attemptMetaId a ∈ metaIds)) as [Hin|]; [|discriminate].
      injection Hall as <-.
      destruct (decide (attemptMetaId a = "")) as [Hempty|Hnonempty].
      * rewrite Hempty in Htok. cbn in Htok. rewrite lookup_empty in Htok. discriminate.
      * destruct (GetUserTokens_ok now (attemptMetaId a) service Hnonempty)
          as (ut & Hget & Hut).
        rewrite Hget, Hut in Htok. rewrite Hprov. eauto.
    + intros (Hin & Hnonempty & Htok & [provider Hprov]).
      exists {| attemptMetaId := metaId; attemptPlatform := platform; attemptToken := token;
                attemptProvider := provider |}.
      split; [|auto]. apply attempts_spec.
      cbn [attemptMetaId attemptPlatform attemptToken attemptProvider].
      destruct (GetUserTokens_ok now metaId service Hnonempty) as (ut & Hget & Hut).
      exists ut. unfold all. rewrite GetAllUserTokens_lookup, decide_True by exact Hin.
      rewrite Hget, Hut. auto.
Qed.

Lemma attempts_singleton s metaId ut :
  attempts s {[metaId := ut]} = attemptsOfUser s metaId ut.
Proof.
  unfold attempts. rewrite map_to_list_singleton. cbn. apply app_nil_r.
Qed.

(** X21.  [SendToUser] and [SendToUsers] on the one-user list: with the
    store at hand and a non-empty user id the two calls do the same sends
    and return the same batch result; for the empty user id [SendToUser]
    fails, where [SendToUsers] succeeds with no results. *)
Theorem SendToUser_is_SendToUsers_singleton (s : DefaultPushService) (now : Z)
    (metaId : string) (notification : PushNotification) (w : World)
    (service : PebbleService.t) :
  pebble w = Some service ->
  (metaId <> "" ->
   SendToUser s now metaId notification w = SendToUsers s now [metaId] notification w)
  /\ (metaId = "" ->
      SendToUser s now metaId notification w = (Err ErrEmptyArgument, w)
      /\ exists b, SendToUsers s now [metaId] notification w = (Ok b, w)
                   /\ Results b = []).
Proof.
  intros Hsvc. split.
  - intros Hne. unfold SendToUser, SendToUsers, bind, tokenStore_GetUserTokens,
      tokenStore_GetAllUserTokens, pebble_service.withService. rewrite Hsvc.
    destruct (GetUserTokens_ok now metaId service Hne) as (ut & Hget & Hut).
    rewrite Hget.
    assert (Hall : PebbleService.GetAllUserTokens now [metaId] service = {[metaId := ut]}).
    { unfold PebbleService.GetAllUserTokens. cbn [foldl]. rewrite Hget. reflexivity. }
    rewrite Hall, attempts_singleton.
    destruct (Z.of_nat (size (models.Tokens ut)) =? 0) eqn:Hsize.
    + assert (Hempty : models.Tokens ut = ∅) by (apply map_size_empty_iff; lia).
      unfold attemptsOfUser. rewrite Hempty, map_to_list_empty. cbn.
      destruct w; cbn in *. reflexivity.
    + unfold liftNet.
      destruct (sendAll_shape notification (attemptsOfUser s metaId ut) (net w))
        as (rs & n' & -> & Hshape).
      unfold ret. do 2 f_equal.
      assert (Hplat : Platform <$> rs = attemptPlatform <$> attemptsOfUser s metaId ut).
      { replace (Platform <$> rs)
          with ((fun x : string * string * string => x.1.2)
                <$> ((fun r => (MetaID r, Platform r, Token r)) <$> rs))
          by (rewrite <- list_fmap_compose; reflexivity).
        rewrite Hshape, <- list_fmap_compose. reflexivity. }
      f_equal. rewrite size_list_to_set.
      * rewrite length_fmap. reflexivity.
      * rewrite Hplat. apply attemptsOfUser_platforms.
  - intros ->. unfold SendToUser, SendToUsers, bind, tokenStore_GetUserTokens,
      tokenStore_GetAllUserTokens, pebble_service.withService. rewrite Hsvc.
    split; [reflexivity|].
    assert (Hall : PebbleService.GetAllUserTokens now [""] service
                   = {["" := {| models.MetaID := ""; models.Tokens := ∅;
                                models.UpdatedAt := now |}]}) by reflexivity.
    rewrite Hall, attempts_singleton. unfold attemptsOfUser. cbn [models.Tokens].
    rewrite map_to_list_empty. destruct w as [pb nt ds]. cbn.
    eexists. split; reflexivity.
Qed.

End DispatcherResults.

Lemma SendToUsers_results_witness :
  exists b,
    fst (push_service.SendToUsers exampleDispatcher 7 ["u1"; "u2"; "u1"]
           exampleNotification exampleWorld) = Ok b
    /\ push_service.TotalUsers b = Z.of_nat (length ["u1"; "u2"; "u1"])
    /\ push_service.SuccessCount b + push_service.FailureCount b
       = Z.of_nat (length (push_service.Results b))
    /\ NoDup ((fun r => (push_service.MetaID r, push_service.Platform r))
              <$> push_service.Results b)
    /\ (forall metaId platform token,
          (exists r, r ∈ push_service.Results b /\ push_service.MetaID r = metaId
                     /\ push_service.Platform r = platform /\ push_service.Token r = token)
          <-> (metaId ∈ ["u1"; "u2"; "u1"] /\ metaId <> ""
               /\ tokensOf metaId exampleStore !! platform = Some token
               /\ is_Some (push_service.providers exampleDispatcher !! platform))).
Proof.
  apply (SendToUsers_results exampleDispatcher 7 ["u1"; "u2"; "u1"] exampleNotification
           exampleWorld exampleStore).
  - reflexivity.
  - discriminate.
Defined.

Lemma SendToUser_is_SendToUsers_singleton_witness :
  ("u1" <> "" ->
   push_service.SendToUser exampleDispatcher 7 "u1" exampleNotification exampleWorld
   = push_service.SendToUsers exampleDispatcher 7 ["u1"] exampleNotification exampleWorld)
  /\ ("u1" = "" ->
      push_service.SendToUser exampleDispatcher 7 "u1" exampleNotification exampleWorld
      = (Err ErrEmptyArgument, exampleWorld)
      /\ exists b, push_service.SendToUsers exampleDispatcher 7 ["u1"] exampleNotification
                     exampleWorld = (Ok b, exampleWorld)
                   /\ push_service.Results b = []).
Proof.
  apply (SendToUser_is_SendToUsers_singleton exampleDispatcher 7 "u1" exampleNotification
           exampleWorld exampleStore).
  reflexivity.
Defined.

(** ** Further properties of the relay *)

Section NotificationText.
Import pushcenter.

Lemma length_append (a b : string) :
  String.length (a +:+ b) = (String.length a + String.length b)%nat.
Proof.
  induction a as [|c a IH]; [reflexivity|].
  change (String c a +:+ b) with (String c (a +:+ b)). cbn [String.length].
  rewrite IH. reflexivity.
Qed.

Lemma substring_split (n : nat) :
  forall s, (n <= String.length s)%nat ->
    String.length (String.substring 0 n s) = n
    /\ exists rest, s = String.substring 0 n s +:+ rest.
Proof.
  induction n as [|n IH]; intros s Hn.
  - split; [destruct s; reflexivity|]. exists s. destruct s; reflexivity.
  - destruct s as [|c s]; [cbn in Hn; lia|]. cbn [String.length] in Hn.
    destruct (IH s ltac:(lia)) as (Hlen & rest & Hrest).
    cbn [String.substring String.length]. split; [rewrite Hlen; reflexivity|].
    exists rest. change (String c (String.substring 0 n s) +:+ rest)
                   with (String c (String.substring 0 n s +:+ rest)).
    rewrite <- Hrest. reflexivity.
Qed.

Lemma truncateUserName_length (userName : string) :
  (String.length (truncateUserName userName) <= 20)%nat
  /\ (truncateUserName userName = "" <-> userName = "").
Proof.
  unfold truncateUserName, len.
  destruct (String.eqb userName "") eqn:Hempty.
  - apply String.eqb_eq in Hempty. subst. split; [cbn; lia|tauto].
  - apply String.eqb_neq in Hempty.
    destruct (Z.of_nat (String.length userName) <=? 20) eqn:Hshort.
    + split; [lia|tauto].
    + destruct (substring_split 17 userName ltac:(lia)) as (Hlen & _).
      rewrite length_append, Hlen. split; [cbn; lia|].
      split; [|contradiction]. intros Heq.
      apply (f_equal String.length) in Heq. rewrite length_append, Hlen in Heq.
      cbn in Heq. lia.
Qed.

(** X22.  [truncateUserName] never returns more than 20 bytes: a name of at
    most 20 bytes comes back as it is, a longer one as its first 17 bytes
    followed by three dots. *)
Theorem truncateUserName_spec (userName : string) :
  (String.length (truncateUserName userName) <= 20)%nat
  /\ ((String.length userName <= 20)%nat -> truncateUserName userName = userName)
  /\ ((20 < String.length userName)%nat ->
      exists head rest,
        userName = head +:+ rest /\ String.length head = 17%nat
        /\ truncateUserName userName = head +:+ "...").
Proof.
  split; [apply truncateUserName_length|]. unfold truncateUserName, len. split.
  - intros Hshort. destruct (String.eqb userName ""); [reflexivity|].
    assert ((Z.of_nat (String.length userName) <=? 20) = true) as -> by lia. reflexivity.
  - intros Hlong.
    destruct (String.eqb userName "") eqn:Hempty;
      [apply String.eqb_eq in Hempty; subst; cbn in Hlong; lia|].
    assert ((Z.of_nat (String.length userName) <=? 20) = false) as -> by lia.
    destruct (substring_split 17 userName ltac:(lia)) as (Hlen & rest & Hrest).
    exists (String.substring 0 17 userName), rest. auto.
Qed.

(** X23.  A notification body is never empty and never longer than 51
    bytes, whatever the sender's name; it does not depend on the group id
    handed in. *)
Theorem GenerateNotificationBody_bounded (msgType userName : string) (chatInfoType : Z)
    (isMention : bool) (groupId : string) :
  (0 < String.length (GenerateNotificationBody msgType userName chatInfoType isMention
                        groupId) <= 51)%nat
  /\ GenerateNotificationBody msgType userName chatInfoType isMention groupId
     = GenerateNotificationBody msgType userName chatInfoType isMention "".
Proof.
  split; [|reflexivity]. unfold GenerateNotificationBody.
  pose proof (truncateUserName_length userName) as [Hlen Hempty].
  destruct isMention.
  - destruct (String.eqb (truncateUserName userName) "");
      destruct (isCandyBag chatInfoType); rewrite length_append; cbn; lia.
  - destruct (String.eqb msgType "group_chat");
      (destruct (String.eqb userName ""); cbn [negb]; [cbn; lia|]);
      destruct (isCandyBag chatInfoType); rewrite length_append; cbn; lia.
Qed.

End NotificationText.

Lemma truncateUserName_spec_witness :
  (String.length (pushcenter.truncateUserName "Bartholomew Fitzgerald III") <= 20)%nat
  /\ ((String.length "Bartholomew Fitzgerald III" <= 20)%nat ->
      pushcenter.truncateUserName "Bartholomew Fitzgerald III"
      = "Bartholomew Fitzgerald III")
  /\ ((20 < String.length "Bartholomew Fitzgerald III")%nat ->
      exists head rest,
        "Bartholomew Fitzgerald III" = head +:+ rest /\ String.length head = 17%nat
        /\ pushcenter.truncateUserName "Bartholomew Fitzgerald III" = head +:+ "...").
Proof. apply (truncateUserName_spec "Bartholomew Fitzgerald III"). Defined.

Section RelayFiltering.
Import socket_client_service push_service pushcenter.

Lemma filter_sublist {A} (f : A -> bool) (l : list A) : List.filter f l `sublist_of` l.
Proof.
  induction l as [|a l IH]; [constructor|]. cbn [List.filter].
  destruct (f a); [apply sublist_skip, IH|apply sublist_cons, IH].
Qed.

Lemma keepRecipient_spec now g parsedInfo metaId :
  keepRecipient now g parsedInfo metaId = true
  <-> ~ (ChatType parsedInfo = "private_chat" /\ metaId = MetaId parsedInfo)
      /\ ~ (exists ps, g = Some ps /\ metaId <> "" /\ chatIDOf parsedInfo <> ""
                       /\ chatIDOf parsedInfo ∈ blockedIdsOf metaId ps).
Proof.
  unfold keepRecipient.
  destruct (String.eqb (ChatType parsedInfo) "private_chat") eqn:Hpriv.
  - apply String.eqb_eq in Hpriv.
    assert (Hchat : chatIDOf parsedInfo = MetaId parsedInfo).
    { unfold chatIDOf. rewrite Hpriv. reflexivity. }
    rewrite Hchat. cbn [andb].
    destruct (String.eqb metaId (MetaId parsedInfo)) eqn:Hself.
    + apply String.eqb_eq in Hself. split; [discriminate|]. intros [H _]. tauto.
    + apply String.eqb_neq in Hself.
      destruct (String.eqb (MetaId parsedInfo) "") eqn:Hempty.
      * apply String.eqb_eq in Hempty. split; [|reflexivity]. intros _.
        split; [tauto|]. intros (ps & _ & _ & H & _). contradiction.
      * apply String.eqb_neq in Hempty. unfold pebble_service.IsUserBlockedChat.
        destruct (String.eqb metaId "") eqn:Hm.
        { apply String.eqb_eq in Hm. split; [|reflexivity]. intros _.
          split; [tauto|]. intros (ps & _ & H & _). contradiction. }
        apply String.eqb_neq in Hm. rewrite (eqb_false _ _ Hempty).
        destruct g as [ps|]; cbn [pebble_service.withService].
        -- rewrite IsBlockedChat_spec by assumption.
           destruct (decide (MetaId parsedInfo ∈ blockedIdsOf metaId ps)) as [Hin|Hnin].
           ++ rewrite bool_decide_eq_true_2 by exact Hin. split; [discriminate|].
              intros [_ H]. exfalso. apply H. eauto 10.
           ++ rewrite bool_decide_eq_false_2 by exact Hnin. split; [|reflexivity].
              intros _. split; [tauto|]. intros (ps' & [= <-] & _ & _ & H). contradiction.
        -- split; [|reflexivity]. intros _. split; [tauto|].
           intros (ps & H & _). discriminate.
  - apply String.eqb_neq in Hpriv. cbn [andb].
    destruct (String.eqb (chatIDOf parsedInfo) "") eqn:Hempty.
    + apply String.eqb_eq in Hempty. split; [|reflexivity]. intros _.
      split; [tauto|]. intros (ps & _ & _ & H & _). contradiction.
    + apply String.eqb_neq in Hempty. unfold pebble_service.IsUserBlockedChat.
      destruct (String.eqb metaId "") eqn:Hm.
      { apply String.eqb_eq in Hm. split; [|reflexivity]. intros _.
        split; [tauto|]. intros (ps & _ & H & _). contradiction. }
      apply String.eqb_neq in Hm. rewrite (eqb_false _ _ Hempty).
      destruct g as [ps|]; cbn [pebble_service.withService].
      * rewrite IsBlockedChat_spec by assumption.
        destruct (decide (chatIDOf parsedInfo ∈ blockedIdsOf metaId ps)) as [Hin|Hnin].
        -- rewrite bool_decide_eq_true_2 by exact Hin. split; [discriminate|].
           intros [_ H]. exfalso. apply H. eauto 10.
        -- rewrite bool_decide_eq_false_2 by exact Hnin. split; [|reflexivity].
           intros _. split; [tauto|]. intros (ps' & [= <-] & _ & _ & H). contradiction.
      * split; [|reflexivity]. intros _. split; [tauto|].
        intros (ps & H & _). discriminate.
Qed.

(** X24.  [filterBlockedUsers] keeps the recipients in order and drops
    exactly two kinds: in a private chat, the recipient who is the chat's
    own meta id; and a recipient with a non-empty id whose mute list, read
    from an initialised store, holds the non-empty chat id.  With the store
    not initialised, or no chat id, nobody is dropped for muting. *)
Theorem filterBlockedUsers_spec (now : Z) (g : pebble_service.globalService)
    (metaIds : list string) (parsedInfo : ParsedMessageInfo) :
  filterBlockedUsers now g metaIds parsedInfo `sublist_of` metaIds
  /\ (forall metaId,
        metaId ∈ filterBlockedUsers now g metaIds parsedInfo
        <-> metaId ∈ metaIds
            /\ ~ (ChatType parsedInfo = "private_chat" /\ metaId = MetaId parsedInfo)
            /\ ~ (exists ps, g = Some ps /\ metaId <> "" /\ chatIDOf parsedInfo <> ""
                             /\ chatIDOf parsedInfo ∈ blockedIdsOf metaId ps))
  /\ (ChatType parsedInfo <> "private_chat" ->
      g = None \/ chatIDOf parsedInfo = "" ->
      filterBlockedUsers now g metaIds parsedInfo = metaIds).
Proof.
  unfold filterBlockedUsers. split; [apply filter_sublist|]. split.
  - intros metaId. rewrite list_elem_of_In, filter_In, <- list_elem_of_In, keepRecipient_spec.
    tauto.
  - intros Hpriv Hopen. apply forallb_filter_id. apply forallb_forall.
    intros metaId _. apply keepRecipient_spec. split; [tauto|].
    intros (ps & Hg & _ & Hchat & _). destruct Hopen as [->|Hempty];
      [discriminate|contradiction].
Qed.

Lemma normalUsersOf_not_mentioned user filtered mentions :
  user ∈ normalUsersOf filtered mentions -> user ∉ mentions.
Proof.
  unfold normalUsersOf. rewrite list_elem_of_In, filter_In. intros [_ Hkeep] Hin.
  apply negb_true_iff in Hkeep.
  assert (existsb (String.eqb user) mentions = true) as Hex; [|congruence].
  apply existsb_exists. exists user. split; [apply list_elem_of_In, Hin|].
  apply String.eqb_refl.
Qed.

(** X25.  An envelope that passes the dedup gate with recipients listed
    puts its pin on record, whatever became of the pushes, and writes
    nothing else to the store; this holds even when every listed recipient
    was filtered out and nobody was mentioned, in which case no dispatcher
    call and no request is made.  An envelope without recipients leaves no
    trace at all. *)
Theorem processChatMessage_records_pin (pc : PushCenter) (now : Z)
    (chatMsg : ChatNotificationMessage) (w : World)
    (parsedInfo : ParsedMessageInfo) (data : ExtraServiceMessage) (ps : PebbleService.t) :
  parseMessageInfo chatMsg = Ok parsedInfo ->
  socket_client_service.Data chatMsg = Some data ->
  pebble w = Some ps ->
  PinId parsedInfo <> "" ->
  PebbleService.notified_pins ps !! PinId parsedInfo = None ->
  (RepostMetaIds data = [] -> processChatMessage pc now chatMsg w = w)
  /\ (RepostMetaIds data <> [] ->
      exists ps',
        pebble (processChatMessage pc now chatMsg w) = Some ps'
        /\ PebbleService.IsNotifiedPin (PinId parsedInfo) ps' = Ok true
        /\ PebbleService.user_tokens ps' = PebbleService.user_tokens ps
        /\ PebbleService.devices ps' = PebbleService.devices ps
        /\ PebbleService.blocked_chats ps' = PebbleService.blocked_chats ps
        /\ (forall pin, pin <> PinId parsedInfo ->
              PebbleService.notified_pins ps' !! pin = PebbleService.notified_pins ps !! pin)
        /\ (MentionMetaIds data = [] ->
            filterBlockedUsers now (pebble w) (RepostMetaIds data) parsedInfo = [] ->
            dispatched (processChatMessage pc now chatMsg w) = dispatched w
            /\ net (processChatMessage pc now chatMsg w) = net w)).
Proof.
  intros Hparse Hdata Hsvc Hpin Hfresh. unfold processChatMessage.
  rewrite Hparse, Hdata.
  assert (Hdedup : passesDedup parsedInfo (pebble w) = true).
  { unfold passesDedup, pebble_service.IsNotifiedPin. rewrite (eqb_false _ _ Hpin), Hsvc.
    cbn. unfold PebbleService.IsNotifiedPin. rewrite (eqb_false _ _ Hpin), Hfresh.
    reflexivity. }
  rewrite Hdedup. cbn [negb]. split; [intros ->; reflexivity|].
  intros Hrep. destruct (RepostMetaIds data) as [|m0 l0] eqn:Hrep'; [contradiction|].
  cbv zeta.
  set (normalUsers := normalUsersOf _ _).
  match goal with
  | |- context [match MentionMetaIds data with
                | [] => w
                | _ :: _ => dispatch pc now ?u ?t ?b ?d w
                end] =>
      pose proof (guarded_dispatch_frame pc now u t b d w) as (Hp1 & _);
      cbv zeta in Hp1;
      set (w1 := match MentionMetaIds data with
                 | [] => w
                 | _ :: _ => dispatch pc now u t b d w
                 end) in *
  end.
  match goal with
  | |- context [match normalUsers with
                | [] => w1
                | _ :: _ => dispatch pc now ?u ?t ?b ?d w1
                end] =>
      pose proof (guarded_dispatch_frame pc now u t b d w1) as (Hp2 & _);
      cbv zeta in Hp2;
      set (w2 := match normalUsers with
                 | [] => w1
                 | _ :: _ => dispatch pc now u t b d w1
                 end) in *
  end.
  pose proof (record_frame now (PinId parsedInfo) w2) as (Hd3 & Hn3 & Hp3).
  cbv zeta in Hd3, Hn3, Hp3.
  set (w3 := if negb (String.eqb (PinId parsedInfo) "")
             then snd (liftPebble (pebble_service.AddNotifiedPin now (PinId parsedInfo)) w2)
             else w2) in *.
  rewrite Hp2, Hp1, Hsvc, (eqb_false _ _ Hpin) in Hp3. cbn [negb] in Hp3.
  unfold pebble_service.AddNotifiedPin in Hp3. rewrite (eqb_false _ _ Hpin) in Hp3.
  cbn [pebble_service.updService] in Hp3. unfold PebbleService.AddNotifiedPin in Hp3.
  rewrite (eqb_false _ _ Hpin) in Hp3. cbn [snd] in Hp3.
  eexists. split; [exact Hp3|].
  split; [unfold PebbleService.IsNotifiedPin; rewrite (eqb_false _ _ Hpin); cbn;
          rewrite lookup_insert_eq; reflexivity|].
  split; [reflexivity|]. split; [reflexivity|]. split; [reflexivity|].
  split; [intros pin Hne; cbn; apply lookup_insert_ne; congruence|].
  intros Hmention Hfiltered. rewrite Hd3, Hn3. unfold w2, normalUsers.
  rewrite Hfiltered. cbn. unfold w1. rewrite Hmention. auto.
Qed.

(** X26.  The two dispatcher calls of one envelope never share a
    recipient: the plain call lists only filtered recipients that are not
    among the mentioned ones. *)
Theorem mention_and_plain_calls_disjoint (pc : PushCenter) (now : Z)
    (chatMsg : ChatNotificationMessage) (w : World) (d1 d2 : Dispatch) (user : string) :
  dispatchedBy pc now chatMsg w = [d1; d2] ->
  user ∈ recipients d1 -> user ∉ recipients d2.
Proof.
  unfold dispatchedBy, processChatMessage.
  destruct (parseMessageInfo chatMsg) as [parsedInfo|];
    [|rewrite drop_all; discriminate].
  destruct (socket_client_service.Data chatMsg) as [data|];
    [|rewrite drop_all; discriminate].
  destruct (negb (passesDedup parsedInfo (pebble w))); [rewrite drop_all; discriminate|].
  destruct (RepostMetaIds data) as [|m0 l0] eqn:Hrep; [rewrite drop_all; discriminate|].
  cbv zeta.
  set (normalUsers := normalUsersOf _ _).
  match goal with
  | |- context [match MentionMetaIds data with
                | [] => w
                | _ :: _ => dispatch pc now ?u ?t ?b ?d w
                end] =>
      pose proof (guarded_dispatch_frame pc now u t b d w) as (_ & c1 & Hd1 & Hl1 & Hf1);
      cbv zeta in Hd1;
      set (w1 := match MentionMetaIds data with
                 | [] => w
                 | _ :: _ => dispatch pc now u t b d w
                 end) in *
  end.
  match goal with
  | |- context [match normalUsers with
                | [] => w1
                | _ :: _ => dispatch pc now ?u ?t ?b ?d w1
                end] =>
      pose proof (guarded_dispatch_frame pc now u t b d w1) as (_ & c2 & Hd2 & Hl2 & Hf2);
      cbv zeta in Hd2;
      set (w2 := match normalUsers with
                 | [] => w1
                 | _ :: _ => dispatch pc now u t b d w1
                 end) in *
  end.
  pose proof (record_frame now (PinId parsedInfo) w2) as (Hd3 & _).
  cbv zeta in Hd3. rewrite Hd3, Hd2, Hd1, <- app_assoc, drop_app_length.
  intros Hcalls Hin1 Hin2.
  destruct c1 as [|x1 [|? ?]]; [|destruct c2 as [|x2 [|? ?]]|cbn in Hl1; lia].
  - destruct c2 as [|? [|? ?]]; [discriminate|discriminate|cbn in Hl2; lia].
  - discriminate.
  - injection Hcalls as <- <-.
    apply Forall_inv in Hf1 as (Hr1 & _). apply Forall_inv in Hf2 as (Hr2 & _).
    rewrite Hr1 in Hin1. rewrite Hr2 in Hin2.
    exact (normalUsersOf_not_mentioned _ _ _ Hin2 Hin1).
  - cbn in Hl2. lia.
Qed.

End RelayFiltering.

Lemma processChatMessage_records_pin_witness :
  (socket_client_service.RepostMetaIds dataAllMuted = [] ->
   pushcenter.processChatMessage exampleCenter 7 envelopeAllMuted exampleWorld = exampleWorld)
  /\ (socket_client_service.RepostMetaIds dataAllMuted <> [] ->
      exists ps',
        push_service.pebble
          (pushcenter.processChatMessage exampleCenter 7 envelopeAllMuted exampleWorld)
        = Some ps'
        /\ PebbleService.IsNotifiedPin (pushcenter.PinId parsedAllMuted) ps' = Ok true
        /\ PebbleService.user_tokens ps' = PebbleService.user_tokens exampleStore
        /\ PebbleService.devices ps' = PebbleService.devices exampleStore
        /\ PebbleService.blocked_chats ps' = PebbleService.blocked_chats exampleStore
        /\ (forall pin, pin <> pushcenter.PinId parsedAllMuted ->
              PebbleService.notified_pins ps' !! pin
              = PebbleService.notified_pins exampleStore !! pin)
        /\ (socket_client_service.MentionMetaIds dataAllMuted = [] ->
            pushcenter.filterBlockedUsers 7 (push_service.pebble exampleWorld)
              (socket_client_service.RepostMetaIds dataAllMuted) parsedAllMuted = [] ->
            push_service.dispatched
              (pushcenter.processChatMessage exampleCenter 7 envelopeAllMuted exampleWorld)
            = push_service.dispatched exampleWorld
            /\ push_service.net
                 (pushcenter.processChatMessage exampleCenter 7 envelopeAllMuted exampleWorld)
               = push_service.net exampleWorld)).
Proof.
  apply (processChatMessage_records_pin exampleCenter 7 envelopeAllMuted exampleWorld
           parsedAllMuted dataAllMuted exampleStore).
  - reflexivity.
  - reflexivity.
  - reflexivity.
  - discriminate.
  - vm_compute. reflexivity.
Defined.

Lemma mention_and_plain_calls_disjoint_witness :
  exists d1 d2,
    dispatchedBy exampleCenter 7 envelopeS4 exampleWorld = [d1; d2]
    /\ push_service.recipients d1 = ["u3"]
    /\ "u3" ∉ push_service.recipients d2.
Proof.
  assert (exists d1 d2,
            dispatchedBy exampleCenter 7 envelopeS4 exampleWorld = [d1; d2]
            /\ push_service.recipients d1 = ["u3"]) as (d1 & d2 & Hd & Hr).
  { vm_compute. eexists _, _. split; reflexivity. }
  exists d1, d2. split; [exact Hd|]. split; [exact Hr|].
  apply (mention_and_plain_calls_disjoint exampleCenter 7 envelopeS4 exampleWorld d1 d2 "u3").
  - exact Hd.
  - rewrite Hr. left.
Defined.

Section DedupGate.
Import socket_client_service push_service pushcenter.


End DedupGate.


(** ** Properties of the receipt check *)

Section Receipts.
Import expo_receipts.

Lemma checkReceiptsBatch_answered transport batch n response :
  batch <> [] -> transport (length n) batch = Ok response -> Errors response = [] ->
  checkReceiptsBatch transport batch n
  = (Ok (receiptResult <$> Data response), (n ++ [batch])%list).
Proof.
  intros Hne Hout Herr. unfold checkReceiptsBatch, GetPushReceipts.
  destruct batch as [|b batch]; [contradiction|].
  cbn [length]. rewrite Nat2Z.inj_succ.
  assert ((Z.succ (Z.of_nat (length batch)) =? 0) = false) as ->
    by (apply Z.eqb_neq; lia).
  cbn [length] in Hout. rewrite Hout, Herr. reflexivity.
Qed.

Lemma checkReceiptsBatch_unanswered transport batch n :
  batch <> [] -> ~ answered transport (length n) batch ->
  exists e, checkReceiptsBatch transport batch n = (Err e, (n ++ [batch])%list).
Proof.
  intros Hne Hbad. unfold checkReceiptsBatch, GetPushReceipts.
  destruct batch as [|b batch]; [contradiction|].
  cbn [length]. rewrite Nat2Z.inj_succ.
  assert ((Z.succ (Z.of_nat (length batch)) =? 0) = false) as ->
    by (apply Z.eqb_neq; lia).
  cbn [length] in Hbad.
  destruct (transport (length n) (b :: batch)) as [response|e] eqn:Hout;
    [|eexists; reflexivity].
  destruct (Errors response) eqn:Herr; [|eexists; reflexivity].
  exfalso. apply Hbad. exists response. auto.
Qed.

Lemma receiptsLoop_answered transport :
  forall fuel receiptIDs allResults n,
    (forall i batch, chunks 1000 fuel receiptIDs !! i = Some batch ->
                     answered transport (length n + i)%nat batch) ->
    exists results,
      receiptsLoop transport fuel receiptIDs allResults n
      = (Ok results, (n ++ chunks 1000 fuel receiptIDs)%list)
      /\ forall id r, results !! id = Some r ->
           allResults !! id = Some r
           \/ exists i batch response receipt,
                chunks 1000 fuel receiptIDs !! i = Some batch
                /\ transport (length n + i)%nat batch = Ok response
                /\ Data response !! id = Some receipt
                /\ r = receiptResult receipt.
Proof.
  induction fuel as [|fuel IH]; intros receiptIDs allResults n Hans.
  - exists allResults. cbn. rewrite app_nil_r. destruct receiptIDs; auto.
  - destruct receiptIDs as [|a l].
    { exists allResults. cbn. rewrite app_nil_r. auto. }
    cbn [receiptsLoop chunks].
    set (batch := take 1000 (a :: l)) in *. set (rest := drop 1000 (a :: l)) in *.
    assert (Hbatch : batch <> []) by (unfold batch; discriminate).
    destruct (Hans O batch eq_refl) as (response & Hout & Herr).
    rewrite Nat.add_0_r in Hout.
    rewrite (checkReceiptsBatch_answered transport batch n response Hbatch Hout Herr).
    destruct (IH rest ((receiptResult <$> Data response) ∪ allResults)
                (n ++ [batch])%list) as (results & Heq & Hres).
    { intros i b Hi. rewrite length_app. cbn [length].
      replace (length n + 1 + i)%nat with (length n + S i)%nat by lia.
      apply Hans. exact Hi. }
    exists results. rewrite Heq, <- app_assoc. split; [reflexivity|].
    intros id r Hr. destruct (Hres id r Hr) as [Hacc|(i & b & resp & receipt & Hi & Ht & Hd & ->)].
    + apply lookup_union_Some_raw in Hacc as [Hnew|[_ Hold]]; [|left; exact Hold].
      rewrite lookup_fmap in Hnew.
      destruct (Data response !! id) as [receipt|] eqn:Hd; [|discriminate].
      injection Hnew as <-. right. exists O, batch, response, receipt.
      rewrite Nat.add_0_r. auto.
    + right. exists (S i), b, resp, receipt. rewrite length_app in Ht. cbn [length] in Ht.
      replace (length n + 1 + i)%nat with (length n + S i)%nat in Ht by lia. auto.
Qed.

Lemma receiptsLoop_unanswered transport :
  forall fuel receiptIDs allResults n j batch,
    chunks 1000 fuel receiptIDs !! j = Some batch ->
    (forall i b, (i < j)%nat -> chunks 1000 fuel receiptIDs !! i = Some b ->
                 answered transport (length n + i)%nat b) ->
    ~ answered transport (length n + j)%nat batch ->
    exists e,
      receiptsLoop transport fuel receiptIDs allResults n
      = (Err e, (n ++ take (S j) (chunks 1000 fuel receiptIDs))%list).
Proof.
  induction fuel as [|fuel IH]; intros receiptIDs allResults n j batch Hj Hbefore Hbad.
  - destruct receiptIDs; discriminate.
  - destruct receiptIDs as [|a l]; [discriminate|].
    cbn [receiptsLoop chunks] in *.
    set (first := take 1000 (a :: l)) in *. set (rest := drop 1000 (a :: l)) in *.
    assert (Hfirst : first <> []) by (unfold first; discriminate).
    destruct j as [|j].
    + injection Hj as <-. rewrite Nat.add_0_r in Hbad.
      destruct (checkReceiptsBatch_unanswered transport first n Hfirst Hbad) as (e & ->).
      exists e. reflexivity.
    + destruct (Hbefore O first ltac:(lia) eq_refl) as (response & Hout & Herr).
      rewrite Nat.add_0_r in Hout.
      rewrite (checkReceiptsBatch_answered transport first n response Hfirst Hout Herr).
      destruct (IH rest ((receiptResult <$> Data response) ∪ allResults)
                  (n ++ [first])%list j batch Hj) as (e & ->).
      * intros i b Hi Hb. rewrite length_app. cbn [length].
        replace (length n + 1 + i)%nat with (length n + S i)%nat by lia.
        apply Hbefore; [lia|exact Hb].
      * rewrite length_app. cbn [length].
        replace (length n + 1 + j)%nat with (length n + S j)%nat by lia. exact Hbad.
      * exists e. rewrite <- app_assoc. reflexivity.
Qed.

Lemma receiptResult_sound receipt :
  (Delivered (receiptResult receipt) = true <-> Status receipt = "ok")
  /\ (Delivered (receiptResult receipt) = true <-> Error (receiptResult receipt) = None)
  /\ (DeviceUnregistered (receiptResult receipt) = true ->
      Delivered (receiptResult receipt) = false
      /\ Details receipt = Some "DeviceNotRegistered").
Proof.
  unfold receiptResult. destruct (String.eqb (Status receipt) "ok") eqn:Hok; cbn.
  - apply String.eqb_eq in Hok. split; [tauto|]. split; [tauto|discriminate].
  - apply String.eqb_neq in Hok. split; [split; [discriminate|contradiction]|].
    split; [split; discriminate|]. intros Hdev. split; [reflexivity|].
    destruct (Details receipt) as [e|]; [|discriminate].
    apply String.eqb_eq in Hdev. rewrite Hdev. reflexivity.
Qed.

(** X28.  [CheckReceipts] asks for the receipts in consecutive batches of
    at most 1000 ids and is all or nothing.  Without ids it makes no
    request.  When every batch is answered without API errors it posts each
    batch once, in order, and every result it returns is the reading of a
    receipt some response held under that id: delivered exactly when the
    receipt's status is ok, never delivered and unregistered at once.  At
    the first batch that is not answered so, it stops and returns the
    error, and what the earlier batches returned is lost. *)
Theorem CheckReceipts_all_or_nothing (transport : Transport) (receiptIDs : list string)
    (n : Net) :
  (receiptIDs = [] -> CheckReceipts transport receiptIDs n = (Ok ∅, n))
  /\ ((forall i batch, receiptBatches receiptIDs !! i = Some batch ->
                       answered transport (length n + i)%nat batch) ->
      exists results,
        CheckReceipts transport receiptIDs n
        = (Ok results, (n ++ receiptBatches receiptIDs)%list)
        /\ forall id r, results !! id = Some r ->
             (Delivered r = true <-> ResultStatus r = "ok")
             /\ (Delivered r = true <-> Error r = None)
             /\ (DeviceUnregistered r = true -> Delivered r = false)
             /\ exists i batch response receipt,
                  receiptBatches receiptIDs !! i = Some batch
                  /\ transport (length n + i)%nat batch = Ok response
                  /\ Data response !! id = Some receipt
                  /\ r = receiptResult receipt)
  /\ (forall j batch,
        receiptBatches receiptIDs !! j = Some batch ->
        (forall i b, (i < j)%nat -> receiptBatches receiptIDs !! i = Some b ->
                     answered transport (length n + i)%nat b) ->
        ~ answered transport (length n + j)%nat batch ->
        exists e,
          CheckReceipts transport receiptIDs n
          = (Err e, (n ++ take (S j) (receiptBatches receiptIDs))%list)).
Proof.
  unfold CheckReceipts, receiptBatches. split; [intros ->; reflexivity|]. split.
  - intros Hans. destruct receiptIDs as [|a l].
    { exists ∅. cbn. rewrite app_nil_r. split; [reflexivity|].
      intros id r Hr. rewrite lookup_empty in Hr. discriminate. }
    assert ((Z.of_nat (length (a :: l)) =? 0) = false) as ->
      by (apply Z.eqb_neq; cbn [length]; lia).
    destruct (receiptsLoop_answered transport (length (a :: l)) (a :: l) ∅ n Hans)
      as (results & Heq & Hres).
    exists results. split; [exact Heq|]. intros id r Hr.
    destruct (Hres id r Hr) as [Hacc|(i & b & resp & receipt & Hi & Ht & Hd & ->)];
      [rewrite lookup_empty in Hacc; discriminate|].
    pose proof (receiptResult_sound receipt) as (H1 & H2 & H3).
    split; [unfold receiptResult in *; destruct (String.eqb (Status receipt) "ok") eqn:E;
            cbn in *; [apply String.eqb_eq in E; tauto|
                       apply String.eqb_neq in E; split; [discriminate|congruence]]|].
    split; [exact H2|]. split; [intros Hdev; apply H3, Hdev|].
    exists i, b, resp, receipt. auto.
  - intros j batch Hj Hbefore Hbad. destruct receiptIDs as [|a l]; [discriminate|].
    assert ((Z.of_nat (length (a :: l)) =? 0) = false) as ->
      by (apply Z.eqb_neq; cbn [length]; lia).
    exact (receiptsLoop_unanswered transport (length (a :: l)) (a :: l) ∅ n j batch
             Hj Hbefore Hbad).
Qed.

End Receipts.

Lemma CheckReceipts_all_or_nothing_witness :
  exists results,
    expo_receipts.CheckReceipts deliveredTransport ["r1"; "r2"] []
    = (expo_receipts.Ok results, ([] ++ receiptBatches ["r1"; "r2"])%list)
    /\ results !! "r1" <> None.
Proof.
  destruct (proj1 (proj2 (CheckReceipts_all_or_nothing deliveredTransport ["r1"; "r2"] [])))
    as (results & Heq & _).
  - intros i batch Hi. eexists. split; reflexivity.
  - exists results. split; [exact Heq|]. vm_compute in Heq. injection Heq as <-.
    vm_compute. discriminate.
Defined.

(** ** Properties of the socket payload *)

Section SocketPayload.
Import socket_client_service socket_client push_service pushcenter.

Lemma processChatMessage_no_recipients pc now chatMsg data w :
  socket_client_service.Data chatMsg = Some data -> RepostMetaIds data = [] ->
  processChatMessage pc now chatMsg w = w.
Proof.
  intros Hdata Hrep. unfold processChatMessage. rewrite Hdata.
  destruct (parseMessageInfo chatMsg); [|reflexivity].
  destruct (negb (passesDedup _ _)); [reflexivity|]. rewrite Hrep. reflexivity.
Qed.

(** X29.  A socket payload that lists no recipient goes nowhere: when the
    payload is not a JSON string and, if it is a map, its [repostMetaIds]
    entry is missing, is not an array, or holds no string, then handing it
    to the relay as a private or a group chat message changes nothing: no
    dispatcher call, no request, no pin on record. *)
Theorem payload_without_recipients_is_ignored (pc : PushCenter) (now : Z)
    (unmarshal : string -> option ExtraServiceMessage) (D : Value) (w : World) :
  (forall dataStr, D <> VString dataStr) ->
  (forall dataMap, D = VMap dataMap -> stringArrayField dataMap "repostMetaIds" = []) ->
  handlePrivateChatMessage (relayClient pc now unmarshal) D w = w
  /\ handleGroupChatMessage (relayClient pc now unmarshal) D w = w.
Proof.
  intros Hstr Hmap.
  assert (Hgen : forall chatType, handleChatData (relayClient pc now unmarshal) chatType D w = w).
  { intros chatType. unfold handleChatData, relayClient.
    cbn [OnChatNotificationMessage socket_client.unmarshal].
    assert (Hparse : exists data, parseExtraServiceMessage unmarshal D = Ok data
                                  /\ RepostMetaIds data = []).
    { destruct D; try (eexists; split; reflexivity).
      - exfalso. eapply Hstr. reflexivity.
      - eexists. split; [reflexivity|]. cbn [RepostMetaIds]. apply Hmap. reflexivity. }
    destruct Hparse as (data & -> & Hrep). unfold handleChatMessage.
    cbn [socket_client_service.Data Type_].
    destruct (negb (isMessageTypeEnabled pc chatType)); [reflexivity|].
    apply (processChatMessage_no_recipients pc now _ data w); [reflexivity|exact Hrep]. }
  split; apply Hgen.
Qed.

End SocketPayload.

Lemma payload_without_recipients_is_ignored_witness :
  socket_client.handlePrivateChatMessage (relayClient exampleCenter 7 (fun _ => None))
    (VMap [("message", VMap [("pinId", VString "P9"); ("metaId", VString "u1")]);
           ("repostMetaIds", VSlice [VFloat64 (1 # 1); VNil])]) exampleWorld
  = exampleWorld
  /\ socket_client.handleGroupChatMessage (relayClient exampleCenter 7 (fun _ => None))
       (VMap [("message", VMap [("pinId", VString "P9"); ("metaId", VString "u1")]);
              ("repostMetaIds", VSlice [VFloat64 (1 # 1); VNil])]) exampleWorld
     = exampleWorld.
Proof.
  apply (payload_without_recipients_is_ignored exampleCenter 7 (fun _ => None)
           (VMap [("message", VMap [("pinId", VString "P9"); ("metaId", VString "u1")]);
                  ("repostMetaIds", VSlice [VFloat64 (1 # 1); VNil])]) exampleWorld).
  - intros dataStr. discriminate.
  - intros dataMap [= <-]. reflexivity.
Defined.

(** ** Properties of the in-memory token store *)

Section InMemoryStore.
Import push_service push_service.MemoryTokenStore.

(** X30.  The in-memory token store keeps no single-owner rule: after user
    [A] and then another user [B] register the same token on a platform,
    both hold it; a registration changes nothing but the one platform entry
    of the one user, and [RemoveUserToken] undoes it. *)
Theorem MemoryTokenStore_no_transfer (now1 now2 now3 : Z) (A B platform token : string)
    (m : t) :
  A <> B ->
  Tokens (GetUserTokens A (SetUserToken now2 B platform token
                             (SetUserToken now1 A platform token m))) !! platform
  = Some token
  /\ Tokens (GetUserTokens B (SetUserToken now2 B platform token
                                (SetUserToken now1 A platform token m))) !! platform
     = Some token
  /\ (forall k, k <> A -> k <> B ->
        GetUserTokens k (SetUserToken now2 B platform token
                           (SetUserToken now1 A platform token m))
        = GetUserTokens k m)
  /\ (forall q, q <> platform ->
        Tokens (GetUserTokens A (SetUserToken now1 A platform token m)) !! q
        = Tokens (GetUserTokens A m) !! q)
  /\ Tokens (GetUserTokens A (RemoveUserToken now3 A platform
                                (SetUserToken now1 A platform token m)))
     = delete platform (Tokens (GetUserTokens A m)).
Proof.
  intros Hne. unfold GetUserTokens, SetUserToken, RemoveUserToken, t in *. cbv zeta.
  split; [|split; [|split; [|split]]].
  - rewrite lookup_insert_ne, lookup_insert_eq by congruence. cbn. apply lookup_insert_eq.
  - rewrite lookup_insert_eq. cbn. apply lookup_insert_eq.
  - intros k HA HB. rewrite !lookup_insert_ne by congruence. reflexivity.
  - intros q Hq. rewrite lookup_insert_eq. cbn. apply lookup_insert_ne. congruence.
  - rewrite !lookup_insert_eq. cbn. apply delete_insert_eq.
Qed.

End InMemoryStore.

Lemma MemoryTokenStore_no_transfer_witness :
  push_service.Tokens
    (push_service.MemoryTokenStore.GetUserTokens "u1"
       (push_service.MemoryTokenStore.SetUserToken 2 "u2" "expo" "ExponentPushToken[AAA]"
          (push_service.MemoryTokenStore.SetUserToken 1 "u1" "expo" "ExponentPushToken[AAA]"
             push_service.MemoryTokenStore.NewMemoryTokenStore))) !! "expo"
  = Some "ExponentPushToken[AAA]"
  /\ push_service.Tokens
       (push_service.MemoryTokenStore.GetUserTokens "u2"
          (push_service.MemoryTokenStore.SetUserToken 2 "u2" "expo" "ExponentPushToken[AAA]"
             (push_service.MemoryTokenStore.SetUserToken 1 "u1" "expo"
                "ExponentPushToken[AAA]"
                push_service.MemoryTokenStore.NewMemoryTokenStore))) !! "expo"
     = Some "ExponentPushToken[AAA]"
  /\ (forall k, k <> "u1" -> k <> "u2" ->
        push_service.MemoryTokenStore.GetUserTokens k
          (push_service.MemoryTokenStore.SetUserToken 2 "u2" "expo" "ExponentPushToken[AAA]"
             (push_service.MemoryTokenStore.SetUserToken 1 "u1" "expo"
                "ExponentPushToken[AAA]"
                push_service.MemoryTokenStore.NewMemoryTokenStore))
        = push_service.MemoryTokenStore.GetUserTokens k
            push_service.MemoryTokenStore.NewMemoryTokenStore)
  /\ (forall q, q <> "expo" ->
        push_service.Tokens
          (push_service.MemoryTokenStore.GetUserTokens "u1"
             (push_service.MemoryTokenStore.SetUserToken 1 "u1" "expo"
                "ExponentPushToken[AAA]"
                push_service.MemoryTokenStore.NewMemoryTokenStore)) !! q
        = push_service.Tokens
            (push_service.MemoryTokenStore.GetUserTokens "u1"
               push_service.MemoryTokenStore.NewMemoryTokenStore) !! q)
  /\ push_service.Tokens
       (push_service.MemoryTokenStore.GetUserTokens "u1"
          (push_service.MemoryTokenStore.RemoveUserToken 3 "u1" "expo"
             (push_service.MemoryTokenStore.SetUserToken 1 "u1" "expo"
                "ExponentPushToken[AAA]"
                push_service.MemoryTokenStore.NewMemoryTokenStore)))
     = delete "expo"
         (push_service.Tokens
            (push_service.MemoryTokenStore.GetUserTokens "u1"
               push_service.MemoryTokenStore.NewMemoryTokenStore)).
Proof.
  apply (MemoryTokenStore_no_transfer 1 2 3 "u1" "u2" "expo" "ExponentPushToken[AAA]"
           push_service.MemoryTokenStore.NewMemoryTokenStore).
  discriminate.
Defined.
